(** * IELTS AI backend: a shallow embedding of the request handlers

    The repository ships the same service twice: an Express application
    ([server.js]) and a set of serverless functions ([api/order-test.js],
    [api/test/[testId].js], [api/test/[testId]/submit.js],
    [api/job/[jobId].js], [api/health.js]).  Both are embedded here, each
    handler as a function in a state-and-exception monad over the
    process-wide stores.

    Modelling conventions:
    - JavaScript values that flow through the handlers (request bodies,
      model replies, generated tests) are [value]s; numbers are IEEE
      binary64 floats, as in the language;
    - [ORDERS], [TESTS], [SUBMISSIONS] and [RATE] are plain objects: each
      is a finite map holding its own properties, and a read under a key
      it does not own goes on to its prototype.  The prototype is
      [Object.prototype], except that an assignment to [TESTS] under the
      key [__proto__] makes the assigned test the prototype of [TESTS];
      [ORDER_KEYS] keeps the order in which the keys of [ORDERS] were
      created, which is the order [Object.values] follows;
    - identifiers returned by [uuidv4()] and by
      [Number.prototype.toString(36)] are written as ordinary own
      properties: neither function returns [__proto__];
    - ToString raises a TypeError on an object whose own [toString] is
      not a function, which is the case of every parsed JSON object that
      carries a [toString] key;
    - [uuidv4()], [Date.now()], [Math.random()] and [fetch] are oracles
      of the runtime, consulted in order; every [fetch] is logged;
    - a handler runs from its first statement to its response without
      interleaving with another handler. *)

From Stdlib Require Import ZArith List String Ascii Floats Lia Bool.
From stdpp Require Import base option list gmap strings pretty.

Local Open Scope string_scope.
Local Open Scope Z_scope.

(** ** JavaScript values *)

#[warnings="-register-all"]
Inductive value : Type :=
| VUndef
| VNull
| VBool (b : bool)
| VNum (x : float)
| VStr (s : string)
| VArr (elems : list value)
| VObj (props : list (string * value)).

(** ToBoolean. *)
Definition truthy (v : value) : bool :=
  match v with
  | VUndef | VNull => false
  | VBool b => b
  | VNum x => negb (PrimFloat.eqb x 0%float || PrimFloat.is_nan x)
  | VStr s => negb (String.eqb s EmptyString)
  | VArr _ | VObj _ => true
  end.

(** [a || b] and [a && b] on values whose right operand has no effect. *)
Definition or_else (a b : value) : value := if truthy a then a else b.
Definition and_then (a b : value) : value := if truthy a then b else a.

(** Own-property lookup; the effective binding of a key comes first. *)
Fixpoint assoc (k : string) (props : list (string * value)) : value :=
  match props with
  | [] => VUndef
  | (k', v) :: rest => if String.eqb k k' then v else assoc k rest
  end.

Definition has_key (k : string) (props : list (string * value)) : bool :=
  existsb (fun kv => String.eqb k (fst kv)) props.

(** The properties of [Object.prototype]: its methods, [constructor], and
    the accessor [__proto__]. *)
Definition Object_prototype_has (k : string) : bool :=
  existsb (String.eqb k)
    ["__proto__"; "constructor"; "hasOwnProperty"; "isPrototypeOf";
     "propertyIsEnumerable"; "toLocaleString"; "toString"; "valueOf";
     "__defineGetter__"; "__defineSetter__"; "__lookupGetter__";
     "__lookupSetter__"].

(** What a read [store[key]] of a plain object yields: a stored or
    inherited data value, the member of [Object.prototype] that the key
    names (a function, or [Object.prototype] itself for [__proto__]), or
    [undefined]. *)
Inductive property : Type :=
| Found (v : value)
| Builtin (name : string)
| Absent.

(** [v.k] for a named (non-index) property [k], none of which is a
    prototype property of any value.  [None] is the TypeError raised on
    [null] and [undefined]. *)
Definition get_prop (v : value) (k : string) : option value :=
  match v with
  | VUndef | VNull => None
  | VObj props => Some (assoc k props)
  | VBool _ | VNum _ | VStr _ | VArr _ => Some VUndef
  end.

(** [v[0]]. *)
Definition get_first (v : value) : option value :=
  match v with
  | VUndef | VNull => None
  | VObj props => Some (assoc "0" props)
  | VArr elems => Some (default VUndef (head elems))
  | VStr (String c _) => Some (VStr (String c EmptyString))
  | VStr EmptyString | VBool _ | VNum _ => Some VUndef
  end.

(** [v?.k] and [v?.[0]]. *)
Definition opt_prop (v : value) (k : string) : value :=
  default VUndef (get_prop v k).
Definition opt_first (v : value) : value :=
  default VUndef (get_first v).

(** [v === s] for a string [s]. *)
Definition strict_eq_str (v : value) (s : string) : bool :=
  match v with
  | VStr s' => String.eqb s' s
  | _ => false
  end.

(** Default parameter values apply to [undefined] only. *)
Definition param_default (v d : value) : value :=
  match v with VUndef => d | _ => v end.

Definition join_with (sep : string) (parts : list string) : string :=
  String.concat sep parts.

(** ** Stored records *)

Inductive Status : Type := ready | graded.

Record Order : Type := mkOrder {
  orderId : string;
  order_testId : value;
  order_test : value;
  status : Status;
  order_createdAt : string;
  order_type : value;
  order_level : value;
  testUrl : string
}.

Inductive JobInput : Type :=
| with_transcript (transcript : value)
| with_answers (answers : value).

Record Job : Type := mkJob {
  jobId : string;
  job_testId : string;
  job_type : string;
  job_input : JobInput;
  result : value;
  job_createdAt : string
}.

(** ** The outside world *)

Inductive http_reply : Type :=
| NetworkError (message : string)
| HttpReply (http_status : Z) (body : string).

Definition reply_ok (st : Z) : bool := (200 <=? st) && (st <=? 299).

Record ChatRequest : Type := mkChat {
  chat_authorization : string;
  chat_model : string;
  chat_messages : list (string * string);
  chat_temperature : Z;
  chat_max_tokens : Z
}.

Inductive ext_call : Type :=
| ChatCompletions (rq : ChatRequest)
| AudioTranscriptions (authorization : string) (file : string) (model : string).

(** Everything the handlers take from the runtime, the environment and the
    network. *)
Record Runtime : Type := mkRuntime {
  Number_toString : float -> string;
  Number_toString36 : float -> string;
  JSON_parse : string -> option value;
  encodeURIComponent : string -> option string;
  toISOString : Z -> string;
  TypeError_message : value -> string -> string;
  SyntaxError_message : string -> string;
  URIError_message : string -> string;
  ToPrimitive_message : value -> string;
  NotAFunction_message : string -> string;
  OPENAI_API_KEY : option string;
  OPENAI_MODEL : option string;
  SITE_BASE : option string;
  uuidv4_draw : nat -> string;
  Date_now_at : nat -> Z;
  Math_random_at : nat -> float;
  fetch_reply : nat -> http_reply
}.

Record World : Type := mkWorld {
  ORDERS : gmap string Order;
  ORDER_KEYS : list string;
  TESTS : gmap string value;
  TESTS_proto : option (list (string * value));
  SUBMISSIONS : gmap string Job;
  RATE : gmap string (list Z);
  uuid_draws : nat;
  clock_reads : nat;
  random_draws : nat;
  fetches : list ext_call
}.

Definition init_world : World :=
  mkWorld ∅ [] ∅ None ∅ ∅ 0 0 0 [].

(** ** Handlers run in a state-and-exception monad *)

Inductive Outcome (A : Type) : Type :=
| Returns (a : A)
| Throws (message : string).
Arguments Returns {A} a.
Arguments Throws {A} message.

Definition M (A : Type) : Type := World -> Outcome A * World.

Definition ret {A} (a : A) : M A := fun w => (Returns a, w).
Definition throw {A} (msg : string) : M A := fun w => (Throws msg, w).
Definition bind {A B} (m : M A) (k : A -> M B) : M B :=
  fun w => match m w with
           | (Returns a, w') => k a w'
           | (Throws msg, w') => (Throws msg, w')
           end.
Definition try_catch {A} (m : M A) (h : string -> M A) : M A :=
  fun w => match m w with
           | (Returns a, w') => (Returns a, w')
           | (Throws msg, w') => h msg w'
           end.
Definition modify (f : World -> World) : M unit :=
  fun w => (Returns tt, f w).
Definition gets {A} (f : World -> A) : M A :=
  fun w => (Returns (f w), w).
Definition lift_opt {A} (o : option A) (msg : string) : M A :=
  match o with Some a => ret a | None => throw msg end.

(** Applied to a world, the operations of the monad unfold under [simpl]
    and [cbn], so that a handler is run one statement after the other. *)
Arguments ret {A} a w /.
Arguments throw {A} msg w /.
Arguments bind {A B} m k w /.
Arguments try_catch {A} m h w /.
Arguments modify f w /.
Arguments gets {A} f w /.
Arguments lift_opt {A} o msg /.

Notation "'let!' x ':=' m 'in' k" := (bind m (fun x => k))
  (at level 10, x pattern, m at level 100, k at level 200).
Notation "m ';;' k" := (bind m (fun _ => k))
  (at level 100, k at level 200, right associativity).

(** ** Runtime primitives *)

Definition dq : string := String (ascii_of_nat 34) EmptyString.
Definition nl : string := String (ascii_of_nat 10) EmptyString.
Definition quoted (s : string) : string := dq ++ s ++ dq.

Definition set_ORDERS (f : gmap string Order -> gmap string Order) (w : World) : World :=
  mkWorld (f (ORDERS w)) (ORDER_KEYS w) (TESTS w) (TESTS_proto w) (SUBMISSIONS w) (RATE w)
          (uuid_draws w) (clock_reads w) (random_draws w) (fetches w).
Definition set_ORDER_KEYS (f : list string -> list string) (w : World) : World :=
  mkWorld (ORDERS w) (f (ORDER_KEYS w)) (TESTS w) (TESTS_proto w) (SUBMISSIONS w) (RATE w)
          (uuid_draws w) (clock_reads w) (random_draws w) (fetches w).
Definition set_TESTS (f : gmap string value -> gmap string value) (w : World) : World :=
  mkWorld (ORDERS w) (ORDER_KEYS w) (f (TESTS w)) (TESTS_proto w) (SUBMISSIONS w) (RATE w)
          (uuid_draws w) (clock_reads w) (random_draws w) (fetches w).
Definition set_TESTS_proto (p : option (list (string * value))) (w : World) : World :=
  mkWorld (ORDERS w) (ORDER_KEYS w) (TESTS w) p (SUBMISSIONS w) (RATE w)
          (uuid_draws w) (clock_reads w) (random_draws w) (fetches w).
Definition set_SUBMISSIONS (f : gmap string Job -> gmap string Job) (w : World) : World :=
  mkWorld (ORDERS w) (ORDER_KEYS w) (TESTS w) (TESTS_proto w) (f (SUBMISSIONS w)) (RATE w)
          (uuid_draws w) (clock_reads w) (random_draws w) (fetches w).
Definition set_RATE (f : gmap string (list Z) -> gmap string (list Z)) (w : World) : World :=
  mkWorld (ORDERS w) (ORDER_KEYS w) (TESTS w) (TESTS_proto w) (SUBMISSIONS w) (f (RATE w))
          (uuid_draws w) (clock_reads w) (random_draws w) (fetches w).

(** The world with one more external call in its log. *)
Definition logged (c : ext_call) (w : World) : World :=
  mkWorld (ORDERS w) (ORDER_KEYS w) (TESTS w) (TESTS_proto w) (SUBMISSIONS w) (RATE w)
          (uuid_draws w) (clock_reads w) (random_draws w) (fetches w ++ [c]).

(** [process.env.X] inside a template literal, and [process.env.X || d]. *)
Definition env_text (o : option string) : string := default "undefined" o.
Definition env_or (o : option string) (d : string) : string :=
  match o with
  | Some s => if String.eqb s EmptyString then d else s
  | None => d
  end.

(** [j.choices?.[0]?.message?.content || '']; [None] when [j] itself is
    [null], on which the first property access raises. *)
Definition content_of (j : value) : option value :=
  match get_prop j "choices" with
  | None => None
  | Some choices =>
      let c0 := match choices with VUndef | VNull => VUndef | _ => opt_first choices end in
      let msg := match c0 with VUndef | VNull => VUndef | _ => opt_prop c0 "message" end in
      let content := match msg with VUndef | VNull => VUndef | _ => opt_prop msg "content" end in
      Some (or_else content (VStr EmptyString))
  end.

(** What a chat-completion reply yields when the call succeeds. *)
Definition chat_text (parse : string -> option value) (r : http_reply) : option value :=
  match r with
  | NetworkError _ => None
  | HttpReply st body =>
      if reply_ok st
      then match parse body with Some j => content_of j | None => None end
      else None
  end.

(** [(answers[0] && answers[0].answerText) || ''] for a truthy [answers]. *)
Definition essay_of (answers : value) : value :=
  let a0 := opt_first answers in
  or_else (and_then a0 (opt_prop a0 "answerText")) (VStr EmptyString).

(** [test.questions && test.questions[0] && test.questions[0].prompt] *)
Definition prompt_of (test : value) : value :=
  let qs := opt_prop test "questions" in
  and_then qs (let q0 := opt_first qs in and_then q0 (opt_prop q0 "prompt")).

(** One entry of the [/api/my-tests] listing. *)
Record OrderSummary : Type := mkSummary {
  summary_orderId : string;
  summary_testId : value;
  summary_type : value;
  summary_level : value;
  summary_status : Status;
  summary_createdAt : string;
  summary_testUrl : string
}.

Inductive response : Type :=
| OrderOk (orderId : string) (testId : value) (testUrl : string)
| TestsOk (tests : list OrderSummary)
| TestOk (test : value)
| SubmitOk (jobId : string) (result : value)
| JobOk (job : Job)
| HealthOk (now : string)
| Error (code : Z) (error : string)
| TestBuiltin (name : string)
| JobBuiltin (name : string)
| ServerError (message : string).

(** [TestBuiltin] and [JobBuiltin] are the 200 responses
    [{ok: true, test: t}] and [{ok: true, job}] whose [t] or [job] is a
    member of [Object.prototype]; [ServerError] is the 500 page with
    which Express answers a throw in a route that has no [try]. *)

(** ** Plain objects as stores *)

Definition digit_of (c : ascii) : option N :=
  let n := N_of_ascii c in
  if ((48 <=? n) && (n <=? 57))%N then Some (n - 48)%N else None.

Fixpoint digits_value (acc : N) (s : string) : option N :=
  match s with
  | EmptyString => Some acc
  | String c rest =>
      match digit_of c with
      | Some d => digits_value (10 * acc + d)%N rest
      | None => None
      end
  end.

(** An array index is a canonical decimal numeral below [2^32 - 1]. *)
Definition array_index (k : string) : option N :=
  match k with
  | EmptyString => None
  | String c rest =>
      if Ascii.eqb c "0" && negb (String.eqb rest EmptyString) then None
      else match digits_value 0 k with
           | Some n => if (n <? 4294967295)%N then Some n else None
           | None => None
           end
  end.

Fixpoint insert_index (e : N * string) (l : list (N * string)) : list (N * string) :=
  match l with
  | [] => [e]
  | e' :: rest =>
      if (fst e <=? fst e')%N then e :: l else e' :: insert_index e rest
  end.

(** The own keys of an object whose properties were created in the order
    [keys]: array indices first, in ascending order, then the other keys
    in creation order. *)
Definition own_keys (keys : list string) : list string :=
  let indexed := omap (fun k => match array_index k with
                                | Some i => Some (i, k)
                                | None => None
                                end) keys in
  let named := List.filter (fun k => match array_index k with
                                     | Some _ => false
                                     | None => true
                                     end) keys in
  (map snd (foldr insert_index [] indexed) ++ named)%list.

(** [Object.values(o)] for the own properties [m]. *)
Definition Object_values {A : Type} (keys : list string) (m : gmap string A) : list A :=
  omap (fun k => m !! k) (own_keys keys).

(** [TESTS[key]] *)
Definition lookup_test (key : string) (w : World) : property :=
  match TESTS w !! key with
  | Some v => Found v
  | None =>
      match TESTS_proto w with
      | Some props =>
          if has_key key props then Found (assoc key props)
          else if String.eqb key "__proto__" then Found (VObj props)
          else if Object_prototype_has key then Builtin key
          else Absent
      | None => if Object_prototype_has key then Builtin key else Absent
      end
  end.

(** [TESTS[key] = test].  Under the key [__proto__] the assignment runs the
    setter inherited from [Object.prototype] unless a data property of
    that name is found first, on [TESTS] or on its prototype: the setter
    makes an object the prototype of [TESTS], ignores a primitive, and
    creates no property.  A test filed under a key that it supplies itself
    is an object. *)
Definition setter_applies (key : string) (w : World) : bool :=
  String.eqb key "__proto__"
  && match TESTS w !! key with Some _ => false | None => true end
  && match TESTS_proto w with
     | Some props => negb (has_key key props)
     | None => true
     end.

Definition TESTS_after (key : string) (test : value) (w : World) : gmap string value :=
  if setter_applies key w then TESTS w else <[key := test]> (TESTS w).

Definition TESTS_proto_after (key : string) (test : value) (w : World)
  : option (list (string * value)) :=
  if setter_applies key w
  then match test with
       | VObj props => Some props
       | _ => TESTS_proto w
       end
  else TESTS_proto w.

Definition assign_test (key : string) (test : value) (w : World) : World :=
  mkWorld (ORDERS w) (ORDER_KEYS w)
          (TESTS_after key test w) (TESTS_proto_after key test w)
          (SUBMISSIONS w) (RATE w)
          (uuid_draws w) (clock_reads w) (random_draws w) (fetches w).

Arguments TESTS_after : simpl never.
Arguments TESTS_proto_after : simpl never.

(** [ORDERS[orderId] = order]: a new key comes last in creation order. *)
Definition ORDER_KEYS_after (oid : string) (w : World) : list string :=
  match ORDERS w !! oid with
  | Some _ => ORDER_KEYS w
  | None => (ORDER_KEYS w ++ [oid])%list
  end.

Definition assign_order (oid : string) (order : Order) (w : World) : World :=
  mkWorld (<[oid := order]> (ORDERS w)) (ORDER_KEYS_after oid w)
          (TESTS w) (TESTS_proto w) (SUBMISSIONS w) (RATE w)
          (uuid_draws w) (clock_reads w) (random_draws w) (fetches w).

Arguments ORDER_KEYS_after : simpl never.

(** [!test] *)
Definition property_truthy (p : property) : bool :=
  match p with
  | Found v => truthy v
  | Builtin _ => true
  | Absent => false
  end.

Section Primitives.
Context (rt : Runtime).

(** ToString, as template literals, property keys, [JSON.parse] and
    [encodeURIComponent] apply it.  [ToPrimitive_ok] tells whether the
    conversion returns: an object is converted by its [toString], which is
    the inherited one unless the object owns a property of that name; an
    own [toString] of a parsed object is no function, and then [valueOf],
    own or inherited, yields no primitive either.  An array is joined from
    the conversions of its elements.  [ToString] is the string returned
    when the conversion returns. *)
Fixpoint ToPrimitive_ok (v : value) : bool :=
  match v with
  | VObj props => negb (has_key "toString" props)
  | VArr elems =>
      forallb (fun e => match e with
                        | VUndef | VNull => true
                        | _ => ToPrimitive_ok e
                        end) elems
  | _ => true
  end.

Fixpoint ToString (v : value) : string :=
  match v with
  | VUndef => "undefined"
  | VNull => "null"
  | VBool true => "true"
  | VBool false => "false"
  | VNum x => Number_toString rt x
  | VStr s => s
  | VArr elems =>
      join_with ","
        (map (fun e => match e with
                       | VUndef | VNull => EmptyString
                       | _ => ToString e
                       end) elems)
  | VObj _ => "[object Object]"
  end.

(** [`${v}`], and the conversion of [v] wherever a string is required. *)
Definition to_string (v : value) : M string :=
  if ToPrimitive_ok v then ret (ToString v) else throw (ToPrimitive_message rt v).

Definition uuidv4 : M string :=
  fun w => (Returns (uuidv4_draw rt (uuid_draws w)),
            mkWorld (ORDERS w) (ORDER_KEYS w) (TESTS w) (TESTS_proto w)
                    (SUBMISSIONS w) (RATE w)
                    (S (uuid_draws w)) (clock_reads w) (random_draws w) (fetches w)).

Definition Date_now : M Z :=
  fun w => (Returns (Date_now_at rt (clock_reads w)),
            mkWorld (ORDERS w) (ORDER_KEYS w) (TESTS w) (TESTS_proto w)
                    (SUBMISSIONS w) (RATE w)
                    (uuid_draws w) (S (clock_reads w)) (random_draws w) (fetches w)).

(** [new Date().toISOString()] *)
Definition new_Date_toISOString : M string :=
  let! t := Date_now in ret (toISOString rt t).

Definition Math_random : M float :=
  fun w => (Returns (Math_random_at rt (random_draws w)),
            mkWorld (ORDERS w) (ORDER_KEYS w) (TESTS w) (TESTS_proto w)
                    (SUBMISSIONS w) (RATE w)
                    (uuid_draws w) (clock_reads w) (S (random_draws w)) (fetches w)).

(** [await fetch(...)]: the call is logged, a network failure rejects. *)
Definition fetch (c : ext_call) : M http_reply :=
  fun w =>
    match fetch_reply rt (length (fetches w)) with
    | NetworkError msg => (Throws msg, logged c w)
    | r => (Returns r, logged c w)
    end.

(** [await res.json()] *)
Definition res_json (body : string) : M value :=
  lift_opt (JSON_parse rt body) (SyntaxError_message rt body).

(** [JSON.parse(v)] *)
Definition JSON_parse_value (v : value) : M value :=
  let! s := to_string v in
  lift_opt (JSON_parse rt s) (SyntaxError_message rt s).

(** [v.k] where [v] may be [null] or [undefined]. *)
Definition prop (v : value) (k : string) : M value :=
  lift_opt (get_prop v k) (TypeError_message rt v k).

Definition encodeURIComponent_value (v : value) : M string :=
  let! s := to_string v in
  lift_opt (encodeURIComponent rt s) (URIError_message rt s).

(** A handler whose body is wrapped in [try { ... } catch (err) { 500 }]. *)
Definition respond (m : M response) (w : World) : response * World :=
  match m w with
  | (Returns r, w') => (r, w')
  | (Throws msg, w') => (Error 500 msg, w')
  end.

(** An Express route whose body is not wrapped. *)
Definition unguarded (m : M response) (w : World) : response * World :=
  match m w with
  | (Returns r, w') => (r, w')
  | (Throws msg, w') => (ServerError msg, w')
  end.

(** [j.choices?.[0]?.message?.content || ''] *)
Definition chat_content (j : value) : M value :=
  lift_opt (content_of j) (TypeError_message rt j "choices").

(** The grading fallback shared by every submit path:
    [try { parsed = JSON.parse(evalResp); } catch (e) { parsed = { raw: evalResp }; }] *)
Definition parse_or_raw (evalResp : value) : M value :=
  try_catch (JSON_parse_value evalResp)
            (fun _ => ret (VObj [("raw", evalResp)])).

(** [Object.values(ORDERS).forEach(o => { if (o.testId === tid) o.status = 'graded'; })] *)
Definition mark_graded (tid : string) (o : Order) : Order :=
  if strict_eq_str (order_testId o) tid
  then mkOrder (orderId o) (order_testId o) (order_test o) graded
               (order_createdAt o) (order_type o) (order_level o) (testUrl o)
  else o.

(** [`Prompt:\n${...}\n\nEssay:\n${essay}`] *)
Definition userContent (test essay : value) : M string :=
  let! p := to_string (prompt_of test) in
  let! e := to_string essay in
  ret ("Prompt:" ++ nl ++ p ++ nl ++ nl ++ "Essay:" ++ nl ++ e).

(** [SUBMISSIONS[jobId].result] *)
Definition stored_result (jobId : string) : M value :=
  let! subs := gets SUBMISSIONS in
  match subs !! jobId with
  | Some job => ret (result job)
  | None => throw (TypeError_message rt VUndef "result")
  end.

End Primitives.

Arguments to_string rt v w /.
Arguments uuidv4 rt w /.
Arguments Date_now rt w /.
Arguments new_Date_toISOString rt w /.
Arguments Math_random rt w /.
Arguments fetch rt c w /.
Arguments res_json rt body w /.
Arguments JSON_parse_value rt v w /.
Arguments prop rt v k w /.
Arguments encodeURIComponent_value rt v w /.
Arguments respond m w /.
Arguments unguarded m w /.
Arguments chat_content rt j w /.
Arguments userContent rt test essay w /.
Arguments stored_result rt jobId w /.

(** ** server.js *)

Module Server.
Section WithRuntime.
Context (rt : Runtime).

Definition OPENAI_KEY : string := env_text (OPENAI_API_KEY rt).
Definition MODEL : string := env_or (OPENAI_MODEL rt) "gpt-4o-mini".

Definition callOpenAIChat (messages : list (string * string)) : M value :=
  let! res := fetch rt (ChatCompletions
                (mkChat ("Bearer " ++ OPENAI_KEY) MODEL messages 0 900)) in
  match res with
  | NetworkError msg => throw msg
  | HttpReply st body =>
      if reply_ok st
      then let! j := res_json rt body in chat_content rt j
      else throw ("OpenAI chat error: " ++ pretty st ++ " " ++ body)
  end.

(** The template literal [sys]; its interpolations run from left to
    right. *)
Definition writing_instruction (id : string) (level numTasks : value) : M string :=
  let! n := to_string rt numTasks in
  let! l := to_string rt level in
  let! l' := to_string rt level in
  ret ("You are an expert IELTS writer. Create " ++ n
       ++ " Writing Task 2 prompts suitable for level " ++ l
       ++ ". Return ONLY valid JSON like:" ++ nl
       ++ "{" ++ dq ++ "test_id" ++ dq ++ ":" ++ dq ++ id ++ dq ++ ","
       ++ dq ++ "type" ++ dq ++ ":" ++ dq ++ "writing" ++ dq ++ ","
       ++ dq ++ "level" ++ dq ++ ":" ++ dq ++ l' ++ dq ++ ","
       ++ dq ++ "questions" ++ dq ++ ":[{" ++ dq ++ "id" ++ dq ++ ":" ++ dq ++ "q1" ++ dq ++ ","
       ++ dq ++ "title" ++ dq ++ ":" ++ dq ++ "Task 2" ++ dq ++ ","
       ++ dq ++ "prompt" ++ dq ++ ":" ++ dq ++ "..." ++ dq ++ "}]}").

Definition fallback_test (id : string) (level : value) : value :=
  VObj [("test_id", VStr id); ("type", VStr "writing"); ("level", level);
        ("questions",
         VArr [VObj [("id", VStr "q1"); ("title", VStr "Task 2");
                     ("prompt", VStr "Write an essay (250+ words) on: The benefits of online education.")]])].

Definition speaking_test (id : string) (level : value) : value :=
  VObj [("test_id", VStr id); ("type", VStr "speaking"); ("level", level);
        ("parts",
         VArr [VObj [("part", VNum 1%float);
                     ("items", VArr [VObj [("id", VStr "p1q1"); ("q", VStr "What is your full name?")];
                                     VObj [("id", VStr "p1q2"); ("q", VStr "Where are you from?")]])];
               VObj [("part", VNum 2%float);
                     ("cue", VStr "Describe a memorable trip you had.");
                     ("prep_time", VNum 60%float); ("speak_time", VNum 120%float)];
               VObj [("part", VNum 3%float);
                     ("items", VArr [VObj [("id", VStr "p3q1"); ("q", VStr "Why do people travel?")]])]])].

Definition stub_test (id : string) (type level : value) : value :=
  VObj [("test_id", VStr id); ("type", type); ("level", level); ("questions", VArr [])].

Definition generateTest (type level numTasks : value) : M value :=
  let type := param_default type (VStr "writing") in
  let level := param_default level (VStr "ielts-6") in
  let numTasks := param_default numTasks (VNum 1%float) in
  let! id := uuidv4 rt in
  if strict_eq_str type "writing" then
    let! sys := writing_instruction id level numTasks in
    try_catch
      (let! ai := callOpenAIChat
                    [("system", sys); ("user", "Return JSON only.")] in
       JSON_parse_value rt ai)
      (fun _ => ret (fallback_test id level))
  else if strict_eq_str type "speaking" then
    ret (speaking_test id level)
  else
    ret (stub_test id type level).

(** [`${SITE_BASE || ''}/?testId=${encodeURIComponent(testId)}`] *)
Definition make_testUrl (testId : value) : M string :=
  let! enc := encodeURIComponent_value rt testId in
  ret (env_or (SITE_BASE rt) EmptyString ++ "/?testId=" ++ enc).

(** [app.post('/api/order-test')] *)
Definition order_test (body : value) : World -> response * World :=
  respond
    (let b := or_else body (VObj []) in
     let testType := opt_prop b "testType" in
     let level := opt_prop b "level" in
     let numTasks := opt_prop b "numTasks" in
     if negb (truthy testType) then ret (Error 400 "testType required")
     else
       let! oid := uuidv4 rt in
       let! test := generateTest testType (or_else level (VStr "ielts-6"))
                                 (or_else numTasks (VNum 1%float)) in
       let! tid0 := prop rt test "test_id" in
       let! testId := (if truthy tid0 then ret tid0
                       else let! u := uuidv4 rt in ret (VStr u)) in
       let! key := to_string rt testId in
       modify (assign_test key test) ;;
       let! url := make_testUrl testId in
       let! created := new_Date_toISOString rt in
       let order := mkOrder oid testId test ready created testType
                            (or_else level (VStr "ielts-6")) url in
       modify (assign_order oid order) ;;
       ret (OrderOk oid testId url)).

(** [app.get('/api/my-tests')] *)
Definition my_tests : World -> response * World :=
  unguarded
    (let! orders := gets (fun w => Object_values (ORDER_KEYS w) (ORDERS w)) in
     let! list :=
       foldr (fun (o : Order) (acc : M (list OrderSummary)) =>
                let! url := make_testUrl (order_testId o) in
                let! rest := acc in
                ret (mkSummary (orderId o) (order_testId o) (order_type o) (order_level o)
                               (status o) (order_createdAt o) url :: rest))
             (ret []) orders in
     ret (TestsOk list)).

(** [app.get('/api/test/:testId')] *)
Definition get_test (testId : string) (w : World) : response * World :=
  match lookup_test testId w with
  | Found t => if truthy t then (TestOk t, w) else (Error 404 "test not found", w)
  | Builtin name => (TestBuiltin name, w)
  | Absent => (Error 404 "test not found", w)
  end.

Definition speakingSystem : string :=
  "You are an experienced IELTS speaking examiner. Given the transcript, return ONLY valid JSON:" ++ nl
  ++ "{" ++ quoted "estimated_overall_band" ++ ": float, "
  ++ quoted "band_by_criteria" ++ ":{" ++ quoted "fluency" ++ ":float,"
  ++ quoted "lexical" ++ ":float," ++ quoted "grammar" ++ ":float,"
  ++ quoted "pronunciation" ++ ":float}, "
  ++ quoted "short_feedback" ++ ":" ++ quoted "..." ++ ", "
  ++ quoted "strengths" ++ ":[...], " ++ quoted "weaknesses" ++ ":[...], "
  ++ quoted "recommended_actionable_tips" ++ ":[...], "
  ++ quoted "confidence" ++ ": float }".

Definition writingSystem : string :=
  "You are an experienced IELTS writing examiner. Given the prompt and the essay, return ONLY valid JSON:" ++ nl
  ++ "{" ++ quoted "estimated_overall_band" ++ ": float, "
  ++ quoted "band_by_criteria" ++ ": {" ++ quoted "task" ++ ": float, "
  ++ quoted "cohesion" ++ ": float, " ++ quoted "lexical" ++ ": float, "
  ++ quoted "grammar" ++ ": float}, "
  ++ quoted "short_feedback" ++ ":" ++ quoted "..." ++ ", "
  ++ quoted "strengths" ++ ":[...], " ++ quoted "weaknesses" ++ ":[...], "
  ++ quoted "recommended_actionable_tips" ++ ":[...], "
  ++ quoted "confidence" ++ ": float }".

(** [app.post('/api/test/:testId/submit')]; [file] is [req.file]'s buffer. *)
Definition submit (tid : string) (file : option string) (body : value)
  : World -> response * World :=
  respond
    (let! test := gets (lookup_test tid) in
     if negb (property_truthy test) then ret (Error 404 "test not found")
     else
       match file with
       | Some buffer =>
           let! tr := fetch rt (AudioTranscriptions ("Bearer " ++ OPENAI_KEY)
                                                    buffer "whisper-1") in
           match tr with
           | NetworkError msg => throw msg
           | HttpReply st text =>
               if negb (reply_ok st) then throw ("Transcription failed: " ++ text)
               else
                 let! trj := res_json rt text in
                 let! t := prop rt trj "text" in
                 let transcript := or_else t (VStr EmptyString) in
                 let! said := to_string rt transcript in
                 let! evalResp :=
                   callOpenAIChat
                     [("system", speakingSystem);
                      ("user", "Transcript:" ++ nl ++ nl ++ said)] in
                 let! parsed := parse_or_raw rt evalResp in
                 let! jobId := uuidv4 rt in
                 let! created := new_Date_toISOString rt in
                 modify (set_SUBMISSIONS
                           (insert jobId (mkJob jobId tid "speaking"
                                                (with_transcript transcript) parsed created))) ;;
                 modify (set_ORDERS (fmap (mark_graded tid))) ;;
                 let! r := stored_result rt jobId in
                 ret (SubmitOk jobId r)
           end
       | None =>
           let b := or_else body (VObj []) in
           let answers := or_else (opt_prop b "answers") (VArr []) in
           match test with
           | Found test =>
               if strict_eq_str (opt_prop test "type") "writing" then
                 let essay := essay_of answers in
                 let! content := userContent rt test essay in
                 let! evalResp :=
                   callOpenAIChat [("system", writingSystem); ("user", content)] in
                 let! parsed := parse_or_raw rt evalResp in
                 let! jobId := uuidv4 rt in
                 let! created := new_Date_toISOString rt in
                 modify (set_SUBMISSIONS
                           (insert jobId (mkJob jobId tid "writing"
                                                (with_answers answers) parsed created))) ;;
                 modify (set_ORDERS (fmap (mark_graded tid))) ;;
                 let! r := stored_result rt jobId in
                 ret (SubmitOk jobId r)
               else ret (Error 400 "Unsupported submission type")
           | Builtin _ | Absent =>
               (* a member of [Object.prototype] has no [type] *)
               ret (Error 400 "Unsupported submission type")
           end
       end).

(** [app.get('/api/job/:jobId')] *)
Definition get_job (jobId : string) (w : World) : response * World :=
  match SUBMISSIONS w !! jobId with
  | Some job => (JobOk job, w)
  | None =>
      if Object_prototype_has jobId then (JobBuiltin jobId, w)
      else (Error 404 "job not found", w)
  end.

(** [app.get('/api/health')] *)
Definition health : World -> response * World :=
  respond (let! now := new_Date_toISOString rt in ret (HealthOk now)).

Inductive request : Type :=
| PostOrderTest (body : value)
| GetMyTests
| GetTest (testId : string)
| PostSubmit (testId : string) (file : option string) (body : value)
| GetJob (jobId : string)
| GetHealth.

Definition serve (rq : request) : World -> response * World :=
  match rq with
  | PostOrderTest body => order_test body
  | GetMyTests => my_tests
  | GetTest testId => get_test testId
  | PostSubmit testId file body => submit testId file body
  | GetJob jobId => get_job jobId
  | GetHealth => health
  end.

End WithRuntime.
End Server.

(** ** api/order-test.js *)

Record ApiRequest : Type := mkApiRequest {
  method : string;
  x_forwarded_for : option string;
  remoteAddress : option string;
  content_type : option string;
  req_body : value
}.

Definition DAY : Z := 24 * 60 * 60 * 1000.

(** [bucket.filter(t => now - t < 24*60*60*1000)] *)
Definition prune (now : Z) (bucket : list Z) : list Z :=
  filter (fun t => now - t < DAY) bucket.

Module ApiOrderTest.
Section WithRuntime.
Context (rt : Runtime).

Definition callOpenAIChat (messages : list (string * string)) : M value :=
  let key := env_text (OPENAI_API_KEY rt) in
  let model := env_or (OPENAI_MODEL rt) "gpt-4o-mini" in
  let! res := fetch rt (ChatCompletions (mkChat ("Bearer " ++ key) model messages 0 900)) in
  match res with
  | NetworkError msg => throw msg
  | HttpReply st body =>
      if reply_ok st
      then let! j := res_json rt body in chat_content rt j
      else throw ("OpenAI error: " ++ pretty st ++ " " ++ body)
  end.

Definition writing_instruction (id : string) (level numTasks : value) : M string :=
  let! n := to_string rt numTasks in
  let! l := to_string rt level in
  let! l' := to_string rt level in
  ret ("You are an expert IELTS writer. Create " ++ n
       ++ " Writing Task 2 prompt suitable for level " ++ l
       ++ ". Return ONLY valid JSON like:" ++ nl
       ++ "{" ++ quoted "test_id" ++ ":" ++ quoted id ++ ","
       ++ quoted "type" ++ ":" ++ quoted "writing" ++ ","
       ++ quoted "level" ++ ":" ++ quoted l' ++ ","
       ++ quoted "questions" ++ ":[{" ++ quoted "id" ++ ":" ++ quoted "q1" ++ ","
       ++ quoted "title" ++ ":" ++ quoted "Task 2" ++ ","
       ++ quoted "prompt" ++ ":" ++ quoted "..." ++ "}]}").

Definition fallback_test (id : string) (level : value) : value :=
  VObj [("test_id", VStr id); ("type", VStr "writing"); ("level", level);
        ("questions",
         VArr [VObj [("id", VStr "q1"); ("title", VStr "Task 2");
                     ("prompt", VStr "Write an essay (250+ words) on: The benefits of online education.")]])].

Definition speaking_test (id : string) (level : value) : value :=
  VObj [("test_id", VStr id); ("type", VStr "speaking"); ("level", level);
        ("parts",
         VArr [VObj [("part", VNum 1%float);
                     ("items", VArr [VObj [("id", VStr "p1q1"); ("q", VStr "What is your full name?")]])];
               VObj [("part", VNum 2%float);
                     ("cue", VStr "Describe a memorable trip you had.");
                     ("prep_time", VNum 60%float); ("speak_time", VNum 120%float)]])].

Definition stub_test (id : string) (type level : value) : value :=
  VObj [("test_id", VStr id); ("type", type); ("level", level); ("questions", VArr [])].

Definition generateTest (type level numTasks : value) : M value :=
  let type := param_default type (VStr "writing") in
  let level := param_default level (VStr "ielts-6") in
  let numTasks := param_default numTasks (VNum 1%float) in
  let! id := uuidv4 rt in
  if strict_eq_str type "writing" then
    let! sys := writing_instruction id level numTasks in
    try_catch
      (let! ai := callOpenAIChat
                    [("system", sys); ("user", "Return JSON only.")] in
       JSON_parse_value rt ai)
      (fun _ => ret (fallback_test id level))
  else if strict_eq_str type "speaking" then
    ret (speaking_test id level)
  else
    ret (stub_test id type level).

(** [req.headers['x-forwarded-for'] || req.socket.remoteAddress || "guest"] *)
Definition client_ip (req : ApiRequest) : string :=
  env_or (x_forwarded_for req) (env_or (remoteAddress req) "guest").

(** The timestamps on record for a client. *)
Definition bucket_of (ip : string) (w : World) : list Z :=
  default [] (RATE w !! ip).

(** Lines 56 to 60 for a client whose [global.RATE[ip] || []] is the array
    [bucket]: [true] when the request may proceed. *)
Definition count_request (ip : string) (bucket : list Z) : M bool :=
  modify (set_RATE (insert ip bucket)) ;;
  let! now := Date_now rt in
  let kept := prune now bucket in
  modify (set_RATE (insert ip kept)) ;;
  if (5 <=? Z.of_nat (length kept))%Z then ret false
  else modify (set_RATE (insert ip (kept ++ [now])%list)) ;; ret true.

(** The statements between [const ip = ...] and [global.RATE[ip].push(now)].
    Under a key that [RATE] does not own but inherits,
    [global.RATE[ip] || []] is the inherited member of [Object.prototype];
    the assignment of line 56 stores that member back (for [__proto__] it
    is the prototype [RATE] already has), which no later read can tell
    from the inherited one, and the [.filter] of line 58 is not a
    function. *)
Definition rate_check (ip : string) : M bool :=
  let! rate := gets RATE in
  match rate !! ip with
  | Some bucket => count_request ip bucket
  | None =>
      if Object_prototype_has ip then
        let! now := Date_now rt in
        throw (NotAFunction_message rt "global.RATE[ip].filter")
      else count_request ip []
  end.

Definition make_testUrl (testId : value) : M string :=
  let siteBase := env_or (SITE_BASE rt) EmptyString in
  let! enc := encodeURIComponent_value rt testId in
  ret (if String.eqb siteBase EmptyString then "/?testId=" ++ enc
       else siteBase ++ "/?testId=" ++ enc).

Definition handler (req : ApiRequest) : World -> response * World :=
  if negb (String.eqb (method req) "POST")
  then fun w => (Error 405 "Method not allowed", w)
  else
    respond
      (let b := or_else (req_body req) (VObj []) in
       let testType := opt_prop b "testType" in
       let level := opt_prop b "level" in
       let numTasks := opt_prop b "numTasks" in
       if negb (truthy testType) then ret (Error 400 "testType required")
       else
         let! allowed := rate_check (client_ip req) in
         if negb allowed then ret (Error 429 "Rate limit: max 5 free tests/day")
         else
           let! oid := uuidv4 rt in
           let! test := generateTest testType (or_else level (VStr "ielts-6"))
                                     (or_else numTasks (VNum 1%float)) in
           let! tid0 := prop rt test "test_id" in
           let! testId := (if truthy tid0 then ret tid0
                           else let! u := uuidv4 rt in ret (VStr u)) in
           let! key := to_string rt testId in
           modify (assign_test key test) ;;
           let! url := make_testUrl testId in
           let! created := new_Date_toISOString rt in
           let order := mkOrder oid testId test ready created testType
                                (or_else level (VStr "ielts-6")) url in
           modify (assign_order oid order) ;;
           ret (OrderOk oid testId url)).

End WithRuntime.
End ApiOrderTest.

(** ** api/test/[testId].js *)

Module ApiTest.

Definition handler (testId : string) (w : World) : response * World :=
  match lookup_test testId w with
  | Found t => if truthy t then (TestOk t, w) else (Error 404 "test not found", w)
  | Builtin name => (TestBuiltin name, w)
  | Absent => (Error 404 "test not found", w)
  end.

End ApiTest.

(** ** api/test/[testId]/submit.js *)

(** A time value as a Number; exact for every time value, all of which lie
    within [2^53] of zero. *)
Definition Number_of_Z (z : Z) : float :=
  if (z <? 0)%Z
  then PrimFloat.opp (PrimFloat.of_uint63 (Uint63.of_Z (- z)))
  else PrimFloat.of_uint63 (Uint63.of_Z z).
Arguments Number_of_Z : simpl never.

Module ApiSubmit.
Section WithRuntime.
Context (rt : Runtime).

Definition callOpenAIChat (messages : list (string * string)) : M value :=
  let key := env_text (OPENAI_API_KEY rt) in
  let model := env_or (OPENAI_MODEL rt) "gpt-4o-mini" in
  let! r := fetch rt (ChatCompletions (mkChat ("Bearer " ++ key) model messages 0 900)) in
  match r with
  | NetworkError msg => throw msg
  | HttpReply st body =>
      if reply_ok st
      then let! j := res_json rt body in chat_content rt j
      else throw body
  end.

Definition writingSystem : string :=
  "You are an experienced IELTS writing examiner. Given the prompt and the essay, return ONLY valid JSON:" ++ nl
  ++ "{" ++ quoted "estimated_overall_band" ++ ": 0.0, "
  ++ quoted "band_by_criteria" ++ ": {" ++ quoted "task" ++ ":0.0,"
  ++ quoted "cohesion" ++ ":0.0," ++ quoted "lexical" ++ ":0.0,"
  ++ quoted "grammar" ++ ":0.0}, "
  ++ quoted "short_feedback" ++ ":" ++ quoted EmptyString ++ ", "
  ++ quoted "strengths" ++ ":[], " ++ quoted "weaknesses" ++ ":[], "
  ++ quoted "recommended_actionable_tips" ++ ":[], "
  ++ quoted "confidence" ++ ":0.0 }".

(** [(Math.random()+Date.now()).toString(36)] *)
Definition fresh_jobId : M string :=
  let! r := Math_random rt in
  let! now := Date_now rt in
  ret (Number_toString36 rt (PrimFloat.add r (Number_of_Z now))).

Definition is_multipart (req : ApiRequest) : bool :=
  String.eqb (method req) "POST"
  && match content_type req with
     | Some ct => negb (String.eqb ct EmptyString) && String.prefix "multipart/form-data" ct
     | None => false
     end.

Definition handler (testId : string) (req : ApiRequest) : World -> response * World :=
  respond
    (let! test := gets (lookup_test testId) in
     if negb (property_truthy test) then ret (Error 404 "test not found")
     else if is_multipart req then
       ret (Error 400 "Multipart uploads not supported in demo. Send transcript or use base64 + separate upload.")
     else
       let b := or_else (req_body req) (VObj []) in
       let answers := or_else (opt_prop b "answers") (VArr []) in
       match test with
       | Found test =>
           if strict_eq_str (opt_prop test "type") "writing" then
             let essay := essay_of answers in
             let! content := userContent rt test essay in
             let! evalResp :=
               callOpenAIChat [("system", writingSystem); ("user", content)] in
             let! parsed := parse_or_raw rt evalResp in
             let! jobId := fresh_jobId in
             let! created := new_Date_toISOString rt in
             modify (set_SUBMISSIONS
                       (insert jobId (mkJob jobId testId "writing"
                                            (with_answers answers) parsed created))) ;;
             let! r := stored_result rt jobId in
             ret (SubmitOk jobId r)
           else ret (Error 400 "Unsupported submission type")
       | Builtin _ | Absent =>
           (* a member of [Object.prototype] has no [type] *)
           ret (Error 400 "Unsupported submission type")
       end).

End WithRuntime.
End ApiSubmit.

(** ** api/job/[jobId].js and api/health.js *)

Module ApiJob.

Definition handler (jobId : string) (w : World) : response * World :=
  match SUBMISSIONS w !! jobId with
  | Some job => (JobOk job, w)
  | None =>
      if Object_prototype_has jobId then (JobBuiltin jobId, w)
      else (Error 404 "job not found", w)
  end.

End ApiJob.

Module ApiHealth.

Definition handler (rt : Runtime) : World -> response * World :=
  respond (let! now := new_Date_toISOString rt in ret (HealthOk now)).

End ApiHealth.

(** ** The two deployments side by side *)

Inductive submit_call : Type :=
| ExpressSubmit (testId : string) (file : option string) (body : value)
| ServerlessSubmit (testId : string) (req : ApiRequest).

Definition submitted_testId (c : submit_call) : string :=
  match c with
  | ExpressSubmit testId _ _ => testId
  | ServerlessSubmit testId _ => testId
  end.

Definition run_submit (rt : Runtime) (c : submit_call) : World -> response * World :=
  match c with
  | ExpressSubmit testId file body => Server.submit rt testId file body
  | ServerlessSubmit testId req => ApiSubmit.handler rt testId req
  end.

Inductive deployment : Type := Express | Serverless.

Definition generateTest_of (d : deployment) (rt : Runtime) : value -> value -> value -> M value :=
  match d with
  | Express => Server.generateTest rt
  | Serverless => ApiOrderTest.generateTest rt
  end.

(** ** A concrete runtime for closed examples *)

Definition offline_runtime : Runtime :=
  {| Number_toString := fun _ => "1";
     Number_toString36 := fun _ => "k";
     JSON_parse := fun _ => None;
     encodeURIComponent := fun s => Some s;
     toISOString := fun _ => "2026-01-01T00:00:00.000Z";
     TypeError_message := fun _ k => "Cannot read properties (reading '" ++ k ++ "')";
     SyntaxError_message := fun _ => "Unexpected token";
     URIError_message := fun _ => "URI malformed";
     ToPrimitive_message := fun _ => "Cannot convert object to primitive value";
     NotAFunction_message := fun f => f ++ " is not a function";
     OPENAI_API_KEY := None;
     OPENAI_MODEL := None;
     SITE_BASE := None;
     uuidv4_draw := fun n => pretty n;
     Date_now_at := fun _ => 1793664000000;
     Math_random_at := fun _ => 0.5%float;
     fetch_reply := fun _ => NetworkError "fetch failed" |}.

(** What the [n]-th external call of the process returns when it is a
    chat completion and succeeds. *)
Definition chat_reply (rt : Runtime) (n : nat) : option value :=
  chat_text (JSON_parse rt) (fetch_reply rt n).

(** What [JSON.parse(v)] returns; [None] when it throws, on a [v] that has
    no string or on a string that is not JSON. *)
Definition parsed_text (rt : Runtime) (v : value) : option value :=
  if ToPrimitive_ok v then JSON_parse rt (ToString rt v) else None.

(** The body of a submit that takes the JSON path. *)
Definition json_submit (c : submit_call) : option value :=
  match c with
  | ExpressSubmit _ None body => Some body
  | ExpressSubmit _ (Some _) _ => None
  | ServerlessSubmit _ req =>
      if ApiSubmit.is_multipart req then None else Some (req_body req)
  end.

(** [body.answers || []] *)
Definition answers_of (body : value) : value :=
  or_else (opt_prop (or_else body (VObj [])) "answers") (VArr []).

(** The answers array is missing, empty, or its first answer has no
    [answerText]. *)
Definition no_essay (body : value) : Prop :=
  let given := opt_prop (or_else body (VObj [])) "answers" in
  given = VUndef
  \/ given = VArr []
  \/ exists a0 rest, given = VArr (a0 :: rest) /\ opt_prop a0 "answerText" = VUndef.

(** The submit reaches the grader, and the grading call returns
    [evalResp]: the conditions under which the handler issues its chat
    call, read off the request, the stores and the replies of the network.
    The test passes the [!test] guard; on the audio path of server.js the
    transcription succeeds and its text can be written into the message;
    on the JSON paths the request is not multipart, the stored test has
    type "writing", and its first prompt and the essay can be written into
    the message. *)
Definition graded_submit (rt : Runtime) (c : submit_call) (w : World)
    (evalResp : value) : Prop :=
  let n := length (fetches w) in
  match c with
  | ExpressSubmit tid (Some buffer) body =>
      property_truthy (lookup_test tid w) = true
      /\ exists st text trj t,
           fetch_reply rt n = HttpReply st text
           /\ reply_ok st = true
           /\ JSON_parse rt text = Some trj
           /\ get_prop trj "text" = Some t
           /\ ToPrimitive_ok (or_else t (VStr EmptyString)) = true
           /\ chat_reply rt (S n) = Some evalResp
  | ExpressSubmit tid None body =>
      exists test,
        lookup_test tid w = Found test
        /\ strict_eq_str (opt_prop test "type") "writing" = true
        /\ ToPrimitive_ok (prompt_of test) = true
        /\ ToPrimitive_ok (essay_of (answers_of body)) = true
        /\ chat_reply rt n = Some evalResp
  | ServerlessSubmit tid req =>
      exists test,
        lookup_test tid w = Found test
        /\ ApiSubmit.is_multipart req = false
        /\ strict_eq_str (opt_prop test "type") "writing" = true
        /\ ToPrimitive_ok (prompt_of test) = true
        /\ ToPrimitive_ok (essay_of (answers_of (req_body req))) = true
        /\ chat_reply rt n = Some evalResp
  end.

(** A table standing for [JSON.parse] on the texts an example uses. *)
Definition table_parse (tbl : list (string * value)) (s : string) : option value :=
  match List.find (fun kv => String.eqb s (fst kv)) tbl with
  | Some kv => Some (snd kv)
  | None => None
  end.

(** A chat-completion response body and the object it parses to. *)
Definition envelope_text (content : string) : string :=
  "{" ++ quoted "choices" ++ ":[{" ++ quoted "message" ++ ":{"
  ++ quoted "role" ++ ":" ++ quoted "assistant" ++ ","
  ++ quoted "content" ++ ":" ++ quoted content ++ "}}]}".

Definition envelope (content : string) : value :=
  VObj [("choices",
         VArr [VObj [("message",
                      VObj [("role", VStr "assistant"); ("content", VStr content)])]])].

Definition scripted_runtime (tbl : list (string * value)) (replies : list http_reply)
    (randoms : list float) (render36 : float -> string) : Runtime :=
  {| Number_toString := fun _ => "1";
     Number_toString36 := render36;
     JSON_parse := table_parse tbl;
     encodeURIComponent := fun s => Some s;
     toISOString := fun _ => "2026-11-02T00:00:00.000Z";
     TypeError_message := fun _ k => "Cannot read properties (reading '" ++ k ++ "')";
     SyntaxError_message := fun _ => "Unexpected token";
     URIError_message := fun _ => "URI malformed";
     ToPrimitive_message := fun _ => "Cannot convert object to primitive value";
     NotAFunction_message := fun f => f ++ " is not a function";
     OPENAI_API_KEY := Some "sk-test";
     OPENAI_MODEL := None;
     SITE_BASE := None;
     uuidv4_draw := fun n => pretty n;
     Date_now_at := fun _ => 1793664000000;
     Math_random_at := fun n => nth n randoms 0.5%float;
     fetch_reply := fun n => nth n replies (NetworkError "fetch failed") |}.

(** A stored writing test and an order for it. *)
Definition essay_test : value := Server.fallback_test "t1" (VStr "ielts-6").

Definition essay_order : Order :=
  mkOrder "o1" (VStr "t1") essay_test ready "2026-11-01T00:00:00.000Z"
          (VStr "writing") (VStr "ielts-6") "/?testId=t1".

Definition essay_world : World :=
  mkWorld {["o1" := essay_order]} ["o1"] {["t1" := essay_test]} None ∅ ∅ 0 0 0 [].

(** A stored writing test whose first prompt is the object
    [{toString: 1}], as the model may return it. *)
Definition object_prompt_test : value :=
  VObj [("test_id", VStr "t2"); ("type", VStr "writing"); ("level", VStr "ielts-6");
        ("questions",
         VArr [VObj [("id", VStr "q1"); ("title", VStr "Task 2");
                     ("prompt", VObj [("toString", VNum 1%float)])]])].

Definition object_prompt_world : World :=
  mkWorld ∅ [] {["t2" := object_prompt_test]} None ∅ ∅ 0 0 0 [].

(** The grader answers in prose. *)
Definition prose_runtime : Runtime :=
  scripted_runtime
    [(envelope_text "Band 6, roughly.", envelope "Band 6, roughly.")]
    [HttpReply 200 (envelope_text "Band 6, roughly.")]
    [] (fun _ => "k").

(** A JSON submit with an empty object as body. *)
Definition empty_json_request : ApiRequest :=
  mkApiRequest "POST" (Some "203.0.113.7") None (Some "application/json") (VObj []).

(** Requests to the serverless functions, and to either deployment. *)
Inductive api_request : Type :=
| ApiOrderTestReq (req : ApiRequest)
| ApiTestReq (testId : string)
| ApiSubmitReq (testId : string) (req : ApiRequest)
| ApiJobReq (jobId : string)
| ApiHealthReq.

Definition api_serve (rt : Runtime) (rq : api_request) : World -> response * World :=
  match rq with
  | ApiOrderTestReq req => ApiOrderTest.handler rt req
  | ApiTestReq testId => ApiTest.handler testId
  | ApiSubmitReq testId req => ApiSubmit.handler rt testId req
  | ApiJobReq jobId => ApiJob.handler jobId
  | ApiHealthReq => ApiHealth.handler rt
  end.

Inductive operation : Type :=
| OnServer (rq : Server.request)
| OnApi (rq : api_request).

Definition perform (rt : Runtime) (op : operation) : World -> response * World :=
  match op with
  | OnServer rq => Server.serve rt rq
  | OnApi rq => api_serve rt rq
  end.

(** The world after a sequence of requests, served one after the other. *)
Definition run (rt : Runtime) (ops : list operation) (w : World) : World :=
  foldl (fun w op => snd (perform rt op w)) w ops.

(** How one request may change the orders. *)
Definition orders_evolve (rt : Runtime) (w w' : World) : Prop :=
  (uuid_draws w <= uuid_draws w')%nat
  /\ (ORDERS w' = ORDERS w
      \/ (exists tid, ORDERS w' = mark_graded tid <$> ORDERS w)
      \/ (exists o, status o = ready
                    /\ (uuid_draws w < uuid_draws w')%nat
                    /\ ORDERS w' = <[uuidv4_draw rt (uuid_draws w) := o]> (ORDERS w))).

(** Every stored order is filed under an identifier drawn earlier. *)
Definition ids_drawn (rt : Runtime) (w : World) : Prop :=
  forall id o, ORDERS w !! id = Some o ->
    exists k, (k < uuid_draws w)%nat /\ id = uuidv4_draw rt k.

(** Generation is unreachable, the grader answers in prose. *)
Definition grading_runtime : Runtime :=
  scripted_runtime
    [(envelope_text "Band 6, roughly.", envelope "Band 6, roughly.")]
    [NetworkError "fetch failed"; HttpReply 200 (envelope_text "Band 6, roughly.")]
    [] (fun _ => "k").

Definition order_writing : operation :=
  OnServer (Server.PostOrderTest (VObj [("testType", VStr "writing")])).

(** A JSON submit carrying one essay. *)
Definition essay_request : ApiRequest :=
  mkApiRequest "POST" (Some "203.0.113.7") None (Some "application/json")
    (VObj [("answers",
            VArr [VObj [("questionId", VStr "q1"); ("answerText", VStr "An essay.")]])]).

(** The model answers the generation request with the JSON text [0]. *)
Definition zero_runtime : Runtime :=
  scripted_runtime
    [(envelope_text "0", envelope "0"); ("0", VNum 0%float)]
    [HttpReply 200 (envelope_text "0")]
    [] (fun _ => "k").

(** ** The rate limiter seen from outside *)

(** A request that reaches the rate limiter of api/order-test.js: a POST
    with a truthy [testType]. *)
Definition generation_request (req : ApiRequest) : Prop :=
  method req = "POST"
  /\ truthy (opt_prop (or_else (req_body req) (VObj [])) "testType") = true.

Definition quota_error : response := Error 429 "Rate limit: max 5 free tests/day".

(** Serve generation requests one after the other; each response comes with
    the clock reading its rate check used. *)
Fixpoint serve_orders (rt : Runtime) (reqs : list ApiRequest) (w : World)
  : list (Z * response) * World :=
  match reqs with
  | [] => ([], w)
  | req :: rest =>
      let now := Date_now_at rt (clock_reads w) in
      let (resp, w1) := ApiOrderTest.handler rt req w in
      let (out, w2) := serve_orders rt rest w1 in
      ((now, resp) :: out, w2)
  end.


Definition order_request (ip : string) : ApiRequest :=
  mkApiRequest "POST" (Some ip) None (Some "application/json")
    (VObj [("testType", VStr "listening")]).

(** A world in which one client has used up its five orders. *)
Definition spent_world : World :=
  mkWorld ∅ [] ∅ None ∅
          {["203.0.113.7" := [1793660000000; 1793661000000; 1793662000000;
                              1793663000000; 1793663500000]]}
          0 0 0 [].

(** Two graded submissions within one millisecond; [Math.random()] yields
    two different numbers. *)
Definition collision_runtime (render36 : float -> string) : Runtime :=
  scripted_runtime
    [(envelope_text "Band 6, roughly.", envelope "Band 6, roughly.")]
    [HttpReply 200 (envelope_text "Band 6, roughly.");
     HttpReply 200 (envelope_text "Band 6, roughly.")]
    [0.5%float; PrimFloat.add 0.5%float 0x1p-40%float]
    render36.

(** The generation call failed, or its text is not valid JSON. *)
Definition generation_unusable (rt : Runtime) (r : http_reply) : Prop :=
  match chat_text (JSON_parse rt) r with
  | None => True
  | Some ai => parsed_text rt ai = None
  end.

(** Computations that leave the world alone. *)
Definition stateless {A : Type} (m : M A) : Prop :=
  forall w, exists o, m w = (o, w).

(** ** Further worlds and runtimes for closed examples *)

(** The grader answers with the JSON text of an empty object. *)
Definition json_runtime : Runtime :=
  scripted_runtime
    [(envelope_text "{}", envelope "{}"); ("{}", VObj [])]
    [HttpReply 200 (envelope_text "{}")]
    [] (fun _ => "k").

(** A stored speaking test. *)
Definition speaking_world : World :=
  mkWorld ∅ [] {["s1" := Server.speaking_test "s1" (VStr "ielts-6")]} None ∅ ∅ 0 0 0 [].

Definition multipart_request : ApiRequest :=
  mkApiRequest "POST" None None
    (Some "multipart/form-data; boundary=----x") VUndef.

(** The transcription service answers 503. *)
Definition no_transcription_runtime : Runtime :=
  scripted_runtime [] [HttpReply 503 "overloaded"] [] (fun _ => "k").

(** The transcription has no [text]; the grader answers in prose. *)
Definition silent_audio_runtime : Runtime :=
  scripted_runtime
    [("{}", VObj []);
     (envelope_text "Band 6, roughly.", envelope "Band 6, roughly.")]
    [HttpReply 200 "{}"; HttpReply 200 (envelope_text "Band 6, roughly.")]
    [] (fun _ => "k").

(** The grading service answers 429. *)
Definition throttled_runtime : Runtime :=
  scripted_runtime [] [HttpReply 429 "slow down"] [] (fun _ => "k").

(** A runtime whose [encodeURIComponent] rejects every string, as the real
    one does for a string with a lone surrogate. *)
Definition malformed_uri_runtime : Runtime :=
  {| Number_toString := fun _ => "1";
     Number_toString36 := fun _ => "k";
     JSON_parse := fun _ => None;
     encodeURIComponent := fun _ => None;
     toISOString := fun _ => "2026-01-01T00:00:00.000Z";
     TypeError_message := fun _ k => "Cannot read properties (reading '" ++ k ++ "')";
     SyntaxError_message := fun _ => "Unexpected token";
     URIError_message := fun _ => "URI malformed";
     ToPrimitive_message := fun _ => "Cannot convert object to primitive value";
     NotAFunction_message := fun f => f ++ " is not a function";
     OPENAI_API_KEY := None;
     OPENAI_MODEL := None;
     SITE_BASE := None;
     uuidv4_draw := fun n => pretty n;
     Date_now_at := fun _ => 1793664000000;
     Math_random_at := fun _ => 0.5%float;
     fetch_reply := fun _ => NetworkError "fetch failed" |}.

(** The model answers the generation request with the JSON text [null]. *)
Definition null_runtime : Runtime :=
  scripted_runtime
    [(envelope_text "null", envelope "null"); ("null", VNull)]
    [HttpReply 200 (envelope_text "null")]
    [] (fun _ => "k").

Definition listening_body : value := VObj [("testType", VStr "listening")].
Definition writing_body : value := VObj [("testType", VStr "writing")].
Definition writing_request (ip : string) : ApiRequest :=
  mkApiRequest "POST" (Some ip) None (Some "application/json")
    (VObj [("testType", VStr "writing")]).

(** A world in which one client's five orders are all older than a day,
    next to a client with a single fresh order. *)
Definition stale_world : World :=
  mkWorld ∅ [] ∅ None ∅
          (<["198.51.100.9" := [1793663000000]]>
             {["203.0.113.7" := [1793500000000; 1793510000000; 1793520000000;
                                 1793530000000; 1793577600000]]})
          0 0 0 [].

(** Two orders, the one with the later name created first. *)
Definition second_order : Order :=
  mkOrder "order-a" (VStr "t1") essay_test graded "2026-11-02T00:00:00.000Z"
          (VStr "writing") (VStr "ielts-6") "/?testId=t1".

Definition first_order : Order :=
  mkOrder "order-b" (VStr "s1") (Server.speaking_test "s1" (VStr "ielts-6")) ready
          "2026-11-01T00:00:00.000Z" (VStr "speaking") (VStr "ielts-6") "/?testId=s1".

Definition two_orders_world : World :=
  mkWorld (<["order-a" := second_order]> {["order-b" := first_order]})
          ["order-b"; "order-a"]
          (<["t1" := essay_test]> {["s1" := Server.speaking_test "s1" (VStr "ielts-6")]})
          None ∅ ∅ 0 0 0 [].

(** The listing entry of an order whose testId encodes to [enc]. *)
Definition summary_of (rt : Runtime) (o : Order) (enc : string) : OrderSummary :=
  mkSummary (orderId o) (order_testId o) (order_type o) (order_level o)
            (status o) (order_createdAt o)
            (env_or (SITE_BASE rt) EmptyString ++ "/?testId=" ++ enc).

(** [ORDER_KEYS] lists the keys of [ORDERS], each once. *)
Definition keys_listed (w : World) : Prop :=
  NoDup (ORDER_KEYS w) /\ forall id, id ∈ ORDER_KEYS w <-> is_Some (ORDERS w !! id).

(** How one request may change the orders and the list of their keys. *)
Definition keys_evolve (w w' : World) : Prop :=
  (ORDER_KEYS w' = ORDER_KEYS w
   /\ (ORDERS w' = ORDERS w \/ exists tid, ORDERS w' = mark_graded tid <$> ORDERS w))
  \/ exists oid o, ORDERS w' = <[oid := o]> (ORDERS w)
                   /\ ORDER_KEYS w' = ORDER_KEYS_after oid w.

(** The testId of every stored order has a string that can be URI-encoded. *)
Definition orders_listable (rt : Runtime) (w : World) : Prop :=
  map_Forall (fun _ o => ToPrimitive_ok (order_testId o) = true
                         /\ is_Some (encodeURIComponent rt (ToString rt (order_testId o))))
             (ORDERS w).

(** A runtime whose first identifiers come in descending alphabetical
    order; the network is down. *)
Definition named_ids_runtime : Runtime :=
  {| Number_toString := fun _ => "1";
     Number_toString36 := fun _ => "k";
     JSON_parse := fun _ => None;
     encodeURIComponent := fun s => Some s;
     toISOString := fun _ => "2026-01-01T00:00:00.000Z";
     TypeError_message := fun _ k => "Cannot read properties (reading '" ++ k ++ "')";
     SyntaxError_message := fun _ => "Unexpected token";
     URIError_message := fun _ => "URI malformed";
     ToPrimitive_message := fun _ => "Cannot convert object to primitive value";
     NotAFunction_message := fun f => f ++ " is not a function";
     OPENAI_API_KEY := None;
     OPENAI_MODEL := None;
     SITE_BASE := None;
     uuidv4_draw := fun n => nth n ["order-b"; "test-b"; "order-a"; "test-a"] (pretty n);
     Date_now_at := fun _ => 1793664000000;
     Math_random_at := fun _ => 0.5%float;
     fetch_reply := fun _ => NetworkError "fetch failed" |}.

(** A level as a client may send it: the object [{toString: 1}]. *)
Definition object_level : value := VObj [("toString", VNum 1%float)].






(** * Properties *)

(** ** Unknown test on submit *)

(** C6, on a testId that names a member of [Object.prototype]: the Test
    store is empty, yet a submit to the testId "constructor" is not
    answered not-found.  On server.js an audio submit is transcribed and
    graded, two external calls, and a Job for "constructor" is stored;
    a JSON submit is answered 400 by both deployments. *)
Theorem submit_inherited_testId_not_refused :
  TESTS init_world = ∅
  /\ (exists job w',
        run_submit silent_audio_runtime
          (ExpressSubmit "constructor" (Some "RIFF") VUndef) init_world
        = (SubmitOk (jobId job) (VObj [("raw", VStr "Band 6, roughly.")]), w')
        /\ length (fetches w') = 2%nat
        /\ SUBMISSIONS w' !! jobId job = Some job
        /\ job_testId job = "constructor")
  /\ run_submit offline_runtime (ExpressSubmit "constructor" None (VObj [])) init_world
     = (Error 400 "Unsupported submission type", init_world)
  /\ run_submit offline_runtime (ServerlessSubmit "constructor" empty_json_request) init_world
     = (Error 400 "Unsupported submission type", init_world).
Proof.
  split; [reflexivity |].
  split.
  - eexists (mkJob _ _ _ _ _ _), _. simpl.
    split; [vm_compute; reflexivity |].
    split; [reflexivity |].
    split; reflexivity.
  - split; vm_compute; reflexivity.
Qed.

(** ** Generation *)

(** Run a handler: unfold the operations of the monad and the accessors of
    the world, nothing else. *)
Ltac run_monad :=
  cbn [respond unguarded new_Date_toISOString res_json JSON_parse_value
       chat_content prop encodeURIComponent_value
       stored_result userContent to_string uuidv4 Date_now Math_random
       fetch logged lift_opt try_catch modify gets bind ret throw
       set_ORDERS set_ORDER_KEYS set_TESTS set_TESTS_proto set_SUBMISSIONS set_RATE
       assign_test assign_order
       ORDERS ORDER_KEYS TESTS TESTS_proto SUBMISSIONS RATE uuid_draws clock_reads
       random_draws fetches] in *.

Ltac run_goal :=
  cbn [respond unguarded new_Date_toISOString res_json JSON_parse_value
       chat_content prop encodeURIComponent_value
       stored_result userContent to_string uuidv4 Date_now Math_random
       fetch logged lift_opt try_catch modify gets bind ret throw
       set_ORDERS set_ORDER_KEYS set_TESTS set_TESTS_proto set_SUBMISSIONS set_RATE
       assign_test assign_order
       ORDERS ORDER_KEYS TESTS TESTS_proto SUBMISSIONS RATE uuid_draws clock_reads
       random_draws fetches].

(** What [parse_or_raw] returns. *)
Lemma parse_or_raw_run (rt : Runtime) (evalResp : value) (w : World) :
  parse_or_raw rt evalResp w
  = (Returns (match parsed_text rt evalResp with
              | Some parsed => parsed
              | None => VObj [("raw", evalResp)]
              end), w).
Proof.
  unfold parsed_text, parse_or_raw. run_goal.
  destruct (ToPrimitive_ok evalResp); run_goal; [| reflexivity].
  destruct (JSON_parse rt (ToString rt evalResp)); reflexivity.
Qed.

(** Case analysis on the run of a handler: simplify, then split on the
    innermost undecided test, until none is left. *)
Ltac crunch H :=
  repeat (simpl in H; rewrite ?lookup_insert_eq, ?parse_or_raw_run in H; simpl in H;
          match type of H with
          | context [match ?x with _ => _ end] =>
              lazymatch x with
              | context [match _ with _ => _ end] => fail
              | _ => destruct x eqn:?
              end
          end);
  simpl in H; rewrite ?lookup_insert_eq in H; simpl in H.

(** The three copies of [callOpenAIChat] log one call and agree on what a
    successful call returns. *)
Lemma Server_callOpenAIChat_run (rt : Runtime) (messages : list (string * string)) (w : World) :
  exists o,
    Server.callOpenAIChat rt messages w
    = (o, logged (ChatCompletions
                    (mkChat ("Bearer " ++ Server.OPENAI_KEY rt) (Server.MODEL rt) messages 0 900)) w)
    /\ match chat_reply rt (length (fetches w)) with
       | Some ai => o = Returns ai
       | None => exists msg, o = Throws msg
       end.
Proof.
  unfold Server.callOpenAIChat, chat_reply, chat_text; run_monad.
  destruct (fetch_reply rt (length (fetches w))) as [msg | st body]; [eauto |].
  destruct (reply_ok st); run_monad; [| eauto].
  destruct (JSON_parse rt body) as [j |]; run_monad; [| eauto].
  destruct (content_of j); run_monad; eauto.
Qed.

Lemma ApiOrderTest_callOpenAIChat_run (rt : Runtime) (messages : list (string * string)) (w : World) :
  exists o,
    ApiOrderTest.callOpenAIChat rt messages w
    = (o, logged (ChatCompletions
                    (mkChat ("Bearer " ++ env_text (OPENAI_API_KEY rt))
                            (env_or (OPENAI_MODEL rt) "gpt-4o-mini") messages 0 900)) w)
    /\ match chat_reply rt (length (fetches w)) with
       | Some ai => o = Returns ai
       | None => exists msg, o = Throws msg
       end.
Proof.
  unfold ApiOrderTest.callOpenAIChat, chat_reply, chat_text; run_monad.
  destruct (fetch_reply rt (length (fetches w))) as [msg | st body]; [eauto |].
  destruct (reply_ok st); run_monad; [| eauto].
  destruct (JSON_parse rt body) as [j |]; run_monad; [| eauto].
  destruct (content_of j); run_monad; eauto.
Qed.

Lemma ApiSubmit_callOpenAIChat_run (rt : Runtime) (messages : list (string * string)) (w : World) :
  exists o,
    ApiSubmit.callOpenAIChat rt messages w
    = (o, logged (ChatCompletions
                    (mkChat ("Bearer " ++ env_text (OPENAI_API_KEY rt))
                            (env_or (OPENAI_MODEL rt) "gpt-4o-mini") messages 0 900)) w)
    /\ match chat_reply rt (length (fetches w)) with
       | Some ai => o = Returns ai
       | None => exists msg, o = Throws msg
       end.
Proof.
  unfold ApiSubmit.callOpenAIChat, chat_reply, chat_text; run_monad.
  destruct (fetch_reply rt (length (fetches w))) as [msg | st body]; [eauto |].
  destruct (reply_ok st); run_monad; [| eauto].
  destruct (JSON_parse rt body) as [j |]; run_monad; [| eauto].
  destruct (content_of j); run_monad; eauto.
Qed.

(** The instruction of either generator is written when, and only when,
    [numTasks] and [level] have strings. *)
Lemma Server_writing_instruction_run (rt : Runtime) (id : string) (level numTasks : value)
    (w : World) :
  if ToPrimitive_ok numTasks && ToPrimitive_ok level
  then exists sys, Server.writing_instruction rt id level numTasks w = (Returns sys, w)
  else exists msg, Server.writing_instruction rt id level numTasks w = (Throws msg, w).
Proof.
  unfold Server.writing_instruction; run_monad.
  destruct (ToPrimitive_ok numTasks), (ToPrimitive_ok level); simpl; eauto.
Qed.

Lemma ApiOrderTest_writing_instruction_run (rt : Runtime) (id : string)
    (level numTasks : value) (w : World) :
  if ToPrimitive_ok numTasks && ToPrimitive_ok level
  then exists sys, ApiOrderTest.writing_instruction rt id level numTasks w = (Returns sys, w)
  else exists msg, ApiOrderTest.writing_instruction rt id level numTasks w = (Throws msg, w).
Proof.
  unfold ApiOrderTest.writing_instruction; run_monad.
  destruct (ToPrimitive_ok numTasks), (ToPrimitive_ok level); simpl; eauto.
Qed.

(** Apart from its result, a run of either generator draws one identifier
    and issues at most one call, a chat completion. *)
Lemma Server_generateTest_frame (rt : Runtime) (type level numTasks : value) (w : World) :
  exists o log,
    Server.generateTest rt type level numTasks w
    = (o, mkWorld (ORDERS w) (ORDER_KEYS w) (TESTS w) (TESTS_proto w) (SUBMISSIONS w)
                  (RATE w) (S (uuid_draws w)) (clock_reads w) (random_draws w)
                  (fetches w ++ log))
    /\ (log = [] \/ exists rq, log = [ChatCompletions rq]).
Proof.
  destruct (Server.generateTest rt type level numTasks w) as [o w'] eqn:H.
  unfold Server.generateTest, Server.writing_instruction, Server.callOpenAIChat in H.
  crunch H; injection H as <- <-;
    solve [ eexists _, []; rewrite app_nil_r; split; [reflexivity | left; reflexivity]
          | eexists _, [_]; split; [reflexivity | right; eexists; reflexivity] ].
Qed.

Lemma ApiOrderTest_generateTest_frame (rt : Runtime) (type level numTasks : value)
    (w : World) :
  exists o log,
    ApiOrderTest.generateTest rt type level numTasks w
    = (o, mkWorld (ORDERS w) (ORDER_KEYS w) (TESTS w) (TESTS_proto w) (SUBMISSIONS w)
                  (RATE w) (S (uuid_draws w)) (clock_reads w) (random_draws w)
                  (fetches w ++ log))
    /\ (log = [] \/ exists rq, log = [ChatCompletions rq]).
Proof.
  destruct (ApiOrderTest.generateTest rt type level numTasks w) as [o w'] eqn:H.
  unfold ApiOrderTest.generateTest, ApiOrderTest.writing_instruction,
    ApiOrderTest.callOpenAIChat in H.
  crunch H; injection H as <- <-;
    solve [ eexists _, []; rewrite app_nil_r; split; [reflexivity | left; reflexivity]
          | eexists _, [_]; split; [reflexivity | right; eexists; reflexivity] ].
Qed.

(** C2: for the writing type, when the generation call fails or its text is
    not valid JSON, [generateTest] returns (it does not throw) the fallback
    test: type "writing", the given level, and exactly one question, whose
    prompt is the canned essay prompt.  The call is the one the generator
    issues once its instruction is written, for a [numTasks] and a [level]
    that have strings. *)
Theorem generateTest_writing_fallback :
  forall (d : deployment) (rt : Runtime) (level numTasks : value) (w : World),
    ToPrimitive_ok (param_default numTasks (VNum 1%float)) = true ->
    ToPrimitive_ok (param_default level (VStr "ielts-6")) = true ->
    generation_unusable rt (fetch_reply rt (length (fetches w))) ->
    exists w' rq,
      generateTest_of d rt (VStr "writing") level numTasks w
      = (Returns
           (VObj [("test_id", VStr (uuidv4_draw rt (uuid_draws w)));
                  ("type", VStr "writing");
                  ("level", param_default level (VStr "ielts-6"));
                  ("questions",
                   VArr [VObj [("id", VStr "q1"); ("title", VStr "Task 2");
                               ("prompt", VStr "Write an essay (250+ words) on: The benefits of online education.")]])]),
         w')
      /\ fetches w' = (fetches w ++ [ChatCompletions rq])%list.
Proof.
  intros d rt level numTasks w Hn Hl H.
  unfold generation_unusable in H. fold (chat_reply rt (length (fetches w))) in H.
  destruct d; simpl;
    unfold Server.generateTest, ApiOrderTest.generateTest; simpl.
  - match goal with
    | |- context [Server.writing_instruction rt ?i ?l ?n ?w1] =>
        pose proof (Server_writing_instruction_run rt i l n w1) as Hs
    end.
    rewrite Hn, Hl in Hs. destruct Hs as [sys ->].
    run_goal.
    match goal with
    | |- context [Server.callOpenAIChat rt ?m ?w1] =>
        destruct (Server_callOpenAIChat_run rt m w1) as (o & -> & Ho)
    end.
    simpl in Ho.
    destruct (chat_reply rt (length (fetches w))) as [ai |].
    + subst o. unfold parsed_text in H. run_goal.
      destruct (ToPrimitive_ok ai); run_goal; [rewrite H |]; run_goal; eauto.
    + destruct Ho as [msg ->]. run_goal. eauto.
  - match goal with
    | |- context [ApiOrderTest.writing_instruction rt ?i ?l ?n ?w1] =>
        pose proof (ApiOrderTest_writing_instruction_run rt i l n w1) as Hs
    end.
    rewrite Hn, Hl in Hs. destruct Hs as [sys ->].
    run_goal.
    match goal with
    | |- context [ApiOrderTest.callOpenAIChat rt ?m ?w1] =>
        destruct (ApiOrderTest_callOpenAIChat_run rt m w1) as (o & -> & Ho)
    end.
    simpl in Ho.
    destruct (chat_reply rt (length (fetches w))) as [ai |].
    + subst o. unfold parsed_text in H. run_goal.
      destruct (ToPrimitive_ok ai); run_goal; [rewrite H |]; run_goal; eauto.
    + destruct Ho as [msg ->]. run_goal. eauto.
Qed.

Lemma generateTest_writing_fallback_witness :
  exists w' rq,
    generateTest_of Serverless offline_runtime (VStr "writing") (VStr "ielts-7")
                    (VNum 2%float) init_world
    = (Returns
         (VObj [("test_id", VStr "0");
                ("type", VStr "writing");
                ("level", VStr "ielts-7");
                ("questions",
                 VArr [VObj [("id", VStr "q1"); ("title", VStr "Task 2");
                             ("prompt", VStr "Write an essay (250+ words) on: The benefits of online education.")]])]),
       w')
    /\ fetches w' = (fetches init_world ++ [ChatCompletions rq])%list.
Proof.
  apply (generateTest_writing_fallback Serverless offline_runtime
           (VStr "ielts-7") (VNum 2%float) init_world).
  - reflexivity.
  - reflexivity.
  - exact I.
Defined.

(** ** Submission grading *)

Ltac chat_goal :=
  match goal with
  | |- context [Server.callOpenAIChat ?rt ?m ?w1] =>
      let o := fresh "o" in let Ho := fresh "Ho" in
      destruct (Server_callOpenAIChat_run rt m w1) as (o & -> & Ho);
      simpl in Ho; rewrite ?length_app, ?Nat.add_1_r in Ho; simpl in Ho
  | |- context [ApiSubmit.callOpenAIChat ?rt ?m ?w1] =>
      let o := fresh "o" in let Ho := fresh "Ho" in
      destruct (ApiSubmit_callOpenAIChat_run rt m w1) as (o & -> & Ho);
      simpl in Ho; rewrite ?length_app, ?Nat.add_1_r in Ho; simpl in Ho
  end.

Lemma writing_test_truthy (test : value) :
  strict_eq_str (opt_prop test "type") "writing" = true -> truthy test = true.
Proof. destruct test; simpl; congruence. Qed.

(** A submit that reaches the grader, and whose grading call returns, is
    answered with the result it stores: the parsed text, or the text itself
    under [raw]. *)
Lemma graded_submit_run (rt : Runtime) (c : submit_call) (w : World) (evalResp : value) :
  graded_submit rt c w evalResp ->
  exists job w',
    run_submit rt c w = (SubmitOk (jobId job) (result job), w')
    /\ SUBMISSIONS w' = <[jobId job := job]> (SUBMISSIONS w)
    /\ job_testId job = submitted_testId c
    /\ result job = match parsed_text rt evalResp with
                    | Some parsed => parsed
                    | None => VObj [("raw", evalResp)]
                    end.
Proof.
  destruct c as [tid [buffer |] body | tid req]; simpl.
  - intros (Hguard & st & text & trj & t & Hfr & Hok & Hj & Ht & Hs & Hchat).
    unfold Server.submit; simpl.
    rewrite Hguard; simpl. rewrite Hfr, Hok; simpl. rewrite Hj; simpl.
    rewrite Ht; simpl. rewrite Hs; simpl.
    chat_goal. rewrite Hchat in Ho. subst o.
    rewrite parse_or_raw_run; simpl. rewrite lookup_insert_eq; simpl.
    eexists (mkJob _ _ _ _ _ _), _; simpl.
    split; [reflexivity |]. split; [reflexivity |]. split; reflexivity.
  - intros (test & Hlook & Htype & Hp & He & Hchat).
    unfold answers_of in He.
    unfold Server.submit; simpl.
    rewrite Hlook; simpl. rewrite (writing_test_truthy _ Htype), Htype; simpl.
    rewrite Hp; simpl. rewrite He; simpl.
    chat_goal. rewrite Hchat in Ho. subst o.
    rewrite parse_or_raw_run; simpl. rewrite lookup_insert_eq; simpl.
    eexists (mkJob _ _ _ _ _ _), _; simpl.
    split; [reflexivity |]. split; [reflexivity |]. split; reflexivity.
  - intros (test & Hlook & Hmp & Htype & Hp & He & Hchat).
    unfold answers_of in He.
    unfold ApiSubmit.handler; simpl.
    rewrite Hlook; simpl. rewrite (writing_test_truthy _ Htype), Hmp, Htype; simpl.
    rewrite Hp; simpl. rewrite He; simpl.
    chat_goal. rewrite Hchat in Ho. subst o.
    rewrite parse_or_raw_run; unfold ApiSubmit.fresh_jobId; simpl.
    rewrite lookup_insert_eq; simpl.
    eexists (mkJob _ _ _ _ _ _), _; simpl.
    split; [reflexivity |]. split; [reflexivity |]. split; reflexivity.
Qed.

(** C5: on every submit path, when the grading call returns text that is
    not valid JSON, the request succeeds and the stored Job's result is
    [{raw: <that text>}], the text untouched. *)
Theorem submit_grading_fallback :
  forall (rt : Runtime) (c : submit_call) (w : World) (evalResp : value),
    graded_submit rt c w evalResp ->
    parsed_text rt evalResp = None ->
    exists job w',
      run_submit rt c w = (SubmitOk (jobId job) (VObj [("raw", evalResp)]), w')
      /\ SUBMISSIONS w' !! jobId job = Some job
      /\ result job = VObj [("raw", evalResp)].
Proof.
  intros rt c w evalResp Hreach Hbad.
  destruct (graded_submit_run rt c w evalResp Hreach) as (job & w' & Hrun & Hsub & _ & Hres).
  rewrite Hbad in Hres.
  exists job, w'. rewrite Hrun, Hsub, Hres, lookup_insert_eq. auto.
Qed.

Lemma submit_grading_fallback_witness :
  exists job w',
    run_submit silent_audio_runtime (ExpressSubmit "s1" (Some "RIFF") VUndef) speaking_world
    = (SubmitOk (jobId job) (VObj [("raw", VStr "Band 6, roughly.")]), w')
    /\ SUBMISSIONS w' !! jobId job = Some job
    /\ result job = VObj [("raw", VStr "Band 6, roughly.")].
Proof.
  apply (submit_grading_fallback silent_audio_runtime
           (ExpressSubmit "s1" (Some "RIFF") VUndef) speaking_world
           (VStr "Band 6, roughly.")).
  - split; [reflexivity |].
    exists 200, "{}", (VObj []), VUndef.
    repeat split; vm_compute; reflexivity.
  - vm_compute. reflexivity.
Defined.

Lemma essay_of_no_essay (body : value) :
  no_essay body -> essay_of (answers_of body) = VStr EmptyString.
Proof.
  unfold no_essay, answers_of.
  intros [-> | [-> | (a0 & rest & -> & Ha)]]; try reflexivity.
  unfold essay_of.
  change (or_else (VArr (a0 :: rest)) (VArr [])) with (VArr (a0 :: rest)).
  change (opt_first (VArr (a0 :: rest))) with a0.
  cbv zeta.
  unfold and_then.
  destruct (truthy a0) eqn:Ht.
  - rewrite Ha. reflexivity.
  - unfold or_else. rewrite Ht. reflexivity.
Qed.

(** C10, amended: a JSON submit against a stored writing test whose first
    prompt has a string, and whose answers are missing, empty, or lack
    [answerText] in the first answer, is not rejected: the grading call is
    issued with the empty string as the essay, no 400 is returned, and
    once the call returns a Job record holding the submitted answers is
    stored. *)
Theorem submit_without_essay_is_graded :
  forall (rt : Runtime) (c : submit_call) (w : World) (test body : value),
    TESTS w !! submitted_testId c = Some test ->
    strict_eq_str (opt_prop test "type") "writing" = true ->
    ToPrimitive_ok (prompt_of test) = true ->
    json_submit c = Some body ->
    no_essay body ->
    exists resp w' rq sys,
      run_submit rt c w = (resp, w')
      /\ fetches w' = (fetches w ++ [ChatCompletions rq])%list
      /\ chat_messages rq
         = [("system", sys);
            ("user", "Prompt:" ++ nl ++ ToString rt (prompt_of test) ++ nl ++ nl
                     ++ "Essay:" ++ nl ++ EmptyString)]
      /\ (forall msg, resp <> Error 400 msg)
      /\ (chat_reply rt (length (fetches w)) = None -> exists msg, resp = Error 500 msg)
      /\ (forall evalResp, chat_reply rt (length (fetches w)) = Some evalResp ->
          exists job,
            resp = SubmitOk (jobId job) (result job)
            /\ SUBMISSIONS w' !! jobId job = Some job
            /\ job_testId job = submitted_testId c
            /\ job_input job = with_answers (answers_of body)).
Proof.
  intros rt c w test body Htest Htype Hprompt Hjson Hno.
  pose proof (writing_test_truthy _ Htype) as Htruthy.
  pose proof (essay_of_no_essay _ Hno) as Hessay.
  unfold answers_of in Hessay.
  destruct c as [tid [buffer |] body' | tid req]; simpl in *; try discriminate.
  - injection Hjson as ->.
    unfold Server.submit, lookup_test; simpl.
    rewrite Htest; simpl. rewrite Htruthy, Htype; simpl.
    rewrite Hessay, Hprompt; simpl.
    chat_goal.
    destruct o as [a | msg]; rewrite ?parse_or_raw_run; simpl;
      rewrite ?lookup_insert_eq; simpl;
      do 4 eexists; (split; [reflexivity |]); simpl;
      (split; [reflexivity |]); (split; [reflexivity |]);
      (split; [discriminate |]).
    + split; [intros E; rewrite E in Ho; destruct Ho as [? Ho]; discriminate Ho |].
      intros evalResp E; eexists (mkJob _ _ _ _ _ _); simpl.
      split; [reflexivity |]. split; [apply lookup_insert_eq |]. auto.
    + split; [eauto |].
      intros evalResp E; rewrite E in Ho; discriminate Ho.
  - destruct (ApiSubmit.is_multipart req) eqn:Hmp; [discriminate |].
    injection Hjson as <-.
    unfold ApiSubmit.handler, lookup_test; simpl.
    rewrite Htest; simpl. rewrite Htruthy, Hmp, Htype; simpl.
    rewrite Hessay, Hprompt; simpl.
    chat_goal.
    destruct o as [a | msg]; rewrite ?parse_or_raw_run;
      unfold ApiSubmit.fresh_jobId; simpl;
      rewrite ?lookup_insert_eq; simpl;
      do 4 eexists; (split; [reflexivity |]); simpl;
      (split; [reflexivity |]); (split; [reflexivity |]);
      (split; [discriminate |]).
    + split; [intros E; rewrite E in Ho; destruct Ho as [? Ho]; discriminate Ho |].
      intros evalResp E; eexists (mkJob _ _ _ _ _ _); simpl.
      split; [reflexivity |]. split; [apply lookup_insert_eq |]. auto.
    + split; [eauto |].
      intros evalResp E; rewrite E in Ho; discriminate Ho.
Qed.

Lemma submit_without_essay_is_graded_witness :
  exists resp w' rq sys,
    run_submit prose_runtime (ServerlessSubmit "t1" empty_json_request) essay_world = (resp, w')
    /\ fetches w' = (fetches essay_world ++ [ChatCompletions rq])%list
    /\ chat_messages rq
       = [("system", sys);
          ("user", "Prompt:" ++ nl ++ ToString prose_runtime (prompt_of essay_test) ++ nl ++ nl
                   ++ "Essay:" ++ nl ++ EmptyString)]
    /\ (forall msg, resp <> Error 400 msg)
    /\ (chat_reply prose_runtime (length (fetches essay_world)) = None ->
        exists msg, resp = Error 500 msg)
    /\ (forall evalResp, chat_reply prose_runtime (length (fetches essay_world)) = Some evalResp ->
        exists job,
          resp = SubmitOk (jobId job) (result job)
          /\ SUBMISSIONS w' !! jobId job = Some job
          /\ job_testId job = "t1"
          /\ job_input job = with_answers (answers_of (VObj []))).
Proof.
  apply (submit_without_essay_is_graded prose_runtime
           (ServerlessSubmit "t1" empty_json_request) essay_world essay_test (VObj [])).
  - reflexivity.
  - reflexivity.
  - reflexivity.
  - reflexivity.
  - left. reflexivity.
Defined.

(** C10 as stated fails on a stored writing test whose first prompt is the
    object [{toString: 1}]: the template that writes the grading message
    throws, and both deployments answer 500 without a grading call and
    without a Job. *)
Lemma submit_object_prompt_fails :
  TESTS object_prompt_world !! "t2" = Some object_prompt_test
  /\ strict_eq_str (opt_prop object_prompt_test "type") "writing" = true
  /\ run_submit prose_runtime (ExpressSubmit "t2" None (VObj [])) object_prompt_world
     = (Error 500 "Cannot convert object to primitive value", object_prompt_world)
  /\ run_submit prose_runtime (ServerlessSubmit "t2" empty_json_request) object_prompt_world
     = (Error 500 "Cannot convert object to primitive value", object_prompt_world).
Proof. repeat split; vm_compute; reflexivity. Qed.

(** ** Speaking tests *)

Lemma Server_generateTest_speaking (rt : Runtime) (level numTasks : value) (w : World) :
  exists w',
    Server.generateTest rt (VStr "speaking") level numTasks w
    = (Returns (Server.speaking_test (uuidv4_draw rt (uuid_draws w))
                                     (param_default level (VStr "ielts-6"))), w')
    /\ fetches w' = fetches w.
Proof. eexists; split; reflexivity. Qed.

(** C7, on api/order-test.js: for the speaking type the serverless
    generator makes no external call, but the structure it returns has two
    parts only, the personal question and the long turn; the discussion
    part that server.js returns is absent. *)
Theorem serverless_speaking_test_has_two_parts :
  forall (rt : Runtime) (level numTasks : value) (w : World),
    exists w',
      generateTest_of Serverless rt (VStr "speaking") level numTasks w
      = (Returns
           (VObj [("test_id", VStr (uuidv4_draw rt (uuid_draws w)));
                  ("type", VStr "speaking");
                  ("level", param_default level (VStr "ielts-6"));
                  ("parts",
                   VArr [VObj [("part", VNum 1%float);
                               ("items", VArr [VObj [("id", VStr "p1q1");
                                                     ("q", VStr "What is your full name?")]])];
                         VObj [("part", VNum 2%float);
                               ("cue", VStr "Describe a memorable trip you had.");
                               ("prep_time", VNum 60%float);
                               ("speak_time", VNum 120%float)]])]),
         w')
      /\ fetches w' = fetches w.
Proof. intros. eexists; split; reflexivity. Qed.

(** ** Orders and their status *)

(** What a submit on server.js does to the orders. *)
Lemma Server_submit_orders (rt : Runtime) (tid : string) (file : option string)
    (body : value) (w w' : World) (resp : response) :
  Server.submit rt tid file body w = (resp, w') ->
  (uuid_draws w <= uuid_draws w')%nat
  /\ (((exists j r, resp = SubmitOk j r) /\ ORDERS w' = mark_graded tid <$> ORDERS w)
      \/ ((exists code msg, resp = Error code msg) /\ ORDERS w' = ORDERS w)).
Proof.
  intros H.
  unfold Server.submit, Server.callOpenAIChat in H. run_monad.
  crunch H; injection H as <- <-; simpl; (split; [lia |]); eauto 6.
Qed.

Lemma stateless_ret {A : Type} (a : A) : stateless (ret a).
Proof. intros w. eexists; reflexivity. Qed.

Lemma stateless_lift_opt {A : Type} (o : option A) (msg : string) :
  stateless (lift_opt o msg).
Proof. intros w. destruct o; eexists; reflexivity. Qed.

Lemma stateless_bind {A B : Type} (m : M A) (k : A -> M B) :
  stateless m -> (forall a, stateless (k a)) -> stateless (bind m k).
Proof.
  intros Hm Hk w. unfold bind.
  destruct (Hm w) as [o ->].
  destruct o; [apply Hk | eexists; reflexivity].
Qed.

Lemma stateless_to_string (rt : Runtime) (v : value) : stateless (to_string rt v).
Proof.
  intros w. unfold to_string. destruct (ToPrimitive_ok v); eexists; reflexivity.
Qed.

Lemma Server_make_testUrl_stateless (rt : Runtime) (testId : value) :
  stateless (Server.make_testUrl rt testId).
Proof.
  unfold Server.make_testUrl, encodeURIComponent_value.
  apply stateless_bind; [| intros; apply stateless_ret].
  apply stateless_bind; [apply stateless_to_string | intros; apply stateless_lift_opt].
Qed.

Lemma ApiOrderTest_make_testUrl_stateless (rt : Runtime) (testId : value) :
  stateless (ApiOrderTest.make_testUrl rt testId).
Proof.
  unfold ApiOrderTest.make_testUrl, encodeURIComponent_value.
  apply stateless_bind; [| intros; apply stateless_ret].
  apply stateless_bind; [apply stateless_to_string | intros; apply stateless_lift_opt].
Qed.

(** The rate check reads the clock once and writes buckets only. *)
Lemma ApiOrderTest_rate_check_frame (rt : Runtime) (ip : string) (w : World) :
  exists o rate,
    ApiOrderTest.rate_check rt ip w
    = (o, mkWorld (ORDERS w) (ORDER_KEYS w) (TESTS w) (TESTS_proto w) (SUBMISSIONS w)
                  rate (uuid_draws w) (S (clock_reads w)) (random_draws w) (fetches w)).
Proof.
  destruct (ApiOrderTest.rate_check rt ip w) as [o w'] eqn:H.
  unfold ApiOrderTest.rate_check, ApiOrderTest.count_request in H.
  crunch H; injection H as <- <-; eauto.
Qed.

(** Case analysis on the run of a handler that leaves the runs of the
    generator, of the rate check and of the URL template unopened. *)
Ltac known_call H :=
  match type of H with
  | context [Server.generateTest ?rt ?a ?b ?c ?w1] =>
      let E := fresh "E" in
      destruct (Server_generateTest_frame rt a b c w1) as (? & ? & E & ?);
      rewrite E in H; clear E
  | context [ApiOrderTest.generateTest ?rt ?a ?b ?c ?w1] =>
      let E := fresh "E" in
      destruct (ApiOrderTest_generateTest_frame rt a b c w1) as (? & ? & E & ?);
      rewrite E in H; clear E
  | context [ApiOrderTest.rate_check ?rt ?ip ?w1] =>
      let E := fresh "E" in
      destruct (ApiOrderTest_rate_check_frame rt ip w1) as (? & ? & E);
      rewrite E in H; clear E
  | context [Server.make_testUrl ?rt ?t ?w1] =>
      let E := fresh "E" in
      destruct (Server_make_testUrl_stateless rt t w1) as [? E];
      rewrite E in H; clear E
  | context [ApiOrderTest.make_testUrl ?rt ?t ?w1] =>
      let E := fresh "E" in
      destruct (ApiOrderTest_make_testUrl_stateless rt t w1) as [? E];
      rewrite E in H; clear E
  end.

Ltac execute H :=
  repeat (simpl in H; rewrite ?lookup_insert_eq, ?parse_or_raw_run in H; simpl in H;
          first [ known_call H
                | match type of H with
                  | context [match ?x with _ => _ end] =>
                      lazymatch x with
                      | context [match _ with _ => _ end] => fail
                      | _ => destruct x eqn:?
                      end
                  end ]);
  simpl in H; rewrite ?lookup_insert_eq in H; simpl in H.

Lemma Server_order_test_orders (rt : Runtime) (body : value) (w : World) :
  orders_evolve rt w (snd (Server.order_test rt body w)).
Proof.
  destruct (Server.order_test rt body w) as [resp w'] eqn:H.
  unfold Server.order_test in H.
  execute H; injection H as <- <-; unfold orders_evolve; simpl;
    (split; [lia |]);
    solve [ left; reflexivity
          | right; right; eexists; split; [| split; [| reflexivity]]; simpl;
            [reflexivity | lia] ].
Qed.

Lemma ApiOrderTest_handler_orders (rt : Runtime) (req : ApiRequest) (w : World) :
  orders_evolve rt w (snd (ApiOrderTest.handler rt req w)).
Proof.
  destruct (ApiOrderTest.handler rt req w) as [resp w'] eqn:H.
  unfold ApiOrderTest.handler in H.
  execute H; injection H as <- <-; unfold orders_evolve; simpl;
    (split; [lia |]);
    solve [ left; reflexivity
          | right; right; eexists; split; [| split; [| reflexivity]]; simpl;
            [reflexivity | lia] ].
Qed.

Lemma Server_my_tests_world (rt : Runtime) (w : World) :
  snd (Server.my_tests rt w) = w.
Proof.
  unfold Server.my_tests, unguarded.
  match goal with
  | |- context [bind ?m ?k w] => assert (Hs : stateless (bind m k))
  end.
  { apply stateless_bind; [intros w0; eexists; reflexivity |].
    intros orders. apply stateless_bind; [| intros; apply stateless_ret].
    induction orders as [| o l IH]; simpl.
    - apply stateless_ret.
    - apply stateless_bind; [apply Server_make_testUrl_stateless |].
      intros url. apply stateless_bind; [exact IH | intros; apply stateless_ret]. }
  destruct (Hs w) as [o ->]. destruct o; reflexivity.
Qed.

Lemma ApiSubmit_handler_orders (rt : Runtime) (tid : string) (req : ApiRequest) (w : World) :
  ORDERS (snd (ApiSubmit.handler rt tid req w)) = ORDERS w
  /\ uuid_draws (snd (ApiSubmit.handler rt tid req w)) = uuid_draws w.
Proof.
  destruct (ApiSubmit.handler rt tid req w) as [resp w'] eqn:H.
  unfold ApiSubmit.handler, ApiSubmit.callOpenAIChat, ApiSubmit.fresh_jobId in H.
  run_monad.
  crunch H; injection H as <- <-; simpl; split; reflexivity.
Qed.

Lemma perform_orders_evolve (rt : Runtime) (op : operation) (w : World) :
  orders_evolve rt w (snd (perform rt op w)).
Proof.
  destruct op as [[body | | tid | tid file body | jid |] | [req | tid | tid req | jid |]];
    simpl.
  - apply Server_order_test_orders.
  - rewrite Server_my_tests_world. split; [lia | left; reflexivity].
  - unfold Server.get_test. repeat case_match; simpl; split; auto.
  - destruct (Server.submit rt tid file body w) as [resp w'] eqn:H.
    destruct (Server_submit_orders _ _ _ _ _ _ _ H) as [Hd [[_ Ho] | [_ Ho]]];
      simpl; split; eauto.
  - unfold Server.get_job. repeat case_match; simpl; split; auto.
  - split; [simpl; lia | left; reflexivity].
  - apply ApiOrderTest_handler_orders.
  - unfold ApiTest.handler. repeat case_match; simpl; split; auto.
  - destruct (ApiSubmit_handler_orders rt tid req w) as [Ho Hd].
    split; [lia | left; exact Ho].
  - unfold ApiJob.handler. repeat case_match; simpl; split; auto.
  - split; [simpl; lia | left; reflexivity].
Qed.

Lemma evolve_ids_drawn (rt : Runtime) (w w' : World) :
  orders_evolve rt w w' -> ids_drawn rt w -> ids_drawn rt w'.
Proof.
  intros [Hd Ho] Hinv id o Hid.
  destruct Ho as [Ho | [[tid Ho] | (o0 & _ & Hlt & Ho)]]; rewrite Ho in Hid.
  - destruct (Hinv id o Hid) as (k & Hk & ->). exists k. split; [lia | reflexivity].
  - rewrite lookup_fmap in Hid.
    destruct (ORDERS w !! id) as [o1 |] eqn:E; [| discriminate].
    destruct (Hinv id o1 E) as (k & Hk & ->). exists k. split; [lia | reflexivity].
  - destruct (decide (uuidv4_draw rt (uuid_draws w) = id)) as [<- | Hne].
    + exists (uuid_draws w). split; [lia | reflexivity].
    + rewrite lookup_insert_ne in Hid by exact Hne.
      destruct (Hinv id o Hid) as (k & Hk & ->). exists k. split; [lia | reflexivity].
Qed.

Lemma run_app (rt : Runtime) (ops more : list operation) (w : World) :
  run rt (ops ++ more) w = run rt more (run rt ops w).
Proof. unfold run. apply foldl_app. Qed.

Lemma run_ids_drawn (rt : Runtime) (ops : list operation) (w : World) :
  ids_drawn rt w -> ids_drawn rt (run rt ops w).
Proof.
  revert w. induction ops as [| op ops IH]; intros w Hinv; [exact Hinv |].
  simpl. apply IH. eapply evolve_ids_drawn; [apply perform_orders_evolve | exact Hinv].
Qed.

Lemma init_ids_drawn (rt : Runtime) : ids_drawn rt init_world.
Proof. intros id o H. simpl in H. rewrite lookup_empty in H. discriminate. Qed.

Lemma mark_graded_keeps_graded (tid : string) (o : Order) :
  status o = graded -> status (mark_graded tid o) = graded.
Proof. intros H. unfold mark_graded. destruct (strict_eq_str _ _); simpl; auto. Qed.

Lemma evolve_keeps_graded (rt : Runtime) (w w' : World) (id : string) (o : Order) :
  Inj (=) (=) (uuidv4_draw rt) ->
  ids_drawn rt w ->
  orders_evolve rt w w' ->
  ORDERS w !! id = Some o -> status o = graded ->
  exists o', ORDERS w' !! id = Some o' /\ status o' = graded.
Proof.
  intros Hinj Hinv [Hd Ho] Hid Hst.
  destruct Ho as [Ho | [[tid Ho] | (o0 & _ & Hlt & Ho)]]; rewrite Ho.
  - eauto.
  - rewrite lookup_fmap, Hid. simpl. eauto using mark_graded_keeps_graded.
  - destruct (Hinv id o Hid) as (k & Hk & ->).
    rewrite lookup_insert_ne; [eauto |].
    intros E. apply Hinj in E. lia.
Qed.

Lemma evolve_creates_ready (rt : Runtime) (w w' : World) (id : string) (o : Order) :
  orders_evolve rt w w' ->
  ORDERS w !! id = None -> ORDERS w' !! id = Some o ->
  status o = ready.
Proof.
  intros [Hd Ho] Hnone Hid.
  destruct Ho as [Ho | [[tid Ho] | (o0 & Hr & Hlt & Ho)]]; rewrite Ho in Hid.
  - congruence.
  - rewrite lookup_fmap, Hnone in Hid. discriminate.
  - destruct (decide (uuidv4_draw rt (uuid_draws w) = id)) as [<- | Hne].
    + rewrite lookup_insert_eq in Hid. congruence.
    + rewrite lookup_insert_ne in Hid by exact Hne. congruence.
Qed.

Lemma run_keeps_graded (rt : Runtime) (more : list operation) (w : World)
    (id : string) (o : Order) :
  Inj (=) (=) (uuidv4_draw rt) ->
  ids_drawn rt w ->
  ORDERS w !! id = Some o -> status o = graded ->
  exists o', ORDERS (run rt more w) !! id = Some o' /\ status o' = graded.
Proof.
  intros Hinj. revert w o.
  induction more as [| op more IH]; intros w o Hinv Hid Hst; [simpl; eauto |].
  simpl.
  destruct (evolve_keeps_graded rt w _ id o Hinj Hinv (perform_orders_evolve rt op w) Hid Hst)
    as (o1 & Hid1 & Hst1).
  apply (IH _ o1); auto.
  eapply evolve_ids_drawn; [apply perform_orders_evolve | exact Hinv].
Qed.

(** C4: with identifiers that do not repeat, in every sequence of requests
    to either deployment an order enters the store as [ready], and an order
    that is [graded] is still stored and [graded] after any further
    requests. *)
Theorem order_status_monotonic :
  forall (rt : Runtime),
    Inj (=) (=) (uuidv4_draw rt) ->
    forall (ops : list operation) (id : string),
      let w := run rt ops init_world in
      (forall (op : operation) (o : Order),
          ORDERS w !! id = None ->
          ORDERS (snd (perform rt op w)) !! id = Some o ->
          status o = ready)
      /\ (forall (more : list operation) (o : Order),
          ORDERS w !! id = Some o -> status o = graded ->
          exists o', ORDERS (run rt more w) !! id = Some o' /\ status o' = graded).
Proof.
  intros rt Hinj ops id w. split.
  - intros op o Hnone Hid.
    eapply evolve_creates_ready; [apply perform_orders_evolve | exact Hnone | exact Hid].
  - intros more o Hid Hst.
    apply (run_keeps_graded rt more w id o Hinj); auto.
    apply run_ids_drawn, init_ids_drawn.
Qed.

Lemma order_status_monotonic_witness :
  let w := run grading_runtime
               [order_writing; OnServer (Server.PostSubmit "1" None (VObj []))]
               init_world in
  (exists o, ORDERS w !! "0" = Some o /\ status o = graded)
  /\ exists o', ORDERS (run grading_runtime [order_writing; OnServer Server.GetMyTests] w) !! "0"
                = Some o'
                /\ status o' = graded.
Proof.
  intros w.
  assert (Hw : exists o, ORDERS w !! "0" = Some o /\ status o = graded).
  { vm_compute. eexists; split; reflexivity. }
  split; [exact Hw |].
  destruct Hw as (o & Hid & Hst).
  destruct (order_status_monotonic grading_runtime pretty_nat_inj
              [order_writing; OnServer (Server.PostSubmit "1" None (VObj []))] "0")
    as [_ Hkeep].
  exact (Hkeep [order_writing; OnServer Server.GetMyTests] o Hid Hst).
Defined.

(** On server.js a successful submit grades exactly the orders of its test. *)
Lemma Server_submit_grades_orders (rt : Runtime) (tid : string) (file : option string)
    (body : value) (w w' : World) (j : string) (r : value) :
  Server.submit rt tid file body w = (SubmitOk j r, w') ->
  forall id o, ORDERS w !! id = Some o ->
    exists o', ORDERS w' !! id = Some o'
      /\ (order_testId o = VStr tid -> status o' = graded /\ order_testId o' = VStr tid)
      /\ (order_testId o <> VStr tid -> o' = o).
Proof.
  intros H id o Hid.
  destruct (Server_submit_orders _ _ _ _ _ _ _ H) as [_ [[_ Ho] | [(c & m & E) _]]];
    [| discriminate].
  rewrite Ho, lookup_fmap, Hid. simpl. eexists; split; [reflexivity |].
  unfold mark_graded. split.
  - intros E. rewrite E. simpl. rewrite String.eqb_refl. simpl. auto.
  - intros Hne. destruct (order_testId o) as [| | | | s | |]; simpl; try reflexivity.
    destruct (String.eqb_spec s tid) as [-> | _]; [congruence | reflexivity].
Qed.

(** C3, on api/test/[testId]/submit.js: the serverless submit succeeds for
    the stored writing test "t1", yet the order that references "t1" is
    still [ready] afterwards; the handler never touches the orders. *)
Theorem serverless_submit_leaves_order_ready :
  exists j r w',
    run_submit prose_runtime (ServerlessSubmit "t1" essay_request) essay_world
    = (SubmitOk j r, w')
    /\ ORDERS essay_world !! "o1" = Some essay_order
    /\ order_testId essay_order = VStr "t1"
    /\ ORDERS w' !! "o1" = Some essay_order
    /\ status essay_order = ready.
Proof.
  do 3 eexists. split; [vm_compute; reflexivity |].
  repeat split; vm_compute; reflexivity.
Qed.

(** ** Retrieval after generation *)

(** Under any key but [__proto__] the assignment [TESTS[key] = test]
    creates or overwrites an own property. *)
Lemma setter_applies_other (key : string) (w : World) :
  key <> "__proto__" -> setter_applies key w = false.
Proof.
  intros Hne. unfold setter_applies.
  destruct (String.eqb_spec key "__proto__") as [E | _]; [contradiction | reflexivity].
Qed.

Lemma TESTS_after_other (key : string) (test : value) (w : World) :
  key <> "__proto__" -> TESTS_after key test w = <[key := test]> (TESTS w).
Proof. intros Hne. unfold TESTS_after. rewrite setter_applies_other; auto. Qed.

Lemma TESTS_proto_after_other (key : string) (test : value) (w : World) :
  key <> "__proto__" -> TESTS_proto_after key test w = TESTS_proto w.
Proof. intros Hne. unfold TESTS_proto_after. rewrite setter_applies_other; auto. Qed.

(** A truthy test filed by an accepted order, under a testId other than
    [__proto__], is returned by a fetch of that testId. *)
Lemma Server_order_then_get (rt : Runtime) (body : value) (w w' : World)
    (oid url : string) (testId : value) :
  Server.order_test rt body w = (OrderOk oid testId url, w') ->
  ToString rt testId <> "__proto__" ->
  exists test,
    TESTS w' !! ToString rt testId = Some test
    /\ (truthy test = true ->
        Server.get_test (ToString rt testId) w' = (TestOk test, w')).
Proof.
  intros H Hne.
  unfold Server.order_test in H.
  execute H; simplify_eq; unfold Server.get_test, lookup_test; simpl;
    rewrite TESTS_after_other by exact Hne;
    rewrite lookup_insert_eq; eexists; (split; [reflexivity |]);
    intros ->; reflexivity.
Qed.

(** C9, on the reply [0]: the model answers the generation request with the
    valid JSON text [0]; the order is accepted and the value stored under
    the returned testId, but fetching that testId straight away answers
    not-found. *)
Theorem falsy_test_is_not_retrievable :
  exists w',
    Server.order_test zero_runtime (VObj [("testType", VStr "writing")]) init_world
    = (OrderOk "0" (VStr "2") "/?testId=2", w')
    /\ TESTS w' !! "2" = Some (VNum 0%float)
    /\ Server.get_test "2" w' = (Error 404 "test not found", w').
Proof.
  eexists. split; [vm_compute; reflexivity |].
  split; vm_compute; reflexivity.
Qed.

(** ** Rate limiting *)

(** The rate check for a client whose identifier names no member of
    [Object.prototype]. *)
Lemma rate_check_run (rt : Runtime) (ip : string) (w : World) :
  Object_prototype_has ip = false ->
  let now := Date_now_at rt (clock_reads w) in
  let kept := prune now (ApiOrderTest.bucket_of ip w) in
  ApiOrderTest.rate_check rt ip w
  = if (5 <=? Z.of_nat (length kept))%Z
    then (Returns false,
          mkWorld (ORDERS w) (ORDER_KEYS w) (TESTS w) (TESTS_proto w) (SUBMISSIONS w)
                  (<[ip := kept]> (RATE w))
                  (uuid_draws w) (S (clock_reads w)) (random_draws w) (fetches w))
    else (Returns true,
          mkWorld (ORDERS w) (ORDER_KEYS w) (TESTS w) (TESTS_proto w) (SUBMISSIONS w)
                  (<[ip := (kept ++ [now])%list]> (RATE w))
                  (uuid_draws w) (S (clock_reads w)) (random_draws w) (fetches w)).
Proof.
  intros Hip now kept. subst now kept.
  unfold ApiOrderTest.rate_check, ApiOrderTest.count_request, ApiOrderTest.bucket_of.
  run_goal. destruct (RATE w !! ip) as [bucket |]; run_goal; rewrite ?Hip; run_goal;
    unfold set_RATE; simpl; try case_match; simpl; rewrite ?insert_insert_eq; reflexivity.
Qed.

(** The three outcomes of the rate check. *)
Lemma rate_check_cases (rt : Runtime) (ip : string) (w : World) :
  let now := Date_now_at rt (clock_reads w) in
  let kept := prune now (ApiOrderTest.bucket_of ip w) in
  let after rate :=
    mkWorld (ORDERS w) (ORDER_KEYS w) (TESTS w) (TESTS_proto w) (SUBMISSIONS w) rate
            (uuid_draws w) (S (clock_reads w)) (random_draws w) (fetches w) in
  (ApiOrderTest.rate_check rt ip w
   = (Returns true, after (<[ip := (kept ++ [now])%list]> (RATE w)))
   /\ (length kept < 5)%nat)
  \/ (ApiOrderTest.rate_check rt ip w = (Returns false, after (<[ip := kept]> (RATE w)))
      /\ (5 <= length kept)%nat)
  \/ (ApiOrderTest.rate_check rt ip w
      = (Throws (NotAFunction_message rt "global.RATE[ip].filter"), after (RATE w))
      /\ RATE w !! ip = None /\ Object_prototype_has ip = true).
Proof.
  intros now kept after.
  destruct (Object_prototype_has ip) eqn:Hip.
  - destruct (RATE w !! ip) as [bucket |] eqn:Hb.
    + subst now kept after.
      unfold ApiOrderTest.rate_check, ApiOrderTest.count_request, ApiOrderTest.bucket_of.
      run_goal. rewrite Hb. run_goal. unfold set_RATE; simpl.
      destruct (5 <=? _)%Z eqn:E; simpl; rewrite ?insert_insert_eq;
        [right; left; split; [reflexivity | apply Z.leb_le in E; lia]
        | left; split; [reflexivity | apply Z.leb_gt in E; lia]].
    + right; right.
      unfold ApiOrderTest.rate_check. run_goal. rewrite Hb, Hip. auto.
  - rewrite (rate_check_run rt ip w Hip). fold now kept. fold (after (<[ip := kept]> (RATE w))).
    destruct (5 <=? Z.of_nat (length kept))%Z eqn:E;
      [right; left; split; [reflexivity | apply Z.leb_le in E; lia]
      | left; split; [reflexivity | apply Z.leb_gt in E; lia]].
Qed.

(** Nothing after the rate check touches the buckets. *)
Lemma ApiOrderTest_handler_rate (rt : Runtime) (req : ApiRequest) (w w' : World)
    (resp : response) :
  generation_request req ->
  Object_prototype_has (ApiOrderTest.client_ip req) = false ->
  ApiOrderTest.handler rt req w = (resp, w') ->
  let ip := ApiOrderTest.client_ip req in
  let now := Date_now_at rt (clock_reads w) in
  let kept := prune now (ApiOrderTest.bucket_of ip w) in
  if (5 <=? Z.of_nat (length kept))%Z
  then resp = quota_error
       /\ w' = mkWorld (ORDERS w) (ORDER_KEYS w) (TESTS w) (TESTS_proto w) (SUBMISSIONS w)
                       (<[ip := kept]> (RATE w))
                       (uuid_draws w) (S (clock_reads w)) (random_draws w) (fetches w)
  else resp <> quota_error
       /\ ApiOrderTest.bucket_of ip w' = (kept ++ [now])%list.
Proof.
  intros [Hm Ht] Hip H ip now kept.
  unfold ApiOrderTest.handler in H. rewrite Hm in H. simpl in H.
  rewrite Ht in H. simpl in H.
  rewrite (rate_check_run rt _ w Hip) in H.
  fold ip now kept in H.
  destruct (5 <=? Z.of_nat (length kept))%Z.
  - simpl in H. injection H as <- <-. split; reflexivity.
  - execute H; injection H as <- <-; (split; [discriminate |]);
      unfold ApiOrderTest.bucket_of; simpl; rewrite lookup_insert_eq; reflexivity.
Qed.








(** Six orders of one client within one millisecond on the serverless
    handler: five are served, the sixth is turned away. *)
Example six_serverless_orders :
  map snd (fst (serve_orders offline_runtime (replicate 6 (order_request "203.0.113.7"))
                             init_world))
  = [OrderOk "0" (VStr "1") "/?testId=1";
     OrderOk "2" (VStr "3") "/?testId=3";
     OrderOk "4" (VStr "5") "/?testId=5";
     OrderOk "6" (VStr "7") "/?testId=7";
     OrderOk "8" (VStr "9") "/?testId=9";
     quota_error].
Proof. vm_compute. reflexivity. Qed.


(** ** Identifiers *)

Lemma ApiSubmit_handler_success (rt : Runtime) (tid : string) (req : ApiRequest)
    (w : World) (test evalResp : value) :
  TESTS w !! tid = Some test ->
  strict_eq_str (opt_prop test "type") "writing" = true ->
  ApiSubmit.is_multipart req = false ->
  ToPrimitive_ok (prompt_of test) = true ->
  ToPrimitive_ok (essay_of (answers_of (req_body req))) = true ->
  chat_reply rt (length (fetches w)) = Some evalResp ->
  let id := Number_toString36 rt
              (PrimFloat.add (Math_random_at rt (random_draws w))
                             (Number_of_Z (Date_now_at rt (clock_reads w)))) in
  exists parsed created rq,
    ApiSubmit.handler rt tid req w
    = (SubmitOk id parsed,
       mkWorld (ORDERS w) (ORDER_KEYS w) (TESTS w) (TESTS_proto w)
               (<[id := mkJob id tid "writing" (with_answers (answers_of (req_body req)))
                              parsed created]> (SUBMISSIONS w))
               (RATE w) (uuid_draws w) (S (S (clock_reads w))) (S (random_draws w))
               (fetches w ++ [ChatCompletions rq])).
Proof.
  intros Htest Htype Hmp Hp He Htext id.
  pose proof (writing_test_truthy _ Htype) as Htruthy.
  unfold answers_of in He.
  unfold ApiSubmit.handler, lookup_test; simpl.
  rewrite Htest; simpl. rewrite Htruthy, Hmp, Htype; simpl.
  rewrite Hp, He; simpl.
  chat_goal. rewrite Htext in Ho. subst o.
  rewrite parse_or_raw_run; unfold ApiSubmit.fresh_jobId; simpl. fold id.
  rewrite lookup_insert_eq; simpl; do 3 eexists; reflexivity.
Qed.

(** C8, on api/test/[testId]/submit.js: the serverless submit takes its
    jobId from [Math.random() + Date.now()], a sum rounded to a double.
    Two submissions in one millisecond whose random numbers differ (0.5 and
    0.5 + 2^-40) get the same jobId, whatever the base-36 rendering, and
    the second Job record replaces the first. *)
Theorem serverless_jobIds_collide :
  forall (render36 : float -> string),
    let rt := collision_runtime render36 in
    PrimFloat.eqb (Math_random_at rt 0) (Math_random_at rt 1) = false
    /\ exists j r1 w1 r2 w2 job2,
        ApiSubmit.handler rt "t1" essay_request essay_world = (SubmitOk j r1, w1)
        /\ ApiSubmit.handler rt "t1" empty_json_request w1 = (SubmitOk j r2, w2)
        /\ SUBMISSIONS w2 = {[ j := job2 ]}
        /\ job_input job2 = with_answers (VArr []).
Proof.
  intros render36 rt. split; [vm_compute; reflexivity |].
  destruct (ApiSubmit_handler_success rt "t1" essay_request essay_world essay_test
              (VStr "Band 6, roughly."))
    as (p1 & c1 & rq1 & H1); try (vm_compute; reflexivity).
  simpl in H1.
  match type of H1 with _ = (_, ?w) => set (w1 := w) in * end.
  destruct (ApiSubmit_handler_success rt "t1" empty_json_request w1 essay_test
              (VStr "Band 6, roughly."))
    as (p2 & c2 & rq2 & H2); try (vm_compute; reflexivity).
  simpl in H2.
  do 6 eexists. split; [exact H1 |]. split; [exact H2 |].
  simpl. split; [rewrite insert_insert_eq, insert_empty; reflexivity | reflexivity].
Qed.

(** On server.js every orderId and jobId is the next draw of [uuidv4()]. *)
Lemma Server_ids_are_uuid_draws (rt : Runtime) (w w' : World) :
  (forall body oid testId url,
      Server.order_test rt body w = (OrderOk oid testId url, w') ->
      oid = uuidv4_draw rt (uuid_draws w))
  /\ (forall tid file body j r,
      Server.submit rt tid file body w = (SubmitOk j r, w') ->
      j = uuidv4_draw rt (uuid_draws w)).
Proof.
  split.
  - intros body oid testId url H.
    unfold Server.order_test in H.
    execute H; simplify_eq; reflexivity.
  - intros tid file body j r H.
    unfold Server.submit, Server.callOpenAIChat in H.
    crunch H; simplify_eq; reflexivity.
Qed.

(** * Further properties of the handlers *)

(** ** Ordering a test: validation *)

(** X1: on server.js an order whose body has no truthy [testType] is
    answered 400 before anything is drawn, generated or stored. *)
Theorem Server_order_without_testType :
  forall (rt : Runtime) (body : value) (w : World),
    truthy (opt_prop (or_else body (VObj [])) "testType") = false ->
    Server.order_test rt body w = (Error 400 "testType required", w).
Proof.
  intros rt body w H.
  unfold Server.order_test, respond. rewrite H. reflexivity.
Qed.

Lemma Server_order_without_testType_witness :
  truthy (opt_prop (or_else VNull (VObj [])) "testType") = false
  /\ Server.order_test offline_runtime VNull essay_world
     = (Error 400 "testType required", essay_world).
Proof.
  split; [reflexivity |].
  apply (Server_order_without_testType offline_runtime VNull essay_world).
  reflexivity.
Defined.

(** X2: on api/order-test.js a request that is not a POST is answered 405
    and a POST without a truthy [testType] 400; either way the world is
    untouched, so such requests do not count against the client's quota. *)
Theorem ApiOrderTest_invalid_request_has_no_effect :
  forall (rt : Runtime) (req : ApiRequest) (w : World),
    ~ generation_request req ->
    ApiOrderTest.handler rt req w
    = (if String.eqb (method req) "POST"
       then Error 400 "testType required"
       else Error 405 "Method not allowed", w).
Proof.
  intros rt req w H.
  unfold ApiOrderTest.handler.
  destruct (String.eqb_spec (method req) "POST") as [Hm | Hm]; simpl; [| reflexivity].
  unfold respond.
  destruct (truthy (opt_prop (or_else (req_body req) (VObj [])) "testType")) eqn:Ht.
  - exfalso. apply H. split; assumption.
  - reflexivity.
Qed.

Lemma ApiOrderTest_invalid_request_has_no_effect_witness :
  ~ generation_request empty_json_request
  /\ ApiOrderTest.handler offline_runtime empty_json_request spent_world
     = (Error 400 "testType required", spent_world).
Proof.
  assert (H : ~ generation_request empty_json_request).
  { intros [_ Ht]. discriminate Ht. }
  split; [exact H |].
  exact (ApiOrderTest_invalid_request_has_no_effect offline_runtime
           empty_json_request spent_world H).
Defined.

(** ** Generation: the other branches *)

(** X3: for a type that is neither "writing" nor "speaking", both copies of
    [generateTest] return the empty stub [{test_id, type, level,
    questions: []}] with a freshly drawn id, without any external call. *)
Theorem generateTest_other_type_stub :
  forall (d : deployment) (rt : Runtime) (type level numTasks : value) (w : World),
    type <> VUndef ->
    strict_eq_str type "writing" = false ->
    strict_eq_str type "speaking" = false ->
    exists w',
      generateTest_of d rt type level numTasks w
      = (Returns (VObj [("test_id", VStr (uuidv4_draw rt (uuid_draws w)));
                        ("type", type);
                        ("level", param_default level (VStr "ielts-6"));
                        ("questions", VArr [])]), w')
      /\ fetches w' = fetches w
      /\ uuid_draws w' = S (uuid_draws w).
Proof.
  intros d rt type level numTasks w Hu Hw Hs.
  assert (Hp : param_default type (VStr "writing") = type)
    by (destruct type; simpl; congruence).
  destruct d; simpl;
    unfold Server.generateTest, ApiOrderTest.generateTest;
    rewrite Hp, Hw, Hs; eexists; repeat split; reflexivity.
Qed.

Lemma generateTest_other_type_stub_witness :
  exists w',
    generateTest_of Express offline_runtime (VStr "listening") VUndef VUndef init_world
    = (Returns (VObj [("test_id", VStr "0"); ("type", VStr "listening");
                      ("level", VStr "ielts-6"); ("questions", VArr [])]), w')
    /\ fetches w' = fetches init_world
    /\ uuid_draws w' = S (uuid_draws init_world).
Proof.
  apply (generateTest_other_type_stub Express offline_runtime
           (VStr "listening") VUndef VUndef init_world);
    [discriminate | reflexivity | reflexivity].
Defined.

(** The writing branch of either generator when the call succeeds and its
    text parses. *)
Lemma generateTest_writing_parsed_run :
  forall (d : deployment) (rt : Runtime) (level numTasks : value) (w : World)
         (ai parsed : value),
    ToPrimitive_ok (param_default numTasks (VNum 1%float)) = true ->
    ToPrimitive_ok (param_default level (VStr "ielts-6")) = true ->
    chat_reply rt (length (fetches w)) = Some ai ->
    parsed_text rt ai = Some parsed ->
    exists w',
      generateTest_of d rt (VStr "writing") level numTasks w = (Returns parsed, w')
      /\ length (fetches w') = S (length (fetches w))
      /\ ORDERS w' = ORDERS w /\ TESTS w' = TESTS w.
Proof.
  intros d rt level numTasks w ai parsed Hn Hl Hai Hp.
  unfold parsed_text in Hp.
  destruct (ToPrimitive_ok ai) eqn:Hs; [| discriminate].
  destruct d; simpl;
    unfold Server.generateTest, ApiOrderTest.generateTest; simpl.
  - match goal with
    | |- context [Server.writing_instruction rt ?i ?l ?n ?w1] =>
        pose proof (Server_writing_instruction_run rt i l n w1) as Hi
    end.
    rewrite Hn, Hl in Hi. destruct Hi as [sys ->]. run_goal.
    match goal with
    | |- context [Server.callOpenAIChat rt ?m ?w1] =>
        destruct (Server_callOpenAIChat_run rt m w1) as (o & -> & Ho)
    end.
    simpl in Ho. rewrite Hai in Ho. subst o.
    run_goal. rewrite Hs. run_goal. rewrite Hp. run_goal.
    eexists; repeat split. simpl. rewrite length_app. simpl. lia.
  - match goal with
    | |- context [ApiOrderTest.writing_instruction rt ?i ?l ?n ?w1] =>
        pose proof (ApiOrderTest_writing_instruction_run rt i l n w1) as Hi
    end.
    rewrite Hn, Hl in Hi. destruct Hi as [sys ->]. run_goal.
    match goal with
    | |- context [ApiOrderTest.callOpenAIChat rt ?m ?w1] =>
        destruct (ApiOrderTest_callOpenAIChat_run rt m w1) as (o & -> & Ho)
    end.
    simpl in Ho. rewrite Hai in Ho. subst o.
    run_goal. rewrite Hs. run_goal. rewrite Hp. run_goal.
    eexists; repeat split. simpl. rewrite length_app. simpl. lia.
Qed.

(** X4: for the writing type with a [numTasks] and a [level] that have
    strings, when the chat call succeeds and its text is valid JSON, both
    copies of [generateTest] return the parsed value as it is, whatever it
    holds; the locally drawn id appears only in the instruction sent to
    the model. *)
Theorem generateTest_writing_returns_parsed :
  forall (d : deployment) (rt : Runtime) (level numTasks : value) (w : World)
         (ai parsed : value),
    ToPrimitive_ok (param_default numTasks (VNum 1%float)) = true ->
    ToPrimitive_ok (param_default level (VStr "ielts-6")) = true ->
    chat_reply rt (length (fetches w)) = Some ai ->
    parsed_text rt ai = Some parsed ->
    exists w',
      generateTest_of d rt (VStr "writing") level numTasks w = (Returns parsed, w')
      /\ length (fetches w') = S (length (fetches w))
      /\ ORDERS w' = ORDERS w /\ TESTS w' = TESTS w.
Proof. exact generateTest_writing_parsed_run. Qed.

Lemma generateTest_writing_returns_parsed_witness :
  exists w',
    generateTest_of Express zero_runtime (VStr "writing") VUndef VUndef init_world
    = (Returns (VNum 0%float), w')
    /\ length (fetches w') = S (length (fetches init_world))
    /\ ORDERS w' = ORDERS init_world /\ TESTS w' = TESTS init_world.
Proof.
  apply (generateTest_writing_returns_parsed Express zero_runtime VUndef VUndef
           init_world (VStr "0") (VNum 0%float)); reflexivity.
Defined.

(** ** Submitting: what is written, and when *)

Lemma run_submit_effect (rt : Runtime) (c : submit_call) (w w' : World) (resp : response) :
  run_submit rt c w = (resp, w') ->
  TESTS w' = TESTS w
  /\ RATE w' = RATE w
  /\ ((exists job,
          resp = SubmitOk (jobId job) (result job)
          /\ job_testId job = submitted_testId c
          /\ SUBMISSIONS w' = <[jobId job := job]> (SUBMISSIONS w))
      \/ ((exists code msg, resp = Error code msg)
          /\ SUBMISSIONS w' = SUBMISSIONS w
          /\ ORDERS w' = ORDERS w)).
Proof.
  intros H.
  destruct c as [tid file body | tid req]; simpl in H.
  - unfold Server.submit, Server.callOpenAIChat in H.
    crunch H; injection H as <- <-; simpl; (split; [reflexivity |]);
      (split; [reflexivity |]);
      solve [ right; eauto 6
            | left; eexists (mkJob _ _ _ _ _ _); simpl; repeat split; eauto ].
  - unfold ApiSubmit.handler, ApiSubmit.callOpenAIChat, ApiSubmit.fresh_jobId in H.
    crunch H; injection H as <- <-; simpl; (split; [reflexivity |]);
      (split; [reflexivity |]);
      solve [ right; eauto 6
            | left; eexists (mkJob _ _ _ _ _ _); simpl; repeat split; eauto ].
Qed.

(** X5: a submit, on either deployment and whatever its outcome, never
    changes a stored test or a rate bucket.  It writes to the stores only
    when it answers 200, and then exactly one Job, under the returned
    jobId, carrying the returned result and the submitted testId; with any
    other answer the jobs and the orders are as they were. *)
Theorem submit_writes_only_on_success :
  forall (rt : Runtime) (c : submit_call) (w : World),
    let resp := fst (run_submit rt c w) in
    let w' := snd (run_submit rt c w) in
    TESTS w' = TESTS w
    /\ RATE w' = RATE w
    /\ ((exists job,
            resp = SubmitOk (jobId job) (result job)
            /\ job_testId job = submitted_testId c
            /\ SUBMISSIONS w' = <[jobId job := job]> (SUBMISSIONS w))
        \/ ((exists code msg, resp = Error code msg)
            /\ SUBMISSIONS w' = SUBMISSIONS w
            /\ ORDERS w' = ORDERS w)).
Proof.
  intros rt c w. simpl.
  destruct (run_submit_effect rt c w _ _ (surjective_pairing _))
    as (Ht & Hr & [(job & E & Hj & Hs) | Hfail]); eauto 8.
Qed.

(** X6: after a submit answered 200, the job endpoint of either deployment
    returns, for the jobId of the answer, a Job with that jobId, the
    submitted testId and the result of the answer, and reading it changes
    nothing. *)
Theorem submitted_job_is_retrievable :
  forall (rt : Runtime) (c : submit_call) (w w' : World) (j : string) (r : value),
    run_submit rt c w = (SubmitOk j r, w') ->
    exists job,
      Server.get_job j w' = (JobOk job, w')
      /\ ApiJob.handler j w' = (JobOk job, w')
      /\ jobId job = j
      /\ job_testId job = submitted_testId c
      /\ result job = r.
Proof.
  intros rt c w w' j r H.
  destruct (run_submit_effect rt c w w' _ H)
    as (_ & _ & [(job & E & Ht & Hsub) | ((code & msg & E) & _)]);
    [| discriminate].
  injection E as -> ->.
  exists job. unfold Server.get_job, ApiJob.handler.
  rewrite Hsub, lookup_insert_eq. auto.
Qed.

Lemma submitted_job_is_retrievable_witness :
  let run := run_submit prose_runtime (ServerlessSubmit "t1" essay_request) essay_world in
  fst run = SubmitOk "k" (VObj [("raw", VStr "Band 6, roughly.")])
  /\ exists job,
      Server.get_job "k" (snd run) = (JobOk job, snd run)
      /\ ApiJob.handler "k" (snd run) = (JobOk job, snd run)
      /\ jobId job = "k"
      /\ job_testId job = "t1"
      /\ result job = VObj [("raw", VStr "Band 6, roughly.")].
Proof.
  intros run.
  assert (E : fst run = SubmitOk "k" (VObj [("raw", VStr "Band 6, roughly.")]))
    by (vm_compute; reflexivity).
  split; [exact E |].
  apply (submitted_job_is_retrievable prose_runtime
           (ServerlessSubmit "t1" essay_request) essay_world (snd run)).
  rewrite <- E. apply surjective_pairing.
Defined.

(** X7: on every submit path, when the submit reaches the grader and the
    grading call returns text that is valid JSON, the request succeeds and
    the stored Job's result is the parsed value. *)
Theorem submit_structured_result :
  forall (rt : Runtime) (c : submit_call) (w : World) (evalResp parsed : value),
    graded_submit rt c w evalResp ->
    parsed_text rt evalResp = Some parsed ->
    exists job w',
      run_submit rt c w = (SubmitOk (jobId job) parsed, w')
      /\ SUBMISSIONS w' !! jobId job = Some job
      /\ result job = parsed.
Proof.
  intros rt c w evalResp parsed Hreach Hgood.
  destruct (graded_submit_run rt c w evalResp Hreach) as (job & w' & Hrun & Hsub & _ & Hres).
  rewrite Hgood in Hres.
  exists job, w'. rewrite Hrun, Hsub, Hres, lookup_insert_eq. auto.
Qed.

Lemma submit_structured_result_witness :
  exists job w',
    run_submit json_runtime
      (ExpressSubmit "t1" None (VObj [("answers", VArr [VObj [("answerText", VStr "An essay.")]])]))
      essay_world
    = (SubmitOk (jobId job) (VObj []), w')
    /\ SUBMISSIONS w' !! jobId job = Some job
    /\ result job = VObj [].
Proof.
  apply (submit_structured_result json_runtime
           (ExpressSubmit "t1" None
              (VObj [("answers", VArr [VObj [("answerText", VStr "An essay.")]])]))
           essay_world (VStr "{}") (VObj [])).
  - exists essay_test. repeat split; vm_compute; reflexivity.
  - vm_compute. reflexivity.
Defined.

(** ** Submitting: rejections and upstream failures *)

(** X8: a JSON submit against a stored test whose type is not "writing"
    (a speaking test, say) is answered 400 "Unsupported submission type" on
    both deployments, with no external call and no change of state. *)
Theorem json_submit_unsupported_type :
  forall (rt : Runtime) (c : submit_call) (w : World) (test body : value),
    TESTS w !! submitted_testId c = Some test ->
    truthy test = true ->
    strict_eq_str (opt_prop test "type") "writing" = false ->
    json_submit c = Some body ->
    run_submit rt c w = (Error 400 "Unsupported submission type", w).
Proof.
  intros rt c w test body Htest Htruthy Htype Hjson.
  destruct c as [tid [buffer |] body' | tid req]; simpl in *; try discriminate.
  - unfold Server.submit, lookup_test; simpl.
    rewrite Htest; simpl. rewrite Htruthy, Htype. reflexivity.
  - destruct (ApiSubmit.is_multipart req) eqn:Hmp; [discriminate |].
    unfold ApiSubmit.handler, lookup_test; simpl.
    rewrite Htest; simpl. rewrite Htruthy, Hmp, Htype. reflexivity.
Qed.

Lemma json_submit_unsupported_type_witness :
  run_submit offline_runtime (ExpressSubmit "s1" None (VObj [])) speaking_world
  = (Error 400 "Unsupported submission type", speaking_world).
Proof.
  apply (json_submit_unsupported_type offline_runtime (ExpressSubmit "s1" None (VObj []))
           speaking_world (Server.speaking_test "s1" (VStr "ielts-6")) (VObj []));
    reflexivity.
Defined.

(** X9: the serverless submit refuses a multipart POST for a stored test
    with a 400, whatever the test's type, before any external call and
    without touching the state. *)
Theorem ApiSubmit_multipart_refused :
  forall (rt : Runtime) (tid : string) (req : ApiRequest) (w : World) (test : value),
    TESTS w !! tid = Some test ->
    truthy test = true ->
    method req = "POST" ->
    (exists rest, content_type req = Some ("multipart/form-data" ++ rest)) ->
    ApiSubmit.handler rt tid req w
    = (Error 400 "Multipart uploads not supported in demo. Send transcript or use base64 + separate upload.", w).
Proof.
  intros rt tid req w test Htest Htruthy Hm [rest Hct].
  unfold ApiSubmit.handler, lookup_test; simpl.
  rewrite Htest; simpl. rewrite Htruthy; simpl.
  assert (Hmp : ApiSubmit.is_multipart req = true).
  { unfold ApiSubmit.is_multipart. rewrite Hm, Hct.
    destruct rest; vm_compute; reflexivity. }
  rewrite Hmp. reflexivity.
Qed.

Lemma ApiSubmit_multipart_refused_witness :
  ApiSubmit.handler offline_runtime "s1" multipart_request speaking_world
  = (Error 400 "Multipart uploads not supported in demo. Send transcript or use base64 + separate upload.",
     speaking_world).
Proof.
  apply (ApiSubmit_multipart_refused offline_runtime "s1" multipart_request speaking_world
           (Server.speaking_test "s1" (VStr "ielts-6")));
    [reflexivity | reflexivity | reflexivity | exists "; boundary=----x"; reflexivity].
Defined.

(** X10: on server.js, when the transcription service answers with a
    non-2xx status, an audio submit fails with 500 and the message
    "Transcription failed: " followed by the response body; the
    transcription request is the only external call, no grading call is
    made and no store changes. *)
Theorem Server_submit_transcription_failed :
  forall (rt : Runtime) (tid buffer : string) (body test : value) (w : World)
         (st : Z) (text : string),
    TESTS w !! tid = Some test ->
    truthy test = true ->
    fetch_reply rt (length (fetches w)) = HttpReply st text ->
    reply_ok st = false ->
    Server.submit rt tid (Some buffer) body w
    = (Error 500 ("Transcription failed: " ++ text),
       logged (AudioTranscriptions ("Bearer " ++ env_text (OPENAI_API_KEY rt))
                                   buffer "whisper-1") w).
Proof.
  intros rt tid buffer body test w st text Htest Htruthy Hfr Hok.
  unfold Server.submit, lookup_test; simpl.
  rewrite Htest; simpl. rewrite Htruthy; simpl.
  rewrite Hfr, Hok. reflexivity.
Qed.

Lemma Server_submit_transcription_failed_witness :
  Server.submit no_transcription_runtime "s1" (Some "RIFF") VUndef speaking_world
  = (Error 500 "Transcription failed: overloaded",
     logged (AudioTranscriptions "Bearer sk-test" "RIFF" "whisper-1") speaking_world).
Proof.
  apply (Server_submit_transcription_failed no_transcription_runtime "s1" "RIFF" VUndef
           (Server.speaking_test "s1" (VStr "ielts-6")) speaking_world 503 "overloaded");
    reflexivity.
Defined.

(** X11: on server.js an audio submit takes the speaking path whatever
    passes the [!test] guard, a stored test of any type or a member of
    [Object.prototype]: once the transcription succeeds with a text that
    has a string and the grading call succeeds, the grader is sent the
    speaking instruction and the transcript (the empty string when the
    transcription has no [text]) and nothing of the test, and the Job is
    stored with type "speaking" and that transcript under the next uuid. *)
Theorem Server_audio_submit_graded_as_speaking :
  forall (rt : Runtime) (tid buffer text : string) (body trj t evalResp : value)
         (w : World) (st : Z),
    property_truthy (lookup_test tid w) = true ->
    fetch_reply rt (length (fetches w)) = HttpReply st text ->
    reply_ok st = true ->
    JSON_parse rt text = Some trj ->
    get_prop trj "text" = Some t ->
    ToPrimitive_ok (or_else t (VStr EmptyString)) = true ->
    chat_reply rt (S (length (fetches w))) = Some evalResp ->
    exists parsed w' rq job,
      Server.submit rt tid (Some buffer) body w
      = (SubmitOk (uuidv4_draw rt (uuid_draws w)) parsed, w')
      /\ fetches w' = (fetches w ++ [AudioTranscriptions
                                      ("Bearer " ++ env_text (OPENAI_API_KEY rt))
                                      buffer "whisper-1";
                                    ChatCompletions rq])%list
      /\ chat_messages rq
         = [("system", Server.speakingSystem);
            ("user", "Transcript:" ++ nl ++ nl ++ ToString rt (or_else t (VStr EmptyString)))]
      /\ SUBMISSIONS w' !! uuidv4_draw rt (uuid_draws w) = Some job
      /\ job_testId job = tid
      /\ job_type job = "speaking"
      /\ job_input job = with_transcript (or_else t (VStr EmptyString))
      /\ result job = parsed.
Proof.
  intros rt tid buffer text body trj t evalResp w st
         Hguard Hfr Hok Htr Ht Hs Hchat.
  unfold Server.submit; simpl.
  rewrite Hguard; simpl. rewrite Hfr, Hok; simpl. rewrite Htr; simpl.
  rewrite Ht; simpl. rewrite Hs; simpl.
  chat_goal. rewrite Hchat in Ho. subst o.
  rewrite parse_or_raw_run; simpl. rewrite lookup_insert_eq; simpl.
  do 3 eexists; eexists (mkJob _ _ _ _ _ _); simpl.
  split; [reflexivity |]. simpl. rewrite <- app_assoc. simpl.
  repeat split; try reflexivity. apply lookup_insert_eq.
Qed.

Lemma Server_audio_submit_graded_as_speaking_witness :
  exists parsed w' rq job,
    Server.submit silent_audio_runtime "t1" (Some "RIFF") VUndef essay_world
    = (SubmitOk "0" parsed, w')
    /\ fetches w' = (fetches essay_world
                     ++ [AudioTranscriptions "Bearer sk-test" "RIFF" "whisper-1";
                         ChatCompletions rq])%list
    /\ chat_messages rq
       = [("system", Server.speakingSystem);
          ("user", "Transcript:" ++ nl ++ nl ++ EmptyString)]
    /\ SUBMISSIONS w' !! "0" = Some job
    /\ job_testId job = "t1"
    /\ job_type job = "speaking"
    /\ job_input job = with_transcript (VStr EmptyString)
    /\ result job = parsed.
Proof.
  apply (Server_audio_submit_graded_as_speaking silent_audio_runtime "t1" "RIFF" "{}"
           VUndef (VObj []) VUndef (VStr "Band 6, roughly.") essay_world 200);
    reflexivity.
Defined.

(** X12: when the grading service answers a JSON submit against a stored
    writing test with a non-2xx status, the prompt and the essay having
    strings, the submit fails with 500; the message is
    "OpenAI chat error: <status> <body>" on server.js and the bare
    response body on the serverless handler.  The call is logged and no
    store changes. *)
Theorem json_submit_grading_rejected :
  forall (rt : Runtime) (c : submit_call) (w : World) (test body : value)
         (st : Z) (text : string),
    TESTS w !! submitted_testId c = Some test ->
    strict_eq_str (opt_prop test "type") "writing" = true ->
    json_submit c = Some body ->
    ToPrimitive_ok (prompt_of test) = true ->
    ToPrimitive_ok (essay_of (answers_of body)) = true ->
    fetch_reply rt (length (fetches w)) = HttpReply st text ->
    reply_ok st = false ->
    exists rq,
      run_submit rt c w
      = (Error 500 (match c with
                    | ExpressSubmit _ _ _ => "OpenAI chat error: " ++ pretty st ++ " " ++ text
                    | ServerlessSubmit _ _ => text
                    end),
         logged (ChatCompletions rq) w).
Proof.
  intros rt c w test body st text Htest Htype Hjson Hp He Hfr Hok.
  pose proof (writing_test_truthy _ Htype) as Htruthy.
  unfold answers_of in He.
  destruct c as [tid [buffer |] body' | tid req]; simpl in *; try discriminate.
  - injection Hjson as ->.
    unfold Server.submit, Server.callOpenAIChat, lookup_test; simpl.
    rewrite Htest; simpl. rewrite Htruthy, Htype; simpl.
    rewrite Hp, He; simpl. rewrite Hfr, Hok. eexists. reflexivity.
  - destruct (ApiSubmit.is_multipart req) eqn:Hmp; [discriminate |].
    injection Hjson as <-.
    unfold ApiSubmit.handler, ApiSubmit.callOpenAIChat, lookup_test; simpl.
    rewrite Htest; simpl. rewrite Htruthy, Hmp, Htype; simpl.
    rewrite Hp, He; simpl. rewrite Hfr, Hok. eexists. reflexivity.
Qed.

Lemma json_submit_grading_rejected_witness :
  exists rq,
    run_submit throttled_runtime (ExpressSubmit "t1" None (VObj [])) essay_world
    = (Error 500 "OpenAI chat error: 429 slow down", logged (ChatCompletions rq) essay_world).
Proof.
  apply (json_submit_grading_rejected throttled_runtime (ExpressSubmit "t1" None (VObj []))
           essay_world essay_test (VObj []) 429 "slow down"); reflexivity.
Defined.

(** ** Ordering a test: what is stored *)

Ltac order_rejected :=
  left; split; [eauto |]; split; [reflexivity |];
  first [ left; reflexivity
        | unfold TESTS_after; destruct (setter_applies _ _);
          [ left; reflexivity
          | first [ right; eexists (VStr _), _; split; [reflexivity | eassumption]
                  | right; eexists _, _; split; [reflexivity | eassumption] ] ] ].

Ltac order_stored :=
  simpl;
  (split; [reflexivity |]); (split; [eassumption |]);
  (split; [reflexivity |]); (split; [reflexivity |]);
  unfold opt_prop; simpl;
  repeat match goal with
         | E : ?x = _ |- context [?x] => rewrite E; simpl
         end; reflexivity.

Ltac order_accepted :=
  right;
  first [ eexists (VStr _), _, _, _; order_stored
        | eexists _, _, _, _; order_stored ].

Lemma Server_order_test_cases (rt : Runtime) (body : value) (w w' : World) (resp : response) :
  Server.order_test rt body w = (resp, w') ->
  let testType := opt_prop (or_else body (VObj [])) "testType" in
  let level := or_else (opt_prop (or_else body (VObj [])) "level") (VStr "ielts-6") in
  SUBMISSIONS w' = SUBMISSIONS w
  /\ RATE w' = RATE w
  /\ (((exists code msg, resp = Error code msg)
       /\ ORDERS w' = ORDERS w
       /\ (TESTS w' = TESTS w
           \/ exists testId test,
               TESTS w' = <[ToString rt testId := test]> (TESTS w)
               /\ encodeURIComponent rt (ToString rt testId) = None))
      \/ (exists testId test enc created,
             let oid := uuidv4_draw rt (uuid_draws w) in
             let url := env_or (SITE_BASE rt) EmptyString ++ "/?testId=" ++ enc in
             resp = OrderOk oid testId url
             /\ encodeURIComponent rt (ToString rt testId) = Some enc
             /\ TESTS w' = TESTS_after (ToString rt testId) test w
             /\ ORDERS w' = <[oid := mkOrder oid testId test ready created testType level url]>
                              (ORDERS w)
             /\ testId = (if truthy (opt_prop test "test_id")
                          then opt_prop test "test_id"
                          else VStr (uuidv4_draw rt (S (S (uuid_draws w))))))).
Proof.
  intros H testType level. subst testType level.
  unfold Server.order_test, Server.make_testUrl in H.
  execute H; injection H as <- <-; simpl; (split; [reflexivity |]);
    (split; [reflexivity |]);
    first [ order_rejected | order_accepted ].
Qed.

(** X13: an order accepted by server.js with a testId other than
    [__proto__] is filed as [ORDERS[orderId]] under the first uuid drawn,
    with status [ready], the returned testId and testUrl, the request's
    type and level (default "ielts-6"), and the very test that is written
    to [TESTS] under the testId, replacing whatever was stored under that
    key; jobs and rate buckets are untouched. *)
Theorem Server_accepted_order_is_stored :
  forall (rt : Runtime) (body : value) (w w' : World) (oid url : string) (testId : value),
    Server.order_test rt body w = (OrderOk oid testId url, w') ->
    ToString rt testId <> "__proto__" ->
    exists test o,
      oid = uuidv4_draw rt (uuid_draws w)
      /\ TESTS w' = <[ToString rt testId := test]> (TESTS w)
      /\ ORDERS w' = <[oid := o]> (ORDERS w)
      /\ orderId o = oid /\ order_testId o = testId /\ order_test o = test
      /\ status o = ready /\ testUrl o = url
      /\ order_type o = opt_prop (or_else body (VObj [])) "testType"
      /\ order_level o = or_else (opt_prop (or_else body (VObj [])) "level") (VStr "ielts-6")
      /\ SUBMISSIONS w' = SUBMISSIONS w /\ RATE w' = RATE w.
Proof.
  intros rt body w w' oid url testId H Hne.
  destruct (Server_order_test_cases rt body w w' _ H)
    as (Hs & Hr & [[(code & msg & E) _] | (tid & test & enc & created & E & _ & Ht & Ho & _)]);
    [discriminate |].
  injection E as -> -> ->.
  rewrite TESTS_after_other in Ht by exact Hne.
  eexists test, _. split; [reflexivity |]. split; [exact Ht |].
  split; [exact Ho |]. simpl. auto 12.
Qed.

Lemma Server_accepted_order_is_stored_witness :
  exists w',
    Server.order_test offline_runtime listening_body init_world
    = (OrderOk "0" (VStr "1") "/?testId=1", w')
    /\ exists test o,
        "0" = uuidv4_draw offline_runtime (uuid_draws init_world)
        /\ TESTS w' = <[ToString offline_runtime (VStr "1") := test]> (TESTS init_world)
        /\ ORDERS w' = <["0" := o]> (ORDERS init_world)
        /\ orderId o = "0" /\ order_testId o = VStr "1" /\ order_test o = test
        /\ status o = ready /\ testUrl o = "/?testId=1"
        /\ order_type o = opt_prop (or_else listening_body (VObj [])) "testType"
        /\ order_level o
           = or_else (opt_prop (or_else listening_body (VObj [])) "level") (VStr "ielts-6")
        /\ SUBMISSIONS w' = SUBMISSIONS init_world /\ RATE w' = RATE init_world.
Proof.
  eexists. split; [vm_compute; reflexivity |].
  eapply (Server_accepted_order_is_stored offline_runtime listening_body init_world).
  - vm_compute. reflexivity.
  - discriminate.
Defined.

(** X14: the testId of an order accepted by server.js is the generated
    test's own [test_id] when that is truthy (so on the writing path an id
    echoed or invented by the model is taken as it is), and otherwise the
    third uuid drawn; the testUrl is the site base, then "/?testId=", then
    the URI-encoded testId; and unless the testId is [__proto__] the test
    is an own property of [TESTS] under it. *)
Theorem Server_order_testId_source :
  forall (rt : Runtime) (body : value) (w w' : World) (oid url : string) (testId : value),
    Server.order_test rt body w = (OrderOk oid testId url, w') ->
    exists test enc,
      (ToString rt testId <> "__proto__" -> TESTS w' !! ToString rt testId = Some test)
      /\ testId = (if truthy (opt_prop test "test_id")
                   then opt_prop test "test_id"
                   else VStr (uuidv4_draw rt (S (S (uuid_draws w)))))
      /\ encodeURIComponent rt (ToString rt testId) = Some enc
      /\ url = env_or (SITE_BASE rt) EmptyString ++ "/?testId=" ++ enc.
Proof.
  intros rt body w w' oid url testId H.
  destruct (Server_order_test_cases rt body w w' _ H)
    as (_ & _ & [[(code & msg & E) _] | (tid & test & enc & created & E & He & Ht & _ & Hid)]);
    [discriminate |].
  injection E as -> -> ->.
  exists test, enc. split; [| auto].
  intros Hne. rewrite Ht, TESTS_after_other, lookup_insert_eq by exact Hne. reflexivity.
Qed.

Lemma Server_order_testId_source_witness :
  exists w',
    Server.order_test zero_runtime writing_body init_world
    = (OrderOk "0" (VStr "2") "/?testId=2", w')
    /\ exists test enc,
        (ToString zero_runtime (VStr "2") <> "__proto__" ->
         TESTS w' !! ToString zero_runtime (VStr "2") = Some test)
        /\ VStr "2" = (if truthy (opt_prop test "test_id")
                       then opt_prop test "test_id"
                       else VStr (uuidv4_draw zero_runtime (S (S (uuid_draws init_world)))))
        /\ encodeURIComponent zero_runtime (ToString zero_runtime (VStr "2")) = Some enc
        /\ "/?testId=2" = env_or (SITE_BASE zero_runtime) EmptyString ++ "/?testId=" ++ enc.
Proof.
  eexists. split; [vm_compute; reflexivity |].
  eapply (Server_order_testId_source zero_runtime writing_body init_world).
  vm_compute. reflexivity.
Defined.

(** X15: an order that server.js does not accept never files an Order and
    never touches jobs or rate buckets; it leaves a Test behind in exactly
    one case, when the test was stored and URI-encoding its testId then
    failed (there is no rollback). *)
Theorem Server_failed_order_stores_no_order :
  forall (rt : Runtime) (body : value) (w w' : World) (code : Z) (msg : string),
    Server.order_test rt body w = (Error code msg, w') ->
    ORDERS w' = ORDERS w
    /\ SUBMISSIONS w' = SUBMISSIONS w
    /\ RATE w' = RATE w
    /\ (TESTS w' = TESTS w
        \/ exists testId test,
            TESTS w' = <[ToString rt testId := test]> (TESTS w)
            /\ encodeURIComponent rt (ToString rt testId) = None).
Proof.
  intros rt body w w' code msg H.
  destruct (Server_order_test_cases rt body w w' _ H)
    as (Hs & Hr & [(_ & Ho & Ht) | (tid & test & enc & created & E & _)]);
    [auto | discriminate].
Qed.

Lemma Server_failed_order_stores_no_order_witness :
  exists w',
    Server.order_test malformed_uri_runtime listening_body init_world
    = (Error 500 "URI malformed", w')
    /\ ORDERS w' = ORDERS init_world
    /\ SUBMISSIONS w' = SUBMISSIONS init_world
    /\ RATE w' = RATE init_world
    /\ (TESTS w' = TESTS init_world
        \/ exists testId test,
            TESTS w' = <[ToString malformed_uri_runtime testId := test]> (TESTS init_world)
            /\ encodeURIComponent malformed_uri_runtime
                 (ToString malformed_uri_runtime testId) = None).
Proof.
  eexists. split; [vm_compute; reflexivity |].
  eapply (Server_failed_order_stores_no_order malformed_uri_runtime listening_body init_world).
  vm_compute. reflexivity.
Defined.

Lemma param_default_or_else (a b d : value) :
  b <> VUndef -> param_default (or_else a b) d = or_else a b.
Proof.
  intros Hb. unfold or_else.
  destruct (truthy a) eqn:Ha; [destruct a | destruct b]; simpl in *; congruence.
Qed.

(** X16: when the model's reply to a writing order, whose level and
    numTasks have strings, is the valid JSON text [null], [generateTest]
    returns [null], reading its [test_id] raises, and server.js answers 500
    with that TypeError's message; no Test and no Order is stored. *)
Theorem Server_order_null_test_fails :
  forall (rt : Runtime) (body ai : value) (w : World),
    opt_prop (or_else body (VObj [])) "testType" = VStr "writing" ->
    ToPrimitive_ok (or_else (opt_prop (or_else body (VObj [])) "numTasks") (VNum 1%float))
    = true ->
    ToPrimitive_ok (or_else (opt_prop (or_else body (VObj [])) "level") (VStr "ielts-6"))
    = true ->
    chat_reply rt (length (fetches w)) = Some ai ->
    parsed_text rt ai = Some VNull ->
    exists w',
      Server.order_test rt body w = (Error 500 (TypeError_message rt VNull "test_id"), w')
      /\ TESTS w' = TESTS w /\ ORDERS w' = ORDERS w
      /\ length (fetches w') = S (length (fetches w)).
Proof.
  intros rt body ai w Htype Hn Hl Hai Hnull.
  unfold Server.order_test. rewrite Htype. simpl.
  match goal with
  | |- context [Server.generateTest rt ?a ?b ?c ?w1] =>
      destruct (generateTest_writing_parsed_run Express rt b c w1 ai VNull)
        as (w2 & Hg & Hlen & Ho & Ht)
  end; try (rewrite param_default_or_else by discriminate; assumption); try assumption.
  simpl in Hg. rewrite Hg. simpl.
  eexists. split; [reflexivity |]. simpl in *. auto.
Qed.

Lemma Server_order_null_test_fails_witness :
  exists w',
    Server.order_test null_runtime writing_body init_world
    = (Error 500 (TypeError_message null_runtime VNull "test_id"), w')
    /\ TESTS w' = TESTS init_world /\ ORDERS w' = ORDERS init_world
    /\ length (fetches w') = S (length (fetches init_world)).
Proof.
  apply (Server_order_null_test_fails null_runtime writing_body (VStr "null") init_world);
    reflexivity.
Defined.

(** ** The serverless order handler *)

(** X17: the two ways of writing the test URL agree: the conditional of
    api/order-test.js yields the same string as the template literal of
    server.js, for every testId and site base, and fails on the same
    testIds. *)
Theorem make_testUrl_agree :
  forall (rt : Runtime) (testId : value) (w : World),
    ApiOrderTest.make_testUrl rt testId w = Server.make_testUrl rt testId w.
Proof.
  intros rt testId w.
  unfold ApiOrderTest.make_testUrl, Server.make_testUrl. run_goal.
  destruct (ToPrimitive_ok testId); run_goal; [| reflexivity].
  destruct (encodeURIComponent rt (ToString rt testId)) as [enc |]; run_goal;
    [| reflexivity].
  destruct (String.eqb_spec (env_or (SITE_BASE rt) EmptyString) EmptyString) as [-> | _];
    reflexivity.
Qed.

Ltac api_order_stored :=
  simpl;
  (split; [reflexivity |]); (split; [eassumption |]);
  (split; [reflexivity |]); (split; [reflexivity |]);
  (split; [unfold ApiOrderTest.bucket_of; simpl; rewrite lookup_insert_eq; reflexivity |]);
  unfold opt_prop; simpl;
  repeat match goal with
         | E : ?x = _ |- context [?x] => rewrite E; simpl
         end; reflexivity.

Ltac api_order_accepted :=
  right;
  first [ eexists (VStr _), _, _, _; api_order_stored
        | eexists _, _, _, _; api_order_stored ].

Lemma ApiOrderTest_handler_cases (rt : Runtime) (req : ApiRequest) (w w' : World)
    (resp : response) :
  ApiOrderTest.handler rt req w = (resp, w') ->
  let b := or_else (req_body req) (VObj []) in
  let ip := ApiOrderTest.client_ip req in
  let now := Date_now_at rt (clock_reads w) in
  SUBMISSIONS w' = SUBMISSIONS w
  /\ (((exists code msg, resp = Error code msg)
       /\ ORDERS w' = ORDERS w
       /\ (TESTS w' = TESTS w
           \/ exists testId test,
               TESTS w' = <[ToString rt testId := test]> (TESTS w)
               /\ encodeURIComponent rt (ToString rt testId) = None))
      \/ (exists testId test enc created,
             let oid := uuidv4_draw rt (uuid_draws w) in
             let url := env_or (SITE_BASE rt) EmptyString ++ "/?testId=" ++ enc in
             resp = OrderOk oid testId url
             /\ encodeURIComponent rt (ToString rt testId) = Some enc
             /\ TESTS w' = TESTS_after (ToString rt testId) test w
             /\ ORDERS w' = <[oid := mkOrder oid testId test ready created
                                             (opt_prop b "testType")
                                             (or_else (opt_prop b "level") (VStr "ielts-6"))
                                             url]> (ORDERS w)
             /\ ApiOrderTest.bucket_of ip w'
                = (prune now (ApiOrderTest.bucket_of ip w) ++ [now])%list
             /\ testId = (if truthy (opt_prop test "test_id")
                          then opt_prop test "test_id"
                          else VStr (uuidv4_draw rt (S (S (uuid_draws w))))))).
Proof.
  intros H b ip now. subst b ip now.
  unfold ApiOrderTest.handler in H.
  destruct (negb (String.eqb (method req) "POST"));
    [injection H as <- <-; split; [reflexivity |]; order_rejected |].
  simpl in H.
  destruct (negb (truthy (opt_prop (or_else (req_body req) (VObj [])) "testType")));
    [injection H as <- <-; split; [reflexivity |]; order_rejected |].
  simpl in H.
  destruct (rate_check_cases rt (ApiOrderTest.client_ip req) w)
    as [[E _] | [[E _] | [E _]]]; cbv zeta in E; rewrite E in H; clear E;
    unfold ApiOrderTest.make_testUrl in H;
    execute H; injection H as <- <-; simpl; (split; [reflexivity |]);
    try match goal with
        | E : String.eqb ?a EmptyString = true |- _ =>
            apply String.eqb_eq in E; rewrite E
        end;
    first [ order_rejected | api_order_accepted ].
Qed.

(** X18: an order accepted by api/order-test.js with a testId other than
    [__proto__] is stored as on server.js: the Order goes under the first
    uuid drawn with status [ready], the returned testId and testUrl and
    the request's type and level, the test it embeds is written to [TESTS]
    under the testId, and the client's bucket is the pruned bucket followed
    by the time of the request. *)
Theorem ApiOrderTest_accepted_order_is_stored :
  forall (rt : Runtime) (req : ApiRequest) (w w' : World) (oid url : string) (testId : value),
    ApiOrderTest.handler rt req w = (OrderOk oid testId url, w') ->
    ToString rt testId <> "__proto__" ->
    exists test o enc,
      oid = uuidv4_draw rt (uuid_draws w)
      /\ url = env_or (SITE_BASE rt) EmptyString ++ "/?testId=" ++ enc
      /\ encodeURIComponent rt (ToString rt testId) = Some enc
      /\ TESTS w' = <[ToString rt testId := test]> (TESTS w)
      /\ ORDERS w' = <[oid := o]> (ORDERS w)
      /\ orderId o = oid /\ order_testId o = testId /\ order_test o = test
      /\ status o = ready /\ testUrl o = url
      /\ order_type o = opt_prop (or_else (req_body req) (VObj [])) "testType"
      /\ order_level o
         = or_else (opt_prop (or_else (req_body req) (VObj [])) "level") (VStr "ielts-6")
      /\ ApiOrderTest.bucket_of (ApiOrderTest.client_ip req) w'
         = (prune (Date_now_at rt (clock_reads w))
                  (ApiOrderTest.bucket_of (ApiOrderTest.client_ip req) w)
            ++ [Date_now_at rt (clock_reads w)])%list
      /\ SUBMISSIONS w' = SUBMISSIONS w.
Proof.
  intros rt req w w' oid url testId H Hne.
  destruct (ApiOrderTest_handler_cases rt req w w' _ H)
    as (Hs & [[(code & msg & E) _]
             | (tid & test & enc & created & E & He & Ht & Ho & Hb & _)]);
    [discriminate |].
  injection E as -> -> ->.
  rewrite TESTS_after_other in Ht by exact Hne.
  eexists test, _, enc. split; [reflexivity |]. split; [reflexivity |].
  split; [exact He |]. split; [exact Ht |]. split; [exact Ho |].
  simpl. auto 12.
Qed.

Lemma ApiOrderTest_accepted_order_is_stored_witness :
  let req := order_request "203.0.113.7" in
  exists w',
    ApiOrderTest.handler offline_runtime req stale_world
    = (OrderOk "0" (VStr "1") "/?testId=1", w')
    /\ exists test o enc,
        "0" = uuidv4_draw offline_runtime (uuid_draws stale_world)
        /\ "/?testId=1" = env_or (SITE_BASE offline_runtime) EmptyString ++ "/?testId=" ++ enc
        /\ encodeURIComponent offline_runtime (ToString offline_runtime (VStr "1")) = Some enc
        /\ TESTS w' = <[ToString offline_runtime (VStr "1") := test]> (TESTS stale_world)
        /\ ORDERS w' = <["0" := o]> (ORDERS stale_world)
        /\ orderId o = "0" /\ order_testId o = VStr "1" /\ order_test o = test
        /\ status o = ready /\ testUrl o = "/?testId=1"
        /\ order_type o = opt_prop (or_else (req_body req) (VObj [])) "testType"
        /\ order_level o
           = or_else (opt_prop (or_else (req_body req) (VObj [])) "level") (VStr "ielts-6")
        /\ ApiOrderTest.bucket_of (ApiOrderTest.client_ip req) w'
           = (prune (Date_now_at offline_runtime (clock_reads stale_world))
                    (ApiOrderTest.bucket_of (ApiOrderTest.client_ip req) stale_world)
              ++ [Date_now_at offline_runtime (clock_reads stale_world)])%list
        /\ SUBMISSIONS w' = SUBMISSIONS stale_world.
Proof.
  intros req.
  eexists. split; [vm_compute; reflexivity |].
  eapply (ApiOrderTest_accepted_order_is_stored offline_runtime req stale_world).
  - vm_compute. reflexivity.
  - discriminate.
Defined.

(** X19: on api/order-test.js the rate check comes before generation and is
    not undone: when a writing order, whose level and numTasks have
    strings and whose client identifier names no member of
    [Object.prototype], passes the check and the model's reply is the JSON
    text [null], the handler answers 500 and stores neither Test nor
    Order, yet the request's timestamp stays in the client's bucket and
    counts against the quota. *)
Theorem ApiOrderTest_failed_order_consumes_quota :
  forall (rt : Runtime) (req : ApiRequest) (ai : value) (w : World),
    method req = "POST" ->
    opt_prop (or_else (req_body req) (VObj [])) "testType" = VStr "writing" ->
    ToPrimitive_ok (or_else (opt_prop (or_else (req_body req) (VObj [])) "numTasks")
                            (VNum 1%float)) = true ->
    ToPrimitive_ok (or_else (opt_prop (or_else (req_body req) (VObj [])) "level")
                            (VStr "ielts-6")) = true ->
    let ip := ApiOrderTest.client_ip req in
    let now := Date_now_at rt (clock_reads w) in
    Object_prototype_has ip = false ->
    (length (prune now (ApiOrderTest.bucket_of ip w)) < 5)%nat ->
    chat_reply rt (length (fetches w)) = Some ai ->
    parsed_text rt ai = Some VNull ->
    exists w',
      ApiOrderTest.handler rt req w = (Error 500 (TypeError_message rt VNull "test_id"), w')
      /\ ApiOrderTest.bucket_of ip w' = (prune now (ApiOrderTest.bucket_of ip w) ++ [now])%list
      /\ TESTS w' = TESTS w /\ ORDERS w' = ORDERS w.
Proof.
  intros rt req ai w Hm Htype Hn Hl ip now Hip Hroom Hai Hnull.
  unfold ApiOrderTest.handler. rewrite Hm. simpl.
  rewrite Htype. simpl.
  fold ip. rewrite (rate_check_run rt ip w Hip). fold now.
  destruct (5 <=? Z.of_nat (length (prune now (ApiOrderTest.bucket_of ip w))))%Z eqn:E;
    [apply Z.leb_le in E; lia |].
  simpl.
  match goal with
  | |- context [ApiOrderTest.generateTest rt ?a ?b ?c ?w1] =>
      destruct (generateTest_writing_parsed_run Serverless rt b c w1 ai VNull)
        as (w2 & Hg & Hlen & Ho & Ht)
  end; try (rewrite param_default_or_else by discriminate; assumption); try assumption.
  simpl in Hg. rewrite Hg. simpl.
  eexists. split; [reflexivity |].
  split; [| split; assumption].
  assert (Hrate : RATE w2 = <[ip := (prune now (ApiOrderTest.bucket_of ip w) ++ [now])%list]>
                             (RATE w)).
  { destruct (ApiOrderTest_generateTest_frame rt (VStr "writing")
                (or_else (opt_prop (or_else (req_body req) (VObj [])) "level") (VStr "ielts-6"))
                (or_else (opt_prop (or_else (req_body req) (VObj [])) "numTasks")
                         (VNum 1%float))
                (mkWorld (ORDERS w) (ORDER_KEYS w) (TESTS w) (TESTS_proto w) (SUBMISSIONS w)
                         (<[ip := (prune now (ApiOrderTest.bucket_of ip w) ++ [now])%list]>
                            (RATE w))
                         (S (uuid_draws w)) (S (clock_reads w)) (random_draws w) (fetches w)))
      as (o & log & Ef & _).
    simpl in Ef. rewrite Hg in Ef. injection Ef as _ ->. reflexivity. }
  unfold ApiOrderTest.bucket_of at 1. rewrite Hrate, lookup_insert_eq. reflexivity.
Qed.

Lemma ApiOrderTest_failed_order_consumes_quota_witness :
  exists w',
    ApiOrderTest.handler null_runtime (writing_request "203.0.113.7") stale_world
    = (Error 500 (TypeError_message null_runtime VNull "test_id"), w')
    /\ ApiOrderTest.bucket_of "203.0.113.7" w' = [1793664000000]
    /\ TESTS w' = TESTS stale_world /\ ORDERS w' = ORDERS stale_world.
Proof.
  apply (ApiOrderTest_failed_order_consumes_quota null_runtime
           (writing_request "203.0.113.7") (VStr "null") stale_world);
    [reflexivity | reflexivity | reflexivity | reflexivity | reflexivity
    | vm_compute; lia | reflexivity | reflexivity].
Defined.

(** ** The rate buckets over time *)

Lemma ApiOrderTest_handler_rate_cases (rt : Runtime) (req : ApiRequest) (w : World) :
  let w' := snd (ApiOrderTest.handler rt req w) in
  let ip := ApiOrderTest.client_ip req in
  let now := Date_now_at rt (clock_reads w) in
  let kept := prune now (ApiOrderTest.bucket_of ip w) in
  RATE w' = RATE w
  \/ RATE w' = <[ip := kept]> (RATE w)
  \/ ((length kept < 5)%nat
      /\ RATE w' = <[ip := (kept ++ [now])%list]> (RATE w)).
Proof.
  intros w' ip now kept. subst w'.
  destruct (ApiOrderTest.handler rt req w) as [resp w'] eqn:H. simpl.
  unfold ApiOrderTest.handler in H.
  destruct (negb (String.eqb (method req) "POST")).
  { injection H as <- <-. left; reflexivity. }
  simpl in H.
  destruct (negb (truthy (opt_prop (or_else (req_body req) (VObj [])) "testType"))).
  { injection H as <- <-. left; reflexivity. }
  simpl in H.
  destruct (rate_check_cases rt (ApiOrderTest.client_ip req) w)
    as [[E Hlt] | [[E _] | [E _]]]; cbv zeta in E; rewrite E in H; clear E.
  - right; right. split; [exact Hlt |].
    execute H; injection H as <- <-; reflexivity.
  - simpl in H. injection H as <- <-. right; left; reflexivity.
  - simpl in H. injection H as <- <-. left; reflexivity.
Qed.

(** X20: a request to api/order-test.js reads and writes only the bucket of
    the client it comes from; every other client's bucket is left as it
    was, whatever the outcome. *)
Theorem rate_buckets_are_per_client :
  forall (rt : Runtime) (req : ApiRequest) (w : World) (other : string),
    other <> ApiOrderTest.client_ip req ->
    RATE (snd (ApiOrderTest.handler rt req w)) !! other = RATE w !! other.
Proof.
  intros rt req w other Hne.
  destruct (ApiOrderTest_handler_rate_cases rt req w) as [-> | [-> | [_ ->]]];
    rewrite ?lookup_insert_ne by congruence; reflexivity.
Qed.

Lemma rate_buckets_are_per_client_witness :
  RATE (snd (ApiOrderTest.handler offline_runtime (order_request "203.0.113.7") stale_world))
    !! "198.51.100.9"
  = RATE stale_world !! "198.51.100.9".
Proof.
  apply (rate_buckets_are_per_client offline_runtime (order_request "203.0.113.7")
           stale_world "198.51.100.9").
  discriminate.
Defined.

Lemma prune_all_old (now : Z) (bucket : list Z) :
  Forall (fun t => DAY <= now - t) bucket -> prune now bucket = [].
Proof.
  intros H. unfold prune.
  induction H as [| t l Ht _ IH]; [reflexivity |].
  rewrite filter_cons, decide_False by lia. exact IH.
Qed.

(** X21: the quota comes back: once every timestamp in a client's bucket is
    24 hours old or older, the next generation request of that client,
    whose identifier names no member of [Object.prototype], passes the
    rate check on api/order-test.js, and the bucket then holds that
    request's timestamp alone. *)
Theorem rate_limit_recovers_after_a_day :
  forall (rt : Runtime) (req : ApiRequest) (w : World),
    generation_request req ->
    Object_prototype_has (ApiOrderTest.client_ip req) = false ->
    Forall (fun t => DAY <= Date_now_at rt (clock_reads w) - t)
           (ApiOrderTest.bucket_of (ApiOrderTest.client_ip req) w) ->
    fst (ApiOrderTest.handler rt req w) <> quota_error
    /\ ApiOrderTest.bucket_of (ApiOrderTest.client_ip req)
                              (snd (ApiOrderTest.handler rt req w))
       = [Date_now_at rt (clock_reads w)].
Proof.
  intros rt req w Hgen Hip Hold.
  destruct (ApiOrderTest.handler rt req w) as [resp w'] eqn:H.
  pose proof (ApiOrderTest_handler_rate rt req w w' resp Hgen Hip H) as Hstep.
  simpl in Hstep. rewrite (prune_all_old _ _ Hold) in Hstep. simpl in Hstep.
  exact Hstep.
Qed.

Lemma rate_limit_recovers_after_a_day_witness :
  let req := order_request "203.0.113.7" in
  length (ApiOrderTest.bucket_of (ApiOrderTest.client_ip req) stale_world) = 5%nat
  /\ fst (ApiOrderTest.handler offline_runtime req stale_world) <> quota_error
  /\ ApiOrderTest.bucket_of (ApiOrderTest.client_ip req)
                            (snd (ApiOrderTest.handler offline_runtime req stale_world))
     = [Date_now_at offline_runtime (clock_reads stale_world)].
Proof.
  intros req. split; [vm_compute; reflexivity |].
  apply (rate_limit_recovers_after_a_day offline_runtime req stale_world).
  - split; reflexivity.
  - reflexivity.
  - assert (E : ApiOrderTest.bucket_of (ApiOrderTest.client_ip req) stale_world
                = [1793500000000; 1793510000000; 1793520000000;
                   1793530000000; 1793577600000])
      by (vm_compute; reflexivity).
    rewrite E. repeat (constructor; [unfold DAY; simpl; lia |]). constructor.
Defined.

Lemma prune_length (now : Z) (bucket : list Z) :
  (length (prune now bucket) <= length bucket)%nat.
Proof. apply length_filter. Qed.

Lemma perform_rate (rt : Runtime) (op : operation) (w : World) :
  RATE (snd (perform rt op w)) = RATE w
  \/ exists req, op = OnApi (ApiOrderTestReq req).
Proof.
  destruct op as [[body | | tid | tid file body | jid |] | [req | tid | tid req | jid |]];
    simpl; try (right; eexists; reflexivity); left.
  - destruct (Server.order_test rt body w) as [resp w'] eqn:H.
    apply (Server_order_test_cases rt body w w' resp H).
  - rewrite Server_my_tests_world. reflexivity.
  - unfold Server.get_test. repeat case_match; reflexivity.
  - destruct (Server.submit rt tid file body w) as [resp w'] eqn:H.
    apply (run_submit_effect rt (ExpressSubmit tid file body) w w' resp H).
  - unfold Server.get_job. repeat case_match; reflexivity.
  - reflexivity.
  - unfold ApiTest.handler. repeat case_match; reflexivity.
  - destruct (ApiSubmit.handler rt tid req w) as [resp w'] eqn:H.
    apply (run_submit_effect rt (ServerlessSubmit tid req) w w' resp H).
  - unfold ApiJob.handler. repeat case_match; reflexivity.
  - reflexivity.
Qed.

(** X22: in every state reached from the empty stores by any sequence of
    requests to either deployment, every client's rate bucket holds at most
    5 timestamps. *)
Theorem rate_bucket_never_exceeds_five :
  forall (rt : Runtime) (ops : list operation) (ip : string),
    (length (ApiOrderTest.bucket_of ip (run rt ops init_world)) <= 5)%nat.
Proof.
  intros rt ops.
  assert (Hinv : forall w, (forall ip, (length (ApiOrderTest.bucket_of ip w) <= 5)%nat) ->
                           forall ip, (length (ApiOrderTest.bucket_of ip (run rt ops w)) <= 5)%nat).
  { induction ops as [| op ops IH]; intros w Hw; [exact Hw |].
    simpl. apply IH. intros ip.
    destruct (perform_rate rt op w) as [E | [req ->]].
    - unfold ApiOrderTest.bucket_of. rewrite E. apply Hw.
    - simpl. unfold ApiOrderTest.bucket_of at 1.
      pose proof (prune_length (Date_now_at rt (clock_reads w))
                    (ApiOrderTest.bucket_of (ApiOrderTest.client_ip req) w)) as Hp.
      pose proof (Hw (ApiOrderTest.client_ip req)) as Hc.
      destruct (ApiOrderTest_handler_rate_cases rt req w) as [-> | [-> | [Hlt ->]]].
      + apply Hw.
      + destruct (decide (ApiOrderTest.client_ip req = ip)) as [<- | Hne].
        * rewrite lookup_insert_eq. simpl. lia.
        * rewrite lookup_insert_ne by exact Hne. apply Hw.
      + destruct (decide (ApiOrderTest.client_ip req = ip)) as [<- | Hne].
        * rewrite lookup_insert_eq. simpl. rewrite length_app. simpl. lia.
        * rewrite !lookup_insert_ne by exact Hne. apply Hw. }
  apply Hinv. intros ip. unfold ApiOrderTest.bucket_of. simpl.
  rewrite lookup_empty. simpl. lia.
Qed.

(** ** Grading marks and the listing *)

(** X23: marking the orders of a test as graded is idempotent, and marking
    for two tests gives the same orders in either order; so repeated or
    overlapping submits on server.js cannot disagree about any order. *)
Theorem mark_graded_idempotent_commutative :
  forall (t1 t2 : string) (orders : gmap string Order),
    mark_graded t1 <$> (mark_graded t1 <$> orders) = mark_graded t1 <$> orders
    /\ mark_graded t1 <$> (mark_graded t2 <$> orders)
       = mark_graded t2 <$> (mark_graded t1 <$> orders).
Proof.
  intros t1 t2 orders. split.
  - rewrite <- map_fmap_compose. apply map_fmap_ext. intros id o _. simpl.
    unfold mark_graded at 2.
    destruct (strict_eq_str (order_testId o) t1) eqn:E.
    + unfold mark_graded. simpl. rewrite E. reflexivity.
    + unfold mark_graded. rewrite E. reflexivity.
  - rewrite <- !map_fmap_compose. apply map_fmap_ext. intros id o _. simpl.
    unfold mark_graded.
    destruct (strict_eq_str (order_testId o) t1) eqn:E1;
      destruct (strict_eq_str (order_testId o) t2) eqn:E2; simpl;
      rewrite ?E1, ?E2; reflexivity.
Qed.

Lemma list_orders_run (rt : Runtime) (l : list Order) (w : World) :
  Forall (fun o => ToPrimitive_ok (order_testId o) = true
                   /\ is_Some (encodeURIComponent rt (ToString rt (order_testId o)))) l ->
  exists out,
    foldr (fun (o : Order) (acc : M (list OrderSummary)) =>
             let! url := Server.make_testUrl rt (order_testId o) in
             let! rest := acc in
             ret (mkSummary (orderId o) (order_testId o) (order_type o) (order_level o)
                            (status o) (order_createdAt o) url :: rest))
          (ret []) l w
    = (Returns out, w)
    /\ Forall2 (fun o s => exists enc,
                   encodeURIComponent rt (ToString rt (order_testId o)) = Some enc
                   /\ s = summary_of rt o enc) l out.
Proof.
  set (step := fun (o : Order) (acc : M (list OrderSummary)) =>
                 let! url := Server.make_testUrl rt (order_testId o) in
                 let! rest := acc in
                 ret (mkSummary (orderId o) (order_testId o) (order_type o) (order_level o)
                                (status o) (order_createdAt o) url :: rest)).
  induction 1 as [| o l [Hs [enc Henc]] _ (out & IH & Hall)].
  - eexists; split; [reflexivity | constructor].
  - assert (Hurl : Server.make_testUrl rt (order_testId o) w
                   = (Returns (env_or (SITE_BASE rt) EmptyString ++ "/?testId=" ++ enc), w)).
    { unfold Server.make_testUrl. simpl. rewrite Hs. simpl. rewrite Henc. reflexivity. }
    cbn [foldr]. unfold step at 1. cbn [bind]. rewrite Hurl, IH.
    eexists; split; [reflexivity |].
    constructor; [eauto | exact Hall].
Qed.

Lemma insert_index_perm (e : N * string) (l : list (N * string)) :
  insert_index e l ≡ₚ e :: l.
Proof.
  induction l as [| e' l IH]; simpl; [reflexivity |].
  destruct (fst e <=? fst e')%N; [reflexivity |].
  rewrite IH. apply Permutation_swap.
Qed.

Lemma own_keys_perm (keys : list string) : own_keys keys ≡ₚ keys.
Proof.
  unfold own_keys.
  induction keys as [| k keys IH]; [reflexivity |].
  simpl. destruct (array_index k) as [i |]; simpl.
  - rewrite insert_index_perm. simpl. rewrite IH. reflexivity.
  - rewrite <- Permutation_middle. rewrite IH. reflexivity.
Qed.

Lemma Object_values_perm {A : Type} (keys : list string) (m : gmap string A) :
  NoDup keys -> (forall id, id ∈ keys <-> is_Some (m !! id)) ->
  Object_values keys m ≡ₚ (map_to_list m).*2.
Proof.
  intros Hnd Hdom. unfold Object_values.
  rewrite own_keys_perm.
  assert (E : omap (fun k => m !! k) keys
              = (omap (fun k => (fun v => (k, v)) <$> m !! k) keys).*2).
  { clear. induction keys as [| k l IH]; [reflexivity |].
    cbn [omap list_omap fmap list_fmap]. destruct (m !! k); cbn [fmap option_fmap option_map list_fmap snd];
      [f_equal |]; exact IH. }
  rewrite E. clear E. apply fmap_Permutation.
  apply NoDup_Permutation.
  - clear Hdom. induction Hnd as [| k l Hk Hl IH]; simpl; [constructor |].
    destruct (m !! k) as [v |]; simpl; [| exact IH].
    constructor; [| exact IH].
    intros Hin. apply list_elem_of_omap in Hin as (k' & Hk' & E').
    destruct (m !! k'); simpl in E'; [| discriminate]. injection E' as -> _. contradiction.
  - apply NoDup_map_to_list.
  - intros [k v]. rewrite elem_of_map_to_list, list_elem_of_omap. split.
    + intros (k' & _ & E'). destruct (m !! k') eqn:Hk'; simpl in E'; [| discriminate].
      injection E' as -> ->. exact Hk'.
    + intros Hk. exists k. split; [apply Hdom; eauto |]. rewrite Hk. reflexivity.
Qed.

Lemma Server_order_test_keys (rt : Runtime) (body : value) (w : World) :
  keys_evolve w (snd (Server.order_test rt body w)).
Proof.
  destruct (Server.order_test rt body w) as [resp w'] eqn:H.
  unfold Server.order_test in H.
  execute H; injection H as <- <-; unfold keys_evolve; simpl;
    solve [ left; split; [reflexivity | left; reflexivity]
          | right; eexists _, _; split; reflexivity ].
Qed.

Lemma ApiOrderTest_handler_keys (rt : Runtime) (req : ApiRequest) (w : World) :
  keys_evolve w (snd (ApiOrderTest.handler rt req w)).
Proof.
  destruct (ApiOrderTest.handler rt req w) as [resp w'] eqn:H.
  unfold ApiOrderTest.handler in H.
  execute H; injection H as <- <-; unfold keys_evolve; simpl;
    solve [ left; split; [reflexivity | left; reflexivity]
          | right; eexists _, _; split; reflexivity ].
Qed.

Lemma run_submit_keys (rt : Runtime) (c : submit_call) (w : World) :
  keys_evolve w (snd (run_submit rt c w)).
Proof.
  destruct (run_submit rt c w) as [resp w'] eqn:H.
  destruct c as [tid file body | tid req]; simpl in H.
  - unfold Server.submit, Server.callOpenAIChat in H.
    crunch H; injection H as <- <-; unfold keys_evolve; simpl;
      left; (split; [reflexivity |]); eauto.
  - unfold ApiSubmit.handler, ApiSubmit.callOpenAIChat, ApiSubmit.fresh_jobId in H.
    crunch H; injection H as <- <-; unfold keys_evolve; simpl;
      left; (split; [reflexivity |]); eauto.
Qed.

Lemma perform_keys_evolve (rt : Runtime) (op : operation) (w : World) :
  keys_evolve w (snd (perform rt op w)).
Proof.
  destruct op as [[body | | tid | tid file body | jid |] | [req | tid | tid req | jid |]];
    simpl.
  - apply Server_order_test_keys.
  - rewrite Server_my_tests_world. left; auto.
  - unfold Server.get_test. repeat case_match; simpl; left; auto.
  - apply (run_submit_keys rt (ExpressSubmit tid file body)).
  - unfold Server.get_job. repeat case_match; simpl; left; auto.
  - left; auto.
  - apply ApiOrderTest_handler_keys.
  - unfold ApiTest.handler. repeat case_match; simpl; left; auto.
  - apply (run_submit_keys rt (ServerlessSubmit tid req)).
  - unfold ApiJob.handler. repeat case_match; simpl; left; auto.
  - left; auto.
Qed.

Lemma keys_evolve_listed (w w' : World) :
  keys_evolve w w' -> keys_listed w -> keys_listed w'.
Proof.
  intros [[Hk Ho] | (oid & o & Ho & Hk)] [Hnd Hdom]; unfold keys_listed; rewrite Hk.
  - split; [exact Hnd |]. intros id. rewrite Hdom.
    destruct Ho as [-> | [tid ->]]; [reflexivity |].
    rewrite lookup_fmap, fmap_is_Some. reflexivity.
  - rewrite Ho. unfold ORDER_KEYS_after.
    destruct (ORDERS w !! oid) as [o0 |] eqn:E.
    + split; [exact Hnd |]. intros id. rewrite Hdom.
      destruct (decide (oid = id)) as [<- | Hne].
      * rewrite lookup_insert_eq, E. split; eauto.
      * rewrite lookup_insert_ne by exact Hne. reflexivity.
    + split.
      * apply NoDup_app. split; [exact Hnd |]. split; [| apply NoDup_singleton].
        intros id Hin Hin'. apply list_elem_of_singleton in Hin' as ->.
        apply Hdom in Hin. rewrite E in Hin. destruct Hin; discriminate.
      * intros id. rewrite elem_of_app, list_elem_of_singleton, Hdom.
        destruct (decide (oid = id)) as [<- | Hne].
        -- rewrite lookup_insert_eq. split; eauto.
        -- rewrite lookup_insert_ne by exact Hne. split; [intros [? | ->]; [auto | contradiction] | auto].
Qed.

Lemma run_keys_listed (rt : Runtime) (ops : list operation) (w : World) :
  keys_listed w -> keys_listed (run rt ops w).
Proof.
  revert w. induction ops as [| op ops IH]; intros w Hinv; [exact Hinv |].
  simpl. apply IH. eapply keys_evolve_listed; [apply perform_keys_evolve | exact Hinv].
Qed.

Lemma init_keys_listed : keys_listed init_world.
Proof.
  split; [constructor |]. intros id. simpl. rewrite lookup_empty.
  split; [intros H; apply elem_of_nil in H; contradiction | intros [? H]; discriminate].
Qed.

Lemma mark_graded_listable (rt : Runtime) (tid : string) (w : World) :
  orders_listable rt w ->
  map_Forall (fun _ o => ToPrimitive_ok (order_testId o) = true
                         /\ is_Some (encodeURIComponent rt (ToString rt (order_testId o))))
             (mark_graded tid <$> ORDERS w).
Proof.
  intros H id o Ho. rewrite lookup_fmap in Ho.
  destruct (ORDERS w !! id) as [o0 |] eqn:E; [| discriminate].
  injection Ho as <-. specialize (H id o0 E).
  unfold mark_graded. destruct (strict_eq_str _ _); exact H.
Qed.

Lemma insert_listable (rt : Runtime) (oid : string) (o : Order) (w : World) :
  ToPrimitive_ok (order_testId o) = true ->
  is_Some (encodeURIComponent rt (ToString rt (order_testId o))) ->
  orders_listable rt w ->
  map_Forall (fun _ o => ToPrimitive_ok (order_testId o) = true
                         /\ is_Some (encodeURIComponent rt (ToString rt (order_testId o))))
             (<[oid := o]> (ORDERS w)).
Proof.
  intros Hs He Hw id o' Ho.
  destruct (decide (oid = id)) as [<- | Hne].
  - rewrite lookup_insert_eq in Ho. injection Ho as <-. auto.
  - rewrite lookup_insert_ne in Ho by exact Hne. exact (Hw id o' Ho).
Qed.

Lemma Server_order_test_listable (rt : Runtime) (body : value) (w : World) :
  orders_listable rt w -> orders_listable rt (snd (Server.order_test rt body w)).
Proof.
  intros Hw.
  destruct (Server.order_test rt body w) as [resp w'] eqn:H.
  unfold Server.order_test, Server.make_testUrl in H.
  execute H; injection H as <- <-; unfold orders_listable; simpl; try exact Hw;
    (apply insert_listable;
     [ simpl; first [assumption | reflexivity]
     | simpl; match goal with E : encodeURIComponent rt _ = Some _ |- _ => rewrite E; eauto end
     | exact Hw ]).
Qed.

Lemma ApiOrderTest_handler_listable (rt : Runtime) (req : ApiRequest) (w : World) :
  orders_listable rt w -> orders_listable rt (snd (ApiOrderTest.handler rt req w)).
Proof.
  intros Hw.
  destruct (ApiOrderTest.handler rt req w) as [resp w'] eqn:H.
  unfold ApiOrderTest.handler, ApiOrderTest.make_testUrl in H.
  execute H; injection H as <- <-; unfold orders_listable; simpl; try exact Hw;
    (apply insert_listable;
     [ simpl; first [assumption | reflexivity]
     | simpl; match goal with E : encodeURIComponent rt _ = Some _ |- _ => rewrite E; eauto end
     | exact Hw ]).
Qed.

Lemma perform_listable (rt : Runtime) (op : operation) (w : World) :
  orders_listable rt w -> orders_listable rt (snd (perform rt op w)).
Proof.
  intros Hw.
  destruct op as [[body | | tid | tid file body | jid |] | [req | tid | tid req | jid |]];
    simpl.
  - apply Server_order_test_listable, Hw.
  - rewrite Server_my_tests_world. exact Hw.
  - unfold Server.get_test. repeat case_match; exact Hw.
  - destruct (Server.submit rt tid file body w) as [resp w'] eqn:H.
    destruct (Server_submit_orders _ _ _ _ _ _ _ H) as [_ [[_ Ho] | [_ Ho]]];
      unfold orders_listable; simpl; rewrite Ho; [apply mark_graded_listable |]; exact Hw.
  - unfold Server.get_job. repeat case_match; exact Hw.
  - exact Hw.
  - apply ApiOrderTest_handler_listable, Hw.
  - unfold ApiTest.handler. repeat case_match; exact Hw.
  - destruct (ApiSubmit_handler_orders rt tid req w) as [Ho _].
    unfold orders_listable. rewrite Ho. exact Hw.
  - unfold ApiJob.handler. repeat case_match; exact Hw.
  - exact Hw.
Qed.

Lemma run_listable (rt : Runtime) (ops : list operation) (w : World) :
  orders_listable rt w -> orders_listable rt (run rt ops w).
Proof.
  revert w. induction ops as [| op ops IH]; intros w Hinv; [exact Hinv |].
  simpl. apply IH, perform_listable, Hinv.
Qed.

(** The listing in a state whose orders can all be listed. *)
Lemma Server_my_tests_run (rt : Runtime) (w : World) :
  orders_listable rt w ->
  exists entries,
    Server.my_tests rt w = (TestsOk entries, w)
    /\ Forall2 (fun o s => exists enc,
                   encodeURIComponent rt (ToString rt (order_testId o)) = Some enc
                   /\ s = summary_of rt o enc)
               (Object_values (ORDER_KEYS w) (ORDERS w)) entries.
Proof.
  intros Hall.
  assert (Hl : Forall (fun o => ToPrimitive_ok (order_testId o) = true
                                /\ is_Some (encodeURIComponent rt
                                              (ToString rt (order_testId o))))
                      (Object_values (ORDER_KEYS w) (ORDERS w))).
  { apply Forall_forall. intros o Ho.
    apply list_elem_of_omap in Ho as (id & _ & Hin).
    exact (Hall id o Hin). }
  destruct (list_orders_run rt _ w Hl) as (out & Hrun & Hout).
  exists out. split; [| exact Hout].
  unfold Server.my_tests. simpl. rewrite Hrun. reflexivity.
Qed.

(** X24: in every state reached from the empty stores by requests to
    either deployment, the listing of server.js answers 200 with the
    entries of [Object.values(ORDERS)], in that order, which holds every
    stored order once: each entry carries its order's id, testId, type,
    level, current status and creation time, and a URL computed afresh
    from the testId.  The template of the route, which no [try] guards,
    does not throw on a stored order, and listing changes nothing. *)
Theorem Server_my_tests_lists_every_order :
  forall (rt : Runtime) (ops : list operation),
    let w := run rt ops init_world in
    exists entries,
      Server.my_tests rt w = (TestsOk entries, w)
      /\ Forall2 (fun o s => exists enc,
                     encodeURIComponent rt (ToString rt (order_testId o)) = Some enc
                     /\ s = summary_of rt o enc)
                 (Object_values (ORDER_KEYS w) (ORDERS w)) entries
      /\ Object_values (ORDER_KEYS w) (ORDERS w) ≡ₚ (map_to_list (ORDERS w)).*2.
Proof.
  intros rt ops w.
  assert (Hl : orders_listable rt w).
  { apply run_listable. intros id o H. simpl in H. rewrite lookup_empty in H. discriminate. }
  destruct (run_keys_listed rt ops init_world init_keys_listed) as [Hnd Hdom].
  destruct (Server_my_tests_run rt w Hl) as (entries & Hrun & Hall).
  exists entries. split; [exact Hrun |]. split; [exact Hall |].
  apply Object_values_perm; assumption.
Qed.

(** Two orders whose identifiers are drawn as "order-b", then "order-a":
    the listing follows the order of creation, not that of the keys. *)
Example my_tests_in_creation_order :
  fst (Server.my_tests named_ids_runtime
         (run named_ids_runtime
              [OnServer (Server.PostOrderTest listening_body);
               OnServer (Server.PostOrderTest listening_body)]
              init_world))
  = TestsOk [mkSummary "order-b" (VStr "test-b") (VStr "listening") (VStr "ielts-6") ready
                       "2026-01-01T00:00:00.000Z" "/?testId=test-b";
             mkSummary "order-a" (VStr "test-a") (VStr "listening") (VStr "ielts-6") ready
                       "2026-01-01T00:00:00.000Z" "/?testId=test-a"].
Proof. vm_compute. reflexivity. Qed.

(** Stored orders whose keys are array indices come first in the listing,
    in ascending order, as [Object.values] has them. *)
Example Object_values_index_keys_first :
  own_keys ["order-b"; "10"; "order-a"; "9"; "007"] = ["9"; "10"; "order-b"; "order-a"; "007"]
  /\ Object_values (ORDER_KEYS two_orders_world) (ORDERS two_orders_world)
     = [first_order; second_order].
Proof. split; vm_compute; reflexivity. Qed.

(** ** Keys that the stores inherit, and values that have no string *)

(** X25: for the writing type, when [numTasks] or [level] has no string
    (an object with a [toString] property of its own, as a request body
    may carry it), either generator throws while it writes its
    instruction, which is outside the [try]: no external call is made and
    no fallback test is returned. *)
Theorem generateTest_writing_no_instruction :
  forall (d : deployment) (rt : Runtime) (level numTasks : value) (w : World),
    ToPrimitive_ok (param_default numTasks (VNum 1%float))
    && ToPrimitive_ok (param_default level (VStr "ielts-6")) = false ->
    exists msg w',
      generateTest_of d rt (VStr "writing") level numTasks w = (Throws msg, w')
      /\ fetches w' = fetches w.
Proof.
  intros d rt level numTasks w H.
  destruct d; simpl;
    unfold Server.generateTest, ApiOrderTest.generateTest; simpl.
  - match goal with
    | |- context [Server.writing_instruction rt ?i ?l ?n ?w1] =>
        pose proof (Server_writing_instruction_run rt i l n w1) as Hs
    end.
    rewrite H in Hs. destruct Hs as [msg ->]. eauto.
  - match goal with
    | |- context [ApiOrderTest.writing_instruction rt ?i ?l ?n ?w1] =>
        pose proof (ApiOrderTest_writing_instruction_run rt i l n w1) as Hs
    end.
    rewrite H in Hs. destruct Hs as [msg ->]. eauto.
Qed.

Lemma generateTest_writing_no_instruction_witness :
  exists msg w',
    generateTest_of Express offline_runtime (VStr "writing") object_level VUndef init_world
    = (Throws msg, w')
    /\ fetches w' = fetches init_world.
Proof.
  apply (generateTest_writing_no_instruction Express offline_runtime object_level VUndef
           init_world).
  reflexivity.
Defined.

(** The order route of server.js turns that throw into a 500; nothing is
    stored and nothing is sent. *)
Example Server_order_object_level :
  Server.order_test offline_runtime
    (VObj [("testType", VStr "writing"); ("level", object_level)]) init_world
  = (Error 500 "Cannot convert object to primitive value",
     mkWorld ∅ [] ∅ None ∅ ∅ 2 0 0 []).
Proof. vm_compute. reflexivity. Qed.

(** X26: on api/order-test.js a generation request whose client identifier
    names a member of [Object.prototype] ("constructor", say, sent as
    x-forwarded-for), and for which no bucket is on record, is answered
    500: [global.RATE[ip] || []] is the inherited member, which has no
    [filter].  The clock has been read; no timestamp is recorded, nothing
    is generated or stored. *)
Theorem ApiOrderTest_inherited_client_fails :
  forall (rt : Runtime) (req : ApiRequest) (w : World),
    generation_request req ->
    Object_prototype_has (ApiOrderTest.client_ip req) = true ->
    RATE w !! ApiOrderTest.client_ip req = None ->
    ApiOrderTest.handler rt req w
    = (Error 500 (NotAFunction_message rt "global.RATE[ip].filter"),
       mkWorld (ORDERS w) (ORDER_KEYS w) (TESTS w) (TESTS_proto w) (SUBMISSIONS w) (RATE w)
               (uuid_draws w) (S (clock_reads w)) (random_draws w) (fetches w)).
Proof.
  intros rt req w [Hm Ht] Hip Hnone.
  unfold ApiOrderTest.handler, ApiOrderTest.rate_check. rewrite Hm. simpl.
  rewrite Ht. simpl. rewrite Hnone, Hip. reflexivity.
Qed.

Lemma ApiOrderTest_inherited_client_fails_witness :
  ApiOrderTest.handler offline_runtime (order_request "constructor") init_world
  = (Error 500 "global.RATE[ip].filter is not a function",
     mkWorld ∅ [] ∅ None ∅ ∅ 0 1 0 []).
Proof.
  apply (ApiOrderTest_inherited_client_fails offline_runtime (order_request "constructor")
           init_world).
  - split; reflexivity.
  - reflexivity.
  - reflexivity.
Defined.

(** X27: a submit whose [TESTS[testId]] is [undefined] or falsy (no test is
    stored under the testId and the store inherits nothing under it, or
    the stored value is falsy) is answered not-found on both deployments,
    with no external call and the whole state as it was; in particular no
    Job is created. *)
Theorem submit_absent_test_not_found :
  forall (rt : Runtime) (c : submit_call) (w : World),
    property_truthy (lookup_test (submitted_testId c) w) = false ->
    run_submit rt c w = (Error 404 "test not found", w).
Proof.
  intros rt c w H.
  destruct c as [tid file body | tid req]; simpl in *;
    unfold Server.submit, ApiSubmit.handler, respond, bind, gets;
    rewrite H; reflexivity.
Qed.

Lemma submit_absent_test_not_found_witness :
  run_submit offline_runtime (ExpressSubmit "t9" (Some "RIFF") VUndef) essay_world
  = (Error 404 "test not found", essay_world).
Proof.
  apply (submit_absent_test_not_found offline_runtime
           (ExpressSubmit "t9" (Some "RIFF") VUndef) essay_world).
  reflexivity.
Defined.

(** X28: the read routes do not refuse a name that the stores inherit.
    While the prototype of [TESTS] is [Object.prototype], a fetch of a
    test, or of a job, under the name of a member of [Object.prototype]
    that is not stored is answered 200 with that member, on both
    deployments, and changes nothing. *)
Theorem inherited_names_are_answered :
  forall (name : string) (w : World),
    Object_prototype_has name = true ->
    (TESTS w !! name = None -> TESTS_proto w = None ->
     Server.get_test name w = (TestBuiltin name, w)
     /\ ApiTest.handler name w = (TestBuiltin name, w))
    /\ (SUBMISSIONS w !! name = None ->
        Server.get_job name w = (JobBuiltin name, w)
        /\ ApiJob.handler name w = (JobBuiltin name, w)).
Proof.
  intros name w Hname. split.
  - intros Hnone Hproto.
    unfold Server.get_test, ApiTest.handler, lookup_test.
    rewrite Hnone, Hproto, Hname. auto.
  - intros Hnone.
    unfold Server.get_job, ApiJob.handler.
    rewrite Hnone, Hname. auto.
Qed.

Lemma inherited_names_are_answered_witness :
  (Server.get_test "constructor" init_world = (TestBuiltin "constructor", init_world)
   /\ ApiTest.handler "constructor" init_world = (TestBuiltin "constructor", init_world))
  /\ (Server.get_job "__proto__" essay_world = (JobBuiltin "__proto__", essay_world)
      /\ ApiJob.handler "__proto__" essay_world = (JobBuiltin "__proto__", essay_world)).
Proof.
  split.
  - apply (inherited_names_are_answered "constructor" init_world); reflexivity.
  - apply (inherited_names_are_answered "__proto__" essay_world); reflexivity.
Defined.


(** X30: a JSON submit against a stored writing test of which the first
    prompt, or the essay, has no string is answered 500 on both
    deployments: the template that writes the grading message throws, so
    no grading call is made and no Job is stored; the state is as it
    was. *)
Theorem json_submit_unwritable_message :
  forall (rt : Runtime) (c : submit_call) (w : World) (test body : value),
    TESTS w !! submitted_testId c = Some test ->
    strict_eq_str (opt_prop test "type") "writing" = true ->
    json_submit c = Some body ->
    ToPrimitive_ok (prompt_of test) && ToPrimitive_ok (essay_of (answers_of body)) = false ->
    run_submit rt c w
    = (Error 500 (ToPrimitive_message rt
                    (if ToPrimitive_ok (prompt_of test) then essay_of (answers_of body)
                     else prompt_of test)), w).
Proof.
  intros rt c w test body Htest Htype Hjson Hbad.
  pose proof (writing_test_truthy _ Htype) as Htruthy.
  unfold answers_of in *.
  destruct c as [tid [buffer |] body' | tid req]; simpl in *; try discriminate.
  - injection Hjson as ->.
    unfold Server.submit, lookup_test; simpl.
    rewrite Htest; simpl. rewrite Htruthy, Htype; simpl.
    destruct (ToPrimitive_ok (prompt_of test)); simpl in *; [rewrite Hbad |]; reflexivity.
  - destruct (ApiSubmit.is_multipart req) eqn:Hmp; [discriminate |].
    injection Hjson as <-.
    unfold ApiSubmit.handler, lookup_test; simpl.
    rewrite Htest; simpl. rewrite Htruthy, Hmp, Htype; simpl.
    destruct (ToPrimitive_ok (prompt_of test)); simpl in *; [rewrite Hbad |]; reflexivity.
Qed.

Lemma json_submit_unwritable_message_witness :
  run_submit prose_runtime
    (ExpressSubmit "t1" None (VObj [("answers", VArr [VObj [("answerText", object_level)]])]))
    essay_world
  = (Error 500 "Cannot convert object to primitive value", essay_world).
Proof.
  apply (json_submit_unwritable_message prose_runtime
           (ExpressSubmit "t1" None
              (VObj [("answers", VArr [VObj [("answerText", object_level)]])]))
           essay_world essay_test
           (VObj [("answers", VArr [VObj [("answerText", object_level)]])]));
    reflexivity.
Defined.
